(** * Record reconciliation of the Technitium / GoDaddy DNS Terraform provider

    A shallow embedding of
      - [internal/model/model.go]      : the record identity relation [SameKey];
      - [internal/provider/record.go]  : [apiRecsToKeep], [Update], [Delete]
                                         (the set-replacing record resource);
      - the Technitium record resource : [ImportState] and the string helpers
                                         of the Go standard library it calls.

    Go strings are byte strings and are modelled by [string]; the unsigned
    integer fields are modelled by [Z] with the wrap-around of the Go
    conversions written out where the source converts. *)

From Stdlib Require Import String Ascii List ZArith Bool Lia.
Import ListNotations.
Local Open Scope list_scope.
Local Open Scope string_scope.

(* ===================================================================== *)
(** ** Go standard library helpers used by the provider *)
(* ===================================================================== *)

Module GoStrings.

(** [strings.Split(s, sep)] for the one-byte separators the provider uses
    ([IMPORT_SEP] and the blank).  [cur] is the field being read.  The result
    always has one more element than there are separators in [s]; in
    particular [Split "" sep = [""]]. *)
Fixpoint splitFrom (sep : ascii) (cur : string) (s : string) : list string :=
  match s with
  | EmptyString => [cur]
  | String c rest =>
      if Ascii.eqb c sep
      then cur :: splitFrom sep EmptyString rest
      else splitFrom sep (cur ++ String c EmptyString) rest
  end.

Definition Split (s : string) (sep : ascii) : list string :=
  splitFrom sep EmptyString s.

(** [strings.SplitN(s, sep, n)]: at most [n] fields, the last one being the
    unsplit remainder; [n = 0] gives the nil slice. *)
Fixpoint splitNFrom (sep : ascii) (n : nat) (cur : string) (s : string)
  {struct s} : list string :=
  match n with
  | O => []
  | S O => [cur ++ s]
  | S n' =>
      match s with
      | EmptyString => [cur]
      | String c rest =>
          if Ascii.eqb c sep
          then cur :: splitNFrom sep n' EmptyString rest
          else splitNFrom sep n (cur ++ String c EmptyString) rest
      end
  end.

Definition SplitN (s : string) (sep : ascii) (n : nat) : list string :=
  splitNFrom sep n EmptyString s.

(** [strings.Count(s, sep)] for a one-byte separator. *)
Fixpoint Count (s : string) (sep : ascii) : nat :=
  match s with
  | EmptyString => 0
  | String c rest =>
      if Ascii.eqb c sep then S (Count rest sep) else Count rest sep
  end.

(** [strings.Contains(s, substr)]. *)
Fixpoint Contains (s substr : string) : bool :=
  if String.prefix substr s then true
  else match s with
       | EmptyString => false
       | String _ rest => Contains rest substr
       end.

Definition isDigit (c : ascii) : bool :=
  let n := nat_of_ascii c in (48 <=? n)%nat && (n <=? 57)%nat.

Fixpoint digitsValue (acc : Z) (s : string) : option Z :=
  match s with
  | EmptyString => Some acc
  | String c rest =>
      if isDigit c
      then digitsValue (10 * acc + (Z.of_nat (nat_of_ascii c) - 48)) rest
      else None
  end.

(** [strconv.ParseInt(s, 10, 64)]: an optional sign, then one or more decimal
    digits; [None] stands for a non-nil error (syntax or out of range). *)
Definition ParseInt (s : string) : option Z :=
  let parseAbs (neg : bool) (body : string) :=
    match body with
    | EmptyString => None
    | _ =>
        match digitsValue 0 body with
        | None => None
        | Some v =>
            let x := if neg then (- v)%Z else v in
            if ((- 2 ^ 63 <=? x) && (x <=? 2 ^ 63 - 1))%Z then Some x else None
        end
    end in
  match s with
  | EmptyString => None
  | String c rest =>
      if Ascii.eqb c "+"%char then parseAbs false rest
      else if Ascii.eqb c "-"%char then parseAbs true rest
      else parseAbs false s
  end.

End GoStrings.


(* ===================================================================== *)
(** ** internal/model/model.go *)
(* ===================================================================== *)

Module Model.

Definition DNSRecordType := string.
Definition DNSRecordName := string.
Definition DNSRecordSRVService := string.
(** [uint32] and [uint16] payloads; values are kept in range by the
    conversions that build them. *)
Definition DNSRecordTTL := Z.
Definition DNSRecordPrio := Z.
Definition DNSRecordSRVWeight := Z.
Definition DNSRecordSRVPort := Z.
Definition uint16 := Z.

Definition REC_A : DNSRecordType := "A".
Definition REC_AAAA : DNSRecordType := "AAAA".
Definition REC_CNAME : DNSRecordType := "CNAME".
Definition REC_MX : DNSRecordType := "MX".
Definition REC_NS : DNSRecordType := "NS".
Definition REC_SOA : DNSRecordType := "SOA".
Definition REC_SRV : DNSRecordType := "SRV".
Definition REC_TXT : DNSRecordType := "TXT".
Definition REC_PTR : DNSRecordType := "PTR".
Definition REC_NAPTR : DNSRecordType := "NAPTR".
Definition REC_DNAME : DNSRecordType := "DNAME".
Definition REC_DS : DNSRecordType := "DS".
Definition REC_SSHFP : DNSRecordType := "SSHFP".
Definition REC_TLSA : DNSRecordType := "TLSA".
Definition REC_SVCB : DNSRecordType := "SVCB".
Definition REC_HTTPS : DNSRecordType := "HTTPS".
Definition REC_URI : DNSRecordType := "URI".
Definition REC_CAA : DNSRecordType := "CAA".
Definition REC_ANAME : DNSRecordType := "ANAME".
Definition REC_FWD : DNSRecordType := "FWD".
Definition REC_APP : DNSRecordType := "APP".

(** [type DNSRecord struct]; the Go field [Type] is spelled [Type_]. *)
Record DNSRecord : Type := mkDNSRecord {
  Type_ : DNSRecordType;
  Domain : DNSRecordName;
  TTL : DNSRecordTTL;
  Comments : string;
  ExpiryTTL : DNSRecordTTL;
  IPAddress : string;
  Ptr : bool;
  CreatePtrZone : bool;
  UpdateSvcbHints : bool;
  NameServer : string;
  Glue : string;
  CName : string;
  PtrName : string;
  Exchange : string;
  Preference : DNSRecordPrio;
  Text : string;
  SplitText : bool;
  Mailbox : string;
  TxtDomain : string;
  Priority : DNSRecordPrio;
  Weight : DNSRecordSRVWeight;
  Port : DNSRecordSRVPort;
  Target : DNSRecordSRVService;
  NaptrOrder : uint16;
  NaptrPreference : uint16;
  NaptrFlags : string;
  NaptrServices : string;
  NaptrRegexp : string;
  NaptrReplacement : string;
  DName : string;
  KeyTag : uint16;
  Algorithm : string;
  DigestType : string;
  Digest : string;
  SshfpAlgorithm : string;
  SshfpFingerprintType : string;
  SshfpFingerprint : string;
  TlsaCertificateUsage : string;
  TlsaSelector : string;
  TlsaMatchingType : string;
  TlsaCertificateAssociationData : string;
  SvcPriority : uint16;
  SvcTargetName : string;
  SvcParams : string;
  AutoIpv4Hint : bool;
  AutoIpv6Hint : bool;
  UriPriority : uint16;
  UriWeight : uint16;
  Uri : string;
  Flags : string;
  Tag : string;
  Value : string;
  AName : string;
  Protocol : string;
  Forwarder : string;
  ForwarderPriority : uint16;
  DnssecValidation : bool;
  ProxyType : string;
  ProxyAddress : string;
  ProxyPort : uint16;
  ProxyUsername : string;
  ProxyPassword : string;
  AppName : string;
  ClassPath : string;
  RecordData : string
}.

(** [func (r DNSRecord) SameKey(r1 DNSRecord) bool].  The [println] of the
    mismatch branch only writes to standard error and is left out. *)
Definition SameKey (r r1 : DNSRecord) : bool :=
  if negb (Type_ r =? Type_ r1) || negb (Domain r =? Domain r1) then false
  else
    let t := Type_ r in
    if (t =? REC_A) || (t =? REC_AAAA) then
      let ip1 := IPAddress r in
      let ip1 := if ip1 =? "" then Value r else ip1 in
      let ip2 := IPAddress r1 in
      let ip2 := if ip2 =? "" then Value r1 else ip2 in
      (ip1 =? ip2) && negb (ip1 =? "")
    else if (t =? REC_CNAME) || (t =? REC_ANAME) || (t =? REC_DNAME) then true
    else if t =? REC_SRV then
      (Port r =? Port r1)%Z && (Target r =? Target r1)
    else if t =? REC_MX then Exchange r =? Exchange r1
    else if t =? REC_TXT then Text r =? Text r1
    else if t =? REC_PTR then PtrName r =? PtrName r1
    else if t =? REC_NS then NameServer r =? NameServer r1
    else if t =? REC_NAPTR then
      (NaptrFlags r =? NaptrFlags r1) && (NaptrServices r =? NaptrServices r1)
      && (NaptrRegexp r =? NaptrRegexp r1)
      && (NaptrReplacement r =? NaptrReplacement r1)
    else if t =? REC_DS then
      (KeyTag r =? KeyTag r1)%Z && (Algorithm r =? Algorithm r1)
      && (DigestType r =? DigestType r1) && (Digest r =? Digest r1)
    else if t =? REC_SSHFP then
      (SshfpAlgorithm r =? SshfpAlgorithm r1)
      && (SshfpFingerprintType r =? SshfpFingerprintType r1)
      && (SshfpFingerprint r =? SshfpFingerprint r1)
    else if t =? REC_TLSA then
      (TlsaCertificateUsage r =? TlsaCertificateUsage r1)
      && (TlsaSelector r =? TlsaSelector r1)
      && (TlsaMatchingType r =? TlsaMatchingType r1)
      && (TlsaCertificateAssociationData r =? TlsaCertificateAssociationData r1)
    else if (t =? REC_SVCB) || (t =? REC_HTTPS) then
      (SvcTargetName r =? SvcTargetName r1) && (SvcParams r =? SvcParams r1)
    else if t =? REC_URI then
      (UriPriority r =? UriPriority r1)%Z && (UriWeight r =? UriWeight r1)%Z
      && (Uri r =? Uri r1)
    else if t =? REC_CAA then
      (Flags r =? Flags r1) && (Tag r =? Tag r1) && (Value r =? Value r1)
    else if t =? REC_FWD then Forwarder r =? Forwarder r1
    else if t =? REC_APP then
      (AppName r =? AppName r1) && (ClassPath r =? ClassPath r1)
    else false.

(** The struct literal [DNSRecord{Type: ty, Domain: domain, IPAddress: ip,
    Value: value}] of the unit tests: every other field has its zero value. *)
Definition addressRecord (ty : DNSRecordType) (domain : DNSRecordName)
  (ip value : string) : DNSRecord :=
  {| Type_ := ty;
     Domain := domain;
     TTL := 0%Z;
     Comments := "";
     ExpiryTTL := 0%Z;
     IPAddress := ip;
     Ptr := false;
     CreatePtrZone := false;
     UpdateSvcbHints := false;
     NameServer := "";
     Glue := "";
     CName := "";
     PtrName := "";
     Exchange := "";
     Preference := 0%Z;
     Text := "";
     SplitText := false;
     Mailbox := "";
     TxtDomain := "";
     Priority := 0%Z;
     Weight := 0%Z;
     Port := 0%Z;
     Target := "";
     NaptrOrder := 0%Z;
     NaptrPreference := 0%Z;
     NaptrFlags := "";
     NaptrServices := "";
     NaptrRegexp := "";
     NaptrReplacement := "";
     DName := "";
     KeyTag := 0%Z;
     Algorithm := "";
     DigestType := "";
     Digest := "";
     SshfpAlgorithm := "";
     SshfpFingerprintType := "";
     SshfpFingerprint := "";
     TlsaCertificateUsage := "";
     TlsaSelector := "";
     TlsaMatchingType := "";
     TlsaCertificateAssociationData := "";
     SvcPriority := 0%Z;
     SvcTargetName := "";
     SvcParams := "";
     AutoIpv4Hint := false;
     AutoIpv6Hint := false;
     UriPriority := 0%Z;
     UriWeight := 0%Z;
     Uri := "";
     Flags := "";
     Tag := "";
     Value := value;
     AName := "";
     Protocol := "";
     Forwarder := "";
     ForwarderPriority := 0%Z;
     DnssecValidation := false;
     ProxyType := "";
     ProxyAddress := "";
     ProxyPort := 0%Z;
     ProxyUsername := "";
     ProxyPassword := "";
     AppName := "";
     ClassPath := "";
     RecordData := "" |}.

(** The two records of the unit test case "A uses IP address or value". *)
Definition testA1 : DNSRecord := addressRecord REC_A "example.com" "1.2.3.4" "".
Definition testA2 : DNSRecord := addressRecord REC_A "example.com" "" "1.2.3.4".

End Model.

(* ===================================================================== *)
(** ** Effects: a state monad over the provider's environment *)
(* ===================================================================== *)

Module Eff.

Definition M (S A : Type) : Type := S -> A * S.

Definition ret {S A : Type} (a : A) : M S A := fun s => (a, s).

Definition bind {S A B : Type} (m : M S A) (k : A -> M S B) : M S B :=
  fun s => let (a, s') := m s in k a s'.

End Eff.

Declare Scope eff_scope.
Delimit Scope eff_scope with eff.
Notation "x <- m ;; k" := (Eff.bind m (fun x => k))
  (at level 61, m at next level, right associativity) : eff_scope.
Notation "' pat <- m ;; k" := (Eff.bind m (fun pat => k))
  (at level 61, pat pattern, m at next level, right associativity) : eff_scope.
Notation "m ;;; k" := (Eff.bind m (fun _ => k))
  (at level 61, right associativity) : eff_scope.

(* ===================================================================== *)
(** ** Terraform plugin framework values used by the resources *)
(* ===================================================================== *)

Module Framework.

(** [types.String] and [types.Int64]: [None] is a null or unknown value. *)
Definition tfString := option string.
Definition tfInt64 := option Z.

Definition ValueString (v : tfString) : string :=
  match v with Some s => s | None => "" end.
Definition ValueInt64 (v : tfInt64) : Z :=
  match v with Some z => z | None => 0%Z end.

Inductive Severity := SeverityError | SeverityWarning.

Record Diagnostic : Type := mkDiagnostic {
  severity : Severity;
  summary : string;
  detail : string
}.

Definition Diagnostics := list Diagnostic.

Definition isError (d : Diagnostic) : bool :=
  match severity d with SeverityError => true | SeverityWarning => false end.

Definition HasError (ds : Diagnostics) : bool := existsb isError ds.

Definition severity_eqb (a b : Severity) : bool :=
  match a, b with
  | SeverityError, SeverityError | SeverityWarning, SeverityWarning => true
  | _, _ => false
  end.

Definition Equal (a b : Diagnostic) : bool :=
  severity_eqb (severity a) (severity b)
  && (summary a =? summary b) && (detail a =? detail b).

Definition Contains (ds : Diagnostics) (d : Diagnostic) : bool :=
  existsb (Equal d) ds.

(** [diags.Append(in...)]: a diagnostic already present is not added again. *)
Definition Append (ds : Diagnostics) (new : Diagnostics) : Diagnostics :=
  fold_left (fun acc d => if Contains acc d then acc else (acc ++ [d])%list)
            new ds.

Definition AddError (ds : Diagnostics) (sum det : string) : Diagnostics :=
  Append ds [mkDiagnostic SeverityError sum det].

Definition AddWarning (ds : Diagnostics) (sum det : string) : Diagnostics :=
  Append ds [mkDiagnostic SeverityWarning sum det].

(** Go conversions [uint32(x)] and [uint16(x)] of an [int64]. *)
Definition to_uint32 (x : Z) : Z := (x mod 2 ^ 32)%Z.
Definition to_uint16 (x : Z) : Z := (x mod 2 ^ 16)%Z.

End Framework.

(* ===================================================================== *)
(** ** internal/provider/record.go : the set-replacing record resource *)
(* ===================================================================== *)

Module Record.
Import Framework.

(** [const IMPORT_SEP = ":"] *)
Definition IMPORT_SEP : ascii := ":"%char.

(** [model.REC_MX] and [model.REC_SRV] *)
Definition REC_MX : string := "MX".
Definition REC_SRV : string := "SRV".

Definition DNSDomain := string.
Definition DNSRecordType := string.
Definition DNSRecordName := string.
Definition DNSRecordData := string.

(** Modelled from the spec: the declaration of the record struct this file
    works on is absent from the sources (spec section 3, Record: type, name,
    ttl and a type-specific payload).  The fields are the ones [tf2model]
    and the client's [GetRecords] fill in; the Go field [Type] is spelled
    [Type_]. *)
Module DNSRecord.
Record t : Type := mk {
  Name : DNSRecordName;
  Type_ : DNSRecordType;
  Data : DNSRecordData;
  TTL : Z;
  Priority : Z;
  Protocol : string;
  Service : string;
  Port : Z;
  Weight : Z
}.
End DNSRecord.

(** Modelled from the spec: the declaration of [DNSUpdateRecord] is absent
    from the sources (spec section 3, UpdateRecord: a reduced record
    representation, data and type-specific extra fields, no type and no
    name).  The fields are the ones [Update] sets and the client's
    [SetRecords] reads. *)
Module DNSUpdateRecord.
Record t : Type := mk {
  Data : DNSRecordData;
  TTL : Z;
  Priority : Z;
  Protocol : string;
  Service : string;
  Port : Z;
  Weight : Z
}.

(** Go's [==] on the comparable struct. *)
Definition eqb (a b : t) : bool :=
  (Data a =? Data b) && (TTL a =? TTL b)%Z && (Priority a =? Priority b)%Z
  && (Protocol a =? Protocol b) && (Service a =? Service b)
  && (Port a =? Port b)%Z && (Weight a =? Weight b)%Z.
End DNSUpdateRecord.

(** [slices.Index(s, v)]: the index of the first occurrence, or -1. *)
Fixpoint indexFrom (i : Z) (s : list DNSUpdateRecord.t) (v : DNSUpdateRecord.t)
  : Z :=
  match s with
  | [] => (-1)%Z
  | x :: rest =>
      if DNSUpdateRecord.eqb v x then i else indexFrom (i + 1)%Z rest v
  end.

Definition slices_Index (s : list DNSUpdateRecord.t) (v : DNSUpdateRecord.t)
  : Z := indexFrom 0%Z s v.

(** [type tfDNSRecord struct] *)
Module tfDNSRecord.
Record t : Type := mk {
  Domain : tfString;
  Type_ : tfString;
  Name : tfString;
  Data : tfString;
  TTL : tfInt64;
  Priority : tfInt64
}.
End tfDNSRecord.

(** [func tf2model(tfData tfDNSRecord) (model.DNSDomain, model.DNSRecord)] *)
Definition tf2model (tfData : tfDNSRecord.t) : DNSDomain * DNSRecord.t :=
  (ValueString (tfDNSRecord.Domain tfData),
   {| DNSRecord.Name := ValueString (tfDNSRecord.Name tfData);
      DNSRecord.Type_ := ValueString (tfDNSRecord.Type_ tfData);
      DNSRecord.Data := ValueString (tfDNSRecord.Data tfData);
      DNSRecord.TTL := to_uint32 (ValueInt64 (tfDNSRecord.TTL tfData));
      DNSRecord.Priority := to_uint16 (ValueInt64 (tfDNSRecord.Priority tfData));
      DNSRecord.Protocol := "";
      DNSRecord.Service := "";
      DNSRecord.Port := 0%Z;
      DNSRecord.Weight := 0%Z |}).

(** The struct literal [ourRec] of [Update]: the planned record in update
    format, with the fields the literal leaves out at their zero values. *)
Definition ourRec (apiRecPlan : DNSRecord.t) : DNSUpdateRecord.t :=
  {| DNSUpdateRecord.Data := DNSRecord.Data apiRecPlan;
     DNSUpdateRecord.TTL := DNSRecord.TTL apiRecPlan;
     DNSUpdateRecord.Priority := DNSRecord.Priority apiRecPlan;
     DNSUpdateRecord.Protocol := "";
     DNSUpdateRecord.Service := "";
     DNSUpdateRecord.Port := 0%Z;
     DNSUpdateRecord.Weight := 0%Z |}.

(** The calls the resource makes on its collaborators, in program order:
    the API client's methods and the request mutex. *)
Inductive Event : Type :=
| EvLock
| EvUnlock
| EvGetRecords (d : DNSDomain) (t : DNSRecordType) (n : DNSRecordName)
| EvAddRecords (d : DNSDomain) (recs : list DNSRecord.t)
| EvSetRecords (d : DNSDomain) (t : DNSRecordType) (n : DNSRecordName)
               (recs : list DNSUpdateRecord.t)
| EvDelRecords (d : DNSDomain) (t : DNSRecordType) (n : DNSRecordName).

(** The calls that change the server: add, replace-set and delete-set. *)
Definition isMutation (e : Event) : bool :=
  match e with
  | EvAddRecords _ _ | EvSetRecords _ _ _ _ | EvDelRecords _ _ _ => true
  | EvLock | EvUnlock | EvGetRecords _ _ _ => false
  end.

(** [req.Plan.Get(ctx, &data)] and [req.State.Get(ctx, &data)]: the
    diagnostics of the decoding and the decoded value. *)
Definition Decoded : Type := Diagnostics * tfDNSRecord.t.

Record UpdateRequest : Type := mkUpdateRequest {
  Plan_Get : Decoded;
  State_Get : Decoded
}.

Record DeleteRequest : Type := mkDeleteRequest {
  DeleteState_Get : Decoded
}.

Record CreateRequest : Type := mkCreateRequest {
  CreatePlan_Get : Decoded
}.

Record ReadRequest : Type := mkReadRequest {
  ReadState_Get : Decoded
}.

(** [resource.UpdateResponse] / [resource.DeleteResponse]: the diagnostics
    and the state the operation leaves. *)
Record Response : Type := mkResponse {
  RespDiagnostics : Diagnostics;
  RespState : option tfDNSRecord.t
}.

Definition appendDiags (resp : Response) (ds : Diagnostics) : Response :=
  {| RespDiagnostics := Append (RespDiagnostics resp) ds;
     RespState := RespState resp |}.

Definition addError (resp : Response) (sum det : string) : Response :=
  {| RespDiagnostics := AddError (RespDiagnostics resp) sum det;
     RespState := RespState resp |}.

(** [resp.State.Set(ctx, &data)]; a value of the schema's own struct type
    converts without diagnostics. *)
Definition State_Set (resp : Response) (data : tfDNSRecord.t) : Response :=
  {| RespDiagnostics := RespDiagnostics resp; RespState := Some data |}.

(** [resp.State.RemoveResource(ctx)] *)
Definition State_RemoveResource (resp : Response) : Response :=
  {| RespDiagnostics := RespDiagnostics resp; RespState := None |}.

Definition addWarning (resp : Response) (sum det : string) : Response :=
  {| RespDiagnostics := AddWarning (RespDiagnostics resp) sum det;
     RespState := RespState resp |}.

Section Resource.

(** The DNS service behind the API client and the client's error values. *)
Variable World : Type.
Variable ApiErr : Type.
Variable errorText : ApiErr -> string.

(** [model.DNSApiClient] as this file calls it: each method reads and may
    change the service. *)
Record DNSApiClient : Type := mkClient {
  GetRecords : DNSDomain -> DNSRecordType -> DNSRecordName -> World ->
               (list DNSRecord.t + ApiErr) * World;
  AddRecords : DNSDomain -> list DNSRecord.t -> World -> option ApiErr * World;
  SetRecords : DNSDomain -> DNSRecordType -> DNSRecordName ->
               list DNSUpdateRecord.t -> World -> option ApiErr * World;
  DelRecords : DNSDomain -> DNSRecordType -> DNSRecordName -> World ->
               option ApiErr * World
}.

Variable client : DNSApiClient.

(** Methods of the model package whose bodies are absent from the sources:
    [DNSRecord.SameKey], [DNSRecord.ToUpdate] and
    [DNSRecordType.IsSingleValue]. *)
Variable SameKey : DNSRecord.t -> DNSRecord.t -> bool.
Variable ToUpdate : DNSRecord.t -> DNSUpdateRecord.t.
Variable IsSingleValue : DNSRecordType -> bool.

(** Go [error] values seen by this file: the sentinel, an error of the
    client, and [errors.Wrap]. *)
Inductive error : Type :=
| errRecordGone
| clientError (e : ApiErr)
| Wrap (cause : error) (msg : string).

Fixpoint Error (e : error) : string :=
  match e with
  | errRecordGone => "record already gone"
  | clientError e' => errorText e'
  | Wrap cause msg => msg ++ ": " ++ Error cause
  end.

(** [fmt.Sprintf] of an [error] under the verb [%s]. *)
Definition fmt_s (err : option error) : string :=
  match err with Some e => Error e | None => "%!s(<nil>)" end.

(** [err == errRecordGone] *)
Definition isRecordGone (e : error) : bool :=
  match e with errRecordGone => true | _ => false end.

Record Env : Type := mkEnv {
  world : World;
  trace : list Event
}.

Definition emit (e : Event) : Eff.M Env unit :=
  fun env => (tt, {| world := world env; trace := (trace env ++ [e])%list |}).

Definition callGetRecords (d : DNSDomain) (t : DNSRecordType)
  (n : DNSRecordName) : Eff.M Env (list DNSRecord.t + ApiErr) :=
  fun env =>
    let (r, w) := GetRecords client d t n (world env) in
    (r, {| world := w; trace := (trace env ++ [EvGetRecords d t n])%list |}).

Definition callAddRecords (d : DNSDomain) (recs : list DNSRecord.t)
  : Eff.M Env (option error) :=
  fun env =>
    let (r, w) := AddRecords client d recs (world env) in
    (option_map clientError r,
     {| world := w; trace := (trace env ++ [EvAddRecords d recs])%list |}).

Definition callSetRecords (d : DNSDomain) (t : DNSRecordType)
  (n : DNSRecordName) (recs : list DNSUpdateRecord.t)
  : Eff.M Env (option error) :=
  fun env =>
    let (r, w) := SetRecords client d t n recs (world env) in
    (option_map clientError r,
     {| world := w; trace := (trace env ++ [EvSetRecords d t n recs])%list |}).

Definition callDelRecords (d : DNSDomain) (t : DNSRecordType)
  (n : DNSRecordName) : Eff.M Env (option error) :=
  fun env =>
    let (r, w) := DelRecords client d t n (world env) in
    (option_map clientError r,
     {| world := w; trace := (trace env ++ [EvDelRecords d t n])%list |}).

(** [r.reqMutex.Lock(); defer r.reqMutex.Unlock()]: the deferred unlock runs
    on every return of the body. *)
Definition withLock {A : Type} (body : Eff.M Env A) : Eff.M Env A :=
  (emit EvLock ;;; a <- body ;; emit EvUnlock ;;; Eff.ret a)%eff.

(** [func (r *RecordResource) Create(ctx, req, resp)] *)
Definition Create (req : CreateRequest) (resp : Response)
  : Eff.M Env Response :=
  (let (diags, planData) := CreatePlan_Get req in
   let resp := appendDiags resp diags in
   if HasError (RespDiagnostics resp) then Eff.ret resp
   else withLock (
     let (apiDomain, apiRecPlan) := tf2model planData in
     err <- callAddRecords apiDomain [apiRecPlan] ;;
     match err with
     | Some _ => Eff.ret (addError resp "Client Error"
                            ("Unable to create record: " ++ fmt_s err))
     | None => Eff.ret (State_Set resp planData)
     end))%eff.

(** One iteration of the loop of [Read] over [apiAllRecs]. *)
Definition readStep (apiRecState : DNSRecord.t)
  (acc : tfDNSRecord.t * nat) (rec : DNSRecord.t) : tfDNSRecord.t * nat :=
  let (stateData, numFound) := acc in
  if SameKey rec apiRecState then
    let t := DNSRecord.Type_ rec in
    ({| tfDNSRecord.Domain := tfDNSRecord.Domain stateData;
        tfDNSRecord.Type_ := tfDNSRecord.Type_ stateData;
        tfDNSRecord.Name := tfDNSRecord.Name stateData;
        tfDNSRecord.Data := Some (DNSRecord.Data rec);
        tfDNSRecord.TTL := Some (DNSRecord.TTL rec);
        tfDNSRecord.Priority :=
          if (t =? REC_MX) || (t =? REC_SRV)
          then Some (DNSRecord.Priority rec)
          else tfDNSRecord.Priority stateData |},
     S numFound)
  else (stateData, numFound).

(** [func (r *RecordResource) Read(ctx, req, resp)] *)
Definition Read (req : ReadRequest) (resp : Response)
  : Eff.M Env Response :=
  (let (diags, stateData) := ReadState_Get req in
   let resp := appendDiags resp diags in
   if HasError (RespDiagnostics resp) then Eff.ret resp
   else withLock (
     let (apiDomain, apiRecState) := tf2model stateData in
     r <- callGetRecords apiDomain (DNSRecord.Type_ apiRecState)
                         (DNSRecord.Name apiRecState) ;;
     match r with
     | inr err =>
         Eff.ret (addError resp "Client Error"
                    ("Reading DNS records: query failed: " ++ errorText err))
     | inl apiAllRecs =>
         let (stateData, numFound) :=
           if (List.length apiAllRecs =? 0)%nat then (stateData, 0%nat)
           else fold_left (readStep apiRecState) apiAllRecs (stateData, 0%nat) in
         if (numFound =? 0)%nat then Eff.ret (State_RemoveResource resp)
         else
           let resp :=
             if (1 <? numFound)%nat
             then addWarning resp "Duplicate resource instances present"
                                  "Will use the last one"
             else resp in
           Eff.ret (State_Set resp stateData)
     end))%eff.

(** One iteration of the loop of [apiRecsToKeep] over [apiAllRecs]. *)
Definition keepStep (apiRecState : DNSRecord.t)
  (acc : list DNSUpdateRecord.t * nat) (rec : DNSRecord.t)
  : list DNSUpdateRecord.t * nat :=
  let (res, matchesWithState) := acc in
  if SameKey rec apiRecState
  then (res, S matchesWithState)
  else ((res ++ [ToUpdate rec])%list, matchesWithState).

(** [func (r *RecordResource) apiRecsToKeep(ctx, stateData)
       ([]model.DNSUpdateRecord, error)] *)
Definition apiRecsToKeep (stateData : tfDNSRecord.t)
  : Eff.M Env (list DNSUpdateRecord.t * option error) :=
  (let res : list DNSUpdateRecord.t := [] in
   let matchesWithState := 0%nat in
   let (apiDomain, apiRecState) := tf2model stateData in
   r <- callGetRecords apiDomain (DNSRecord.Type_ apiRecState)
                       (DNSRecord.Name apiRecState) ;;
   match r with
   | inr err => Eff.ret (res, Some (Wrap (clientError err)
                                         "Client error: query failed"))
   | inl apiAllRecs =>
       let (res, matchesWithState) :=
         if (List.length apiAllRecs =? 0)%nat
         then (res, matchesWithState)
         else fold_left (keepStep apiRecState) apiAllRecs
                        (res, matchesWithState) in
       if negb (matchesWithState =? 1)%nat
       then if (matchesWithState =? 0)%nat
            then Eff.ret (res, Some errRecordGone)
            else Eff.ret (res, None)
       else Eff.ret (res, None)
   end)%eff.

(** The common tail of [Update]: report the error or store the plan. *)
Definition updateTail (resp : Response) (err : option error)
  (planData : tfDNSRecord.t) : Response :=
  match err with
  | Some _ => addError resp "Client Error" ("Updating DNS failed: " ++ fmt_s err)
  | None => State_Set resp planData
  end.

(** [func (r *RecordResource) Update(ctx, req, resp)] *)
Definition Update (req : UpdateRequest) (resp : Response)
  : Eff.M Env Response :=
  (let (diags, planData) := Plan_Get req in
   let resp := appendDiags resp diags in
   if HasError (RespDiagnostics resp) then Eff.ret resp
   else withLock (
     let (apiDomain, apiRecPlan) := tf2model planData in
     if IsSingleValue (DNSRecord.Type_ apiRecPlan) then
       err <- callSetRecords apiDomain (DNSRecord.Type_ apiRecPlan)
                (DNSRecord.Name apiRecPlan)
                [ {| DNSUpdateRecord.Data := DNSRecord.Data apiRecPlan;
                     DNSUpdateRecord.TTL := DNSRecord.TTL apiRecPlan;
                     DNSUpdateRecord.Priority := 0%Z;
                     DNSUpdateRecord.Protocol := "";
                     DNSUpdateRecord.Service := "";
                     DNSUpdateRecord.Port := 0%Z;
                     DNSUpdateRecord.Weight := 0%Z |} ] ;;
       Eff.ret (updateTail resp err planData)
     else
       let (diags, stateData) := State_Get req in
       let resp := appendDiags resp diags in
       if HasError (RespDiagnostics resp) then Eff.ret resp
       else
         ' (apiUpdateRecs, err) <- apiRecsToKeep stateData ;;
         if match err with Some e => negb (isRecordGone e) | None => false end
         then Eff.ret (addError resp "Client Error"
                         ("Getting DNS records to keep failed: " ++ fmt_s err))
         else
           let oldGone :=
             match err with Some e => isRecordGone e | None => false end in
           let ourRec := ourRec apiRecPlan in
           let (newPresent, apiUpdateRecs) :=
             if (0 <=? slices_Index apiUpdateRecs ourRec)%Z
             then (true, apiUpdateRecs)
             else (false, (apiUpdateRecs ++ [ourRec])%list) in
           err <- (if oldGone && newPresent
                   then Eff.ret None
                   else callSetRecords apiDomain (DNSRecord.Type_ apiRecPlan)
                          (DNSRecord.Name apiRecPlan) apiUpdateRecs) ;;
           Eff.ret (updateTail resp err planData)))%eff.

(** [func (r *RecordResource) Delete(ctx, req, resp)] *)
Definition Delete (req : DeleteRequest) (resp : Response)
  : Eff.M Env Response :=
  (let (diags, stateData) := DeleteState_Get req in
   let resp := appendDiags resp diags in
   if HasError (RespDiagnostics resp) then Eff.ret resp
   else withLock (
     let (apiDomain, apiRecState) := tf2model stateData in
     if IsSingleValue (DNSRecord.Type_ apiRecState) then
       err <- callDelRecords apiDomain (DNSRecord.Type_ apiRecState)
                (DNSRecord.Name apiRecState) ;;
       match err with
       | Some e => Eff.ret (addError resp "Client Error"
                              ("Deleting DNS record failed: " ++ Error e))
       | None => Eff.ret resp
       end
     else
       let (diags, stateData) := DeleteState_Get req in
       let resp := appendDiags resp diags in
       if HasError (RespDiagnostics resp) then Eff.ret resp
       else
         ' (apiRecsToKeep, err) <- apiRecsToKeep stateData ;;
         match err with
         | Some e =>
             if isRecordGone e then Eff.ret resp
             else Eff.ret (addError resp "Client Error"
                             ("Getting DNS records to keep failed: " ++ Error e))
         | None =>
             err <- (if (List.length apiRecsToKeep =? 0)%nat
                     then callDelRecords apiDomain (DNSRecord.Type_ apiRecState)
                            (DNSRecord.Name apiRecState)
                     else callSetRecords apiDomain (DNSRecord.Type_ apiRecState)
                            (DNSRecord.Name apiRecState) apiRecsToKeep) ;;
             match err with
             | Some e => Eff.ret (addError resp "Client Error"
                                    ("Replacing DNS records failed: " ++ Error e))
             | None => Eff.ret resp
             end
         end))%eff.

End Resource.

(** [func (r *RecordResource) ImportState(ctx, req, resp)] of record.go,
    with [id] the request's [ID] and the state as the attributes set, in
    order.  [Quote] is the rendering of the [%q] verb of [fmt.Sprintf]. *)
Section Importing.

Variable Quote : string -> string.

Record ImportResponse : Type := mkImportResponse {
  ImportDiagnostics : Diagnostics;
  ImportAttrs : list (string * string)
}.

Definition ImportState (id : string) (resp : ImportResponse)
  : ImportResponse :=
  let idParts := GoStrings.SplitN id IMPORT_SEP 4 in
  if negb (List.length idParts =? 4)%nat then
    {| ImportDiagnostics :=
         AddError (ImportDiagnostics resp) "Unexpected Import Identifier"
           ("Expected import identifier format: domain:TYPE:name:data"
            ++ "like mydom.com:CNAME:www.subdom:www.other.com. Got: "
            ++ Quote id);
       ImportAttrs := ImportAttrs resp |}
  else
    fold_left
      (fun resp '(i, f) =>
         {| ImportDiagnostics := ImportDiagnostics resp;
            ImportAttrs := (ImportAttrs resp ++ [(f, nth i idParts "")])%list |})
      [(0%nat, "domain"); (1%nat, "type"); (2%nat, "name"); (3%nat, "data")]
      resp.

End Importing.

Arguments mkClient {World ApiErr}.
Arguments GetRecords {World ApiErr}.
Arguments AddRecords {World ApiErr}.
Arguments SetRecords {World ApiErr}.
Arguments DelRecords {World ApiErr}.
Arguments errRecordGone {ApiErr}.
Arguments clientError {ApiErr}.
Arguments Wrap {ApiErr}.
Arguments Error {ApiErr}.
Arguments fmt_s {ApiErr}.
Arguments isRecordGone {ApiErr}.
Arguments mkEnv {World}.
Arguments world {World}.
Arguments trace {World}.
Arguments emit {World}.
Arguments callGetRecords {World ApiErr}.
Arguments callAddRecords {World ApiErr}.
Arguments callSetRecords {World ApiErr}.
Arguments callDelRecords {World ApiErr}.
Arguments withLock {World A}.
Arguments updateTail {ApiErr}.
Arguments apiRecsToKeep {World ApiErr}.
Arguments Create {World ApiErr}.
Arguments Read {World ApiErr}.
Arguments Update {World ApiErr}.
Arguments Delete {World ApiErr}.

End Record.

(* ===================================================================== *)
(** ** The Technitium record resource: ImportState *)
(* ===================================================================== *)

Module TechnitiumRecord.
Import Framework.

(** [const IMPORT_SEP = ":"] *)
Definition IMPORT_SEP : ascii := ":"%char.

(** The values [ImportState] stores: strings and [int64]s. *)
Inductive AttrValue : Type :=
| AttrString (s : string)
| AttrInt64 (z : Z).

(** [resource.ImportStateResponse]: the diagnostics and the attributes set
    in the new state, by root path, in the order they were first set. *)
Record ImportStateResponse : Type := mkImportStateResponse {
  Diagnostics_ : Diagnostics;
  State : list (string * AttrValue)
}.

Fixpoint setAttr (st : list (string * AttrValue)) (path : string)
  (v : AttrValue) : list (string * AttrValue) :=
  match st with
  | [] => [(path, v)]
  | (p, x) :: rest =>
      if p =? path then (p, v) :: rest else (p, x) :: setAttr rest path v
  end.

(** [resp.Diagnostics.Append(resp.State.SetAttribute(ctx, path.Root(p), v)...)]
    for an attribute of the schema and a value of its type: the attribute is
    written and no diagnostic is produced. *)
Definition SetAttribute (resp : ImportStateResponse) (path : string)
  (v : AttrValue) : ImportStateResponse :=
  {| Diagnostics_ := Diagnostics_ resp; State := setAttr (State resp) path v |}.

Definition addError (resp : ImportStateResponse) (sum det : string)
  : ImportStateResponse :=
  {| Diagnostics_ := AddError (Diagnostics_ resp) sum det;
     State := State resp |}.

(** [func (r *RecordResource) ImportState(ctx, req, resp)], with [id] the
    request's [ID]. *)
Definition ImportState (id : string) (resp : ImportStateResponse)
  : ImportStateResponse :=
  let parts := GoStrings.Split id IMPORT_SEP in
  if negb (List.length parts =? 4)%nat then
    addError resp "Invalid import ID"
      ("Import ID must be in format 'zone:name:TYPE:value', got: " ++ id)
  else
    let zone := nth 0 parts "" in
    let name := nth 1 parts "" in
    let recordType := nth 2 parts "" in
    let value := nth 3 parts "" in
    let domain := if name =? "@" then zone else name ++ "." ++ zone in
    let resp := SetAttribute resp "domain" (AttrString domain) in
    let resp := SetAttribute resp "type" (AttrString recordType) in
    let resp :=
      if (recordType =? "A") || (recordType =? "AAAA") then
        SetAttribute resp "ip_address" (AttrString value)
      else if recordType =? "CNAME" then
        SetAttribute resp "cname" (AttrString value)
      else if recordType =? "MX" then
        let mxParts := GoStrings.SplitN value " "%char 2 in
        if (List.length mxParts =? 2)%nat then
          let resp :=
            match GoStrings.ParseInt (nth 0 mxParts "") with
            | Some pref => SetAttribute resp "preference" (AttrInt64 pref)
            | None => resp
            end in
          SetAttribute resp "exchange" (AttrString (nth 1 mxParts ""))
        else resp
      else if recordType =? "NS" then
        SetAttribute resp "name_server" (AttrString value)
      else if recordType =? "PTR" then
        SetAttribute resp "ptr_name" (AttrString value)
      else if recordType =? "SRV" then
        let srvParts := GoStrings.Split value " "%char in
        if (4 <=? List.length srvParts)%nat then
          let resp :=
            match GoStrings.ParseInt (nth 0 srvParts "") with
            | Some prio => SetAttribute resp "priority" (AttrInt64 prio)
            | None => resp
            end in
          let resp :=
            match GoStrings.ParseInt (nth 1 srvParts "") with
            | Some weight => SetAttribute resp "weight" (AttrInt64 weight)
            | None => resp
            end in
          let resp :=
            match GoStrings.ParseInt (nth 2 srvParts "") with
            | Some port => SetAttribute resp "port" (AttrInt64 port)
            | None => resp
            end in
          SetAttribute resp "target" (AttrString (nth 3 srvParts ""))
        else resp
      else if recordType =? "TXT" then
        SetAttribute resp "text" (AttrString value)
      else if recordType =? "CAA" then
        let caaParts := GoStrings.SplitN value " "%char 3 in
        if (3 <=? List.length caaParts)%nat then
          let resp := SetAttribute resp "flags" (AttrString (nth 0 caaParts "")) in
          let resp := SetAttribute resp "tag" (AttrString (nth 1 caaParts "")) in
          SetAttribute resp "value" (AttrString (nth 2 caaParts ""))
        else resp
      else if recordType =? "ANAME" then
        SetAttribute resp "aname" (AttrString value)
      else if recordType =? "DNAME" then
        SetAttribute resp "dname" (AttrString value)
      else if recordType =? "FWD" then
        SetAttribute resp "forwarder" (AttrString value)
      else if recordType =? "URI" then
        SetAttribute resp "uri" (AttrString value)
      else
        SetAttribute resp "record_data" (AttrString value) in
    SetAttribute resp "ttl" (AttrInt64 3600).

(** The diagnostic [ImportState] adds for an identifier it refuses. *)
Definition formatError (id : string) : Diagnostic :=
  {| severity := SeverityError;
     summary := "Invalid import ID";
     detail := "Import ID must be in format 'zone:name:TYPE:value', got: "
               ++ id |}.

(** The response [ImportState] is called with. *)
Definition emptyResponse : ImportStateResponse :=
  {| Diagnostics_ := []; State := [] |}.

(** Some error diagnostic of [ds] carries [msg] in its detail. *)
Definition errorContaining (ds : Diagnostics) (msg : string) : bool :=
  existsb (fun d => isError d && GoStrings.Contains (detail d) msg) ds.

End TechnitiumRecord.


(* ===================================================================== *)
(** ** A test double for the API client and instances of the model methods *)
(* ===================================================================== *)

Module Fixture.
Import Framework Record.

(** Modelled from the spec: [DNSRecordType.IsSingleValue], whose body is
    absent from the sources (glossary: single-valued types are CNAME, ANAME
    and DNAME). *)
Definition IsSingleValue (t : DNSRecordType) : bool :=
  (t =? "CNAME") || (t =? "ANAME") || (t =? "DNAME").

(** Modelled from the spec: [DNSRecord.ToUpdate], whose body is absent from
    the sources (spec P6: lossless for the fields the reduced form defines). *)
Definition ToUpdate (r : DNSRecord.t) : DNSUpdateRecord.t :=
  {| DNSUpdateRecord.Data := DNSRecord.Data r;
     DNSUpdateRecord.TTL := DNSRecord.TTL r;
     DNSUpdateRecord.Priority := DNSRecord.Priority r;
     DNSUpdateRecord.Protocol := DNSRecord.Protocol r;
     DNSUpdateRecord.Service := DNSRecord.Service r;
     DNSUpdateRecord.Port := DNSRecord.Port r;
     DNSUpdateRecord.Weight := DNSRecord.Weight r |}.

(** Modelled from the spec: [DNSRecord.SameKey] on the records of
    record.go, whose body is absent from the sources (spec section 3: never
    the same across types or names; single-valued types collapse; A, AAAA,
    MX, TXT, NS and PTR by their payload, SRV by port and target; unknown
    types never match). *)
Definition SameKey (r r1 : DNSRecord.t) : bool :=
  let t := DNSRecord.Type_ r in
  if negb (t =? DNSRecord.Type_ r1)
     || negb (DNSRecord.Name r =? DNSRecord.Name r1) then false
  else if IsSingleValue t then true
  else if t =? "SRV" then
    (DNSRecord.Port r =? DNSRecord.Port r1)%Z
    && (DNSRecord.Data r =? DNSRecord.Data r1)
  else if (t =? "A") || (t =? "AAAA") || (t =? "MX") || (t =? "TXT")
          || (t =? "NS") || (t =? "PTR") then
    DNSRecord.Data r =? DNSRecord.Data r1
  else false.

(** The in-memory service of the test double: the records of one zone. *)
Definition World := list DNSRecord.t.
Definition ApiErr := string.

Definition selects (t : DNSRecordType) (n : DNSRecordName) (r : DNSRecord.t)
  : bool :=
  (DNSRecord.Type_ r =? t) && (DNSRecord.Name r =? n).

Definition fromUpdate (t : DNSRecordType) (n : DNSRecordName)
  (u : DNSUpdateRecord.t) : DNSRecord.t :=
  {| DNSRecord.Name := n;
     DNSRecord.Type_ := t;
     DNSRecord.Data := DNSUpdateRecord.Data u;
     DNSRecord.TTL := DNSUpdateRecord.TTL u;
     DNSRecord.Priority := DNSUpdateRecord.Priority u;
     DNSRecord.Protocol := DNSUpdateRecord.Protocol u;
     DNSRecord.Service := DNSUpdateRecord.Service u;
     DNSRecord.Port := DNSUpdateRecord.Port u;
     DNSRecord.Weight := DNSUpdateRecord.Weight u |}.

Definition mockClient : DNSApiClient World ApiErr :=
  {| GetRecords := fun _ t n w => (inl (filter (selects t n) w), w);
     AddRecords := fun _ recs w => (None, (w ++ recs)%list);
     SetRecords := fun _ t n recs w =>
       (None, (filter (fun r => negb (selects t n r)) w
               ++ map (fromUpdate t n) recs)%list);
     DelRecords := fun _ t n w =>
       (None, filter (fun r => negb (selects t n r)) w) |}.

Definition txtRecord (name text : string) : DNSRecord.t :=
  {| DNSRecord.Name := name; DNSRecord.Type_ := "TXT";
     DNSRecord.Data := text; DNSRecord.TTL := 3600%Z;
     DNSRecord.Priority := 0%Z; DNSRecord.Protocol := "";
     DNSRecord.Service := ""; DNSRecord.Port := 0%Z;
     DNSRecord.Weight := 0%Z |}.

Definition txtState (name text : string) : tfDNSRecord.t :=
  {| tfDNSRecord.Domain := Some "example.com";
     tfDNSRecord.Type_ := Some "TXT";
     tfDNSRecord.Name := Some name;
     tfDNSRecord.Data := Some text;
     tfDNSRecord.TTL := Some 3600%Z;
     tfDNSRecord.Priority := None |}.

Definition startEnv (w : World) : Env World :=
  {| world := w; trace := [] |}.

Definition emptyResp : Response :=
  {| RespDiagnostics := []; RespState := None |}.

(** Two TXT records under one name, a state tracking the first and a plan
    asking for the second. *)
Definition txtA : DNSRecord.t := txtRecord "@" "a".
Definition txtB : DNSRecord.t := txtRecord "@" "b".
Definition stateA : tfDNSRecord.t := txtState "@" "a".
Definition planB : tfDNSRecord.t := txtState "@" "b".

End Fixture.

(* ===================================================================== *)
(** ** Lock discipline of an operation, over any trace of events *)
(* ===================================================================== *)

Module Discipline.

Section Traces.

Variable Env : Type.
Variable Event : Type.
Variable traceOf : Env -> list Event.
Variable isLockEvent : Event -> bool.
Variable lockEvent : Event.
Variable unlockEvent : Event.

(** No locking or unlocking among the events. *)
Definition apiCallsOnly (es : list Event) : bool :=
  forallb (fun e => negb (isLockEvent e)) es.

(** The computation only appends client calls to the trace. *)
Definition appendsCalls {A : Type} (m : Eff.M Env A) : Prop :=
  forall env, exists mid,
    traceOf (snd (m env)) = (traceOf env ++ mid)%list
    /\ apiCallsOnly mid = true.

(** The computation either leaves the trace alone or appends one lock, then
    client calls only, then one unlock. *)
Definition lockBracketed {A : Type} (m : Eff.M Env A) : Prop :=
  forall env,
    traceOf (snd (m env)) = traceOf env
    \/ exists mid,
         traceOf (snd (m env))
         = (traceOf env ++ lockEvent :: mid ++ [unlockEvent])%list
         /\ apiCallsOnly mid = true.

End Traces.

Arguments apiCallsOnly {Event}.
Arguments appendsCalls {Env Event} traceOf isLockEvent {A}.
Arguments lockBracketed {Env Event} traceOf isLockEvent lockEvent unlockEvent {A}.

End Discipline.

(** The mutex events of record.go. *)
Definition Record_isLockEvent (e : Record.Event) : bool :=
  match e with
  | Record.EvLock | Record.EvUnlock => true
  | _ => false
  end.

(* ===================================================================== *)
(** ** internal/model/model.go : zones *)
(* ===================================================================== *)

Module ModelZone.

Definition DNSZoneType := string.

(** [type DNSZone struct]; the Go field [Type] is spelled [Type_], and a
    pointer field is an [option]. *)
Record DNSZone : Type := mkDNSZone {
  Name : string;
  Type_ : DNSZoneType;
  Internal : bool;
  DNSSecStatus : string;
  SOASerial : Z;
  Expiry : string;
  IsExpired : bool;
  SyncFailed : bool;
  LastModified : string;
  Disabled : bool;
  Catalog : string;
  UseSoaSerialDateScheme : option bool;
  PrimaryNameServerAddresses : string;
  ZoneTransferProtocol : string;
  TsigKeyName : string;
  ValidateZone : option bool;
  InitializeForwarder : option bool;
  Protocol : string;
  Forwarder : string;
  DnssecValidation : option bool;
  ProxyType : string;
  ProxyAddress : string;
  ProxyPort : option Z;
  ProxyUsername : string;
  ProxyPassword : string
}.

End ModelZone.

(* ===================================================================== *)
(** ** internal/client : the name helper of the Technitium client *)
(* ===================================================================== *)

Module Client.

(** [strings.HasSuffix(s, suffix)] *)
Definition HasSuffix (s suffix : string) : bool :=
  (String.length suffix <=? String.length s)%nat
  && (String.substring (String.length s - String.length suffix)
                       (String.length suffix) s =? suffix).

(** [func constructFullDomain(name, zone string) string] *)
Definition constructFullDomain (name zone : string) : string :=
  if (name =? "@") || (name =? "") then zone
  else if HasSuffix name ("." ++ zone) then name
  else if name =? zone then name
  else name ++ "." ++ zone.

End Client.

(* ===================================================================== *)
(** ** The Technitium record resource: mappings and operations *)
(* ===================================================================== *)

Module Technitium.
Import Framework.

(** [types.Bool]: [None] is a null or unknown value. *)
Definition tfBool := option bool.

Definition ValueBool (v : tfBool) : bool :=
  match v with Some b => b | None => false end.

(** [type tfDNSRecord struct] *)
Module tfDNSRecord.
Record t : Type := mk {
  Zone : tfString;
  Type_ : tfString;
  Domain : tfString;
  TTL : tfInt64;
  IPAddress : tfString;
  Ptr : tfBool;
  CreatePtrZone : tfBool;
  UpdateSvcbHints : tfBool;
  NameServer : tfString;
  Glue : tfString;
  CName : tfString;
  PtrName : tfString;
  Exchange : tfString;
  Preference : tfInt64;
  Text : tfString;
  SplitText : tfBool;
  Mailbox : tfString;
  TxtDomain : tfString;
  Priority : tfInt64;
  Weight : tfInt64;
  Port : tfInt64;
  Target : tfString;
  NaptrOrder : tfInt64;
  NaptrPreference : tfInt64;
  NaptrFlags : tfString;
  NaptrServices : tfString;
  NaptrRegexp : tfString;
  NaptrReplacement : tfString;
  DName : tfString;
  KeyTag : tfInt64;
  Algorithm : tfString;
  DigestType : tfString;
  Digest : tfString;
  SshfpAlgorithm : tfString;
  SshfpFingerprintType : tfString;
  SshfpFingerprint : tfString;
  TlsaCertificateUsage : tfString;
  TlsaSelector : tfString;
  TlsaMatchingType : tfString;
  TlsaCertificateAssociationData : tfString;
  SvcPriority : tfInt64;
  SvcTargetName : tfString;
  SvcParams : tfString;
  AutoIpv4Hint : tfBool;
  AutoIpv6Hint : tfBool;
  UriPriority : tfInt64;
  UriWeight : tfInt64;
  Uri : tfString;
  Flags : tfString;
  Tag : tfString;
  Value : tfString;
  AName : tfString;
  Forwarder : tfString;
  ForwarderPriority : tfInt64;
  DnssecValidation : tfBool;
  ProxyType : tfString;
  ProxyAddress : tfString;
  ProxyPort : tfInt64;
  ProxyUsername : tfString;
  ProxyPassword : tfString;
  AppName : tfString;
  ClassPath : tfString;
  RecordData : tfString
}.
End tfDNSRecord.

(** [func tf2model(tfData tfDNSRecord) model.DNSRecord]; the fields the
    literal leaves out have their zero values. *)
Definition tf2model (tfData : tfDNSRecord.t) : Model.DNSRecord :=
  {| Model.Type_ := ValueString (tfDNSRecord.Type_ tfData);
     Model.Domain := ValueString (tfDNSRecord.Domain tfData);
     Model.TTL := to_uint32 (ValueInt64 (tfDNSRecord.TTL tfData));
     Model.Comments := "";
     Model.ExpiryTTL := 0%Z;
     Model.IPAddress := ValueString (tfDNSRecord.IPAddress tfData);
     Model.Ptr := ValueBool (tfDNSRecord.Ptr tfData);
     Model.CreatePtrZone := ValueBool (tfDNSRecord.CreatePtrZone tfData);
     Model.UpdateSvcbHints := ValueBool (tfDNSRecord.UpdateSvcbHints tfData);
     Model.NameServer := ValueString (tfDNSRecord.NameServer tfData);
     Model.Glue := ValueString (tfDNSRecord.Glue tfData);
     Model.CName := ValueString (tfDNSRecord.CName tfData);
     Model.PtrName := ValueString (tfDNSRecord.PtrName tfData);
     Model.Exchange := ValueString (tfDNSRecord.Exchange tfData);
     Model.Preference := to_uint16 (ValueInt64 (tfDNSRecord.Preference tfData));
     Model.Text := ValueString (tfDNSRecord.Text tfData);
     Model.SplitText := ValueBool (tfDNSRecord.SplitText tfData);
     Model.Mailbox := ValueString (tfDNSRecord.Mailbox tfData);
     Model.TxtDomain := ValueString (tfDNSRecord.TxtDomain tfData);
     Model.Priority := to_uint16 (ValueInt64 (tfDNSRecord.Priority tfData));
     Model.Weight := to_uint16 (ValueInt64 (tfDNSRecord.Weight tfData));
     Model.Port := to_uint16 (ValueInt64 (tfDNSRecord.Port tfData));
     Model.Target := ValueString (tfDNSRecord.Target tfData);
     Model.NaptrOrder := to_uint16 (ValueInt64 (tfDNSRecord.NaptrOrder tfData));
     Model.NaptrPreference := to_uint16 (ValueInt64 (tfDNSRecord.NaptrPreference tfData));
     Model.NaptrFlags := ValueString (tfDNSRecord.NaptrFlags tfData);
     Model.NaptrServices := ValueString (tfDNSRecord.NaptrServices tfData);
     Model.NaptrRegexp := ValueString (tfDNSRecord.NaptrRegexp tfData);
     Model.NaptrReplacement := ValueString (tfDNSRecord.NaptrReplacement tfData);
     Model.DName := ValueString (tfDNSRecord.DName tfData);
     Model.KeyTag := to_uint16 (ValueInt64 (tfDNSRecord.KeyTag tfData));
     Model.Algorithm := ValueString (tfDNSRecord.Algorithm tfData);
     Model.DigestType := ValueString (tfDNSRecord.DigestType tfData);
     Model.Digest := ValueString (tfDNSRecord.Digest tfData);
     Model.SshfpAlgorithm := ValueString (tfDNSRecord.SshfpAlgorithm tfData);
     Model.SshfpFingerprintType := ValueString (tfDNSRecord.SshfpFingerprintType tfData);
     Model.SshfpFingerprint := ValueString (tfDNSRecord.SshfpFingerprint tfData);
     Model.TlsaCertificateUsage := ValueString (tfDNSRecord.TlsaCertificateUsage tfData);
     Model.TlsaSelector := ValueString (tfDNSRecord.TlsaSelector tfData);
     Model.TlsaMatchingType := ValueString (tfDNSRecord.TlsaMatchingType tfData);
     Model.TlsaCertificateAssociationData := ValueString (tfDNSRecord.TlsaCertificateAssociationData tfData);
     Model.SvcPriority := to_uint16 (ValueInt64 (tfDNSRecord.SvcPriority tfData));
     Model.SvcTargetName := ValueString (tfDNSRecord.SvcTargetName tfData);
     Model.SvcParams := ValueString (tfDNSRecord.SvcParams tfData);
     Model.AutoIpv4Hint := ValueBool (tfDNSRecord.AutoIpv4Hint tfData);
     Model.AutoIpv6Hint := ValueBool (tfDNSRecord.AutoIpv6Hint tfData);
     Model.UriPriority := to_uint16 (ValueInt64 (tfDNSRecord.UriPriority tfData));
     Model.UriWeight := to_uint16 (ValueInt64 (tfDNSRecord.UriWeight tfData));
     Model.Uri := ValueString (tfDNSRecord.Uri tfData);
     Model.Flags := ValueString (tfDNSRecord.Flags tfData);
     Model.Tag := ValueString (tfDNSRecord.Tag tfData);
     Model.Value := ValueString (tfDNSRecord.Value tfData);
     Model.AName := ValueString (tfDNSRecord.AName tfData);
     Model.Protocol := "";
     Model.Forwarder := ValueString (tfDNSRecord.Forwarder tfData);
     Model.ForwarderPriority := to_uint16 (ValueInt64 (tfDNSRecord.ForwarderPriority tfData));
     Model.DnssecValidation := ValueBool (tfDNSRecord.DnssecValidation tfData);
     Model.ProxyType := ValueString (tfDNSRecord.ProxyType tfData);
     Model.ProxyAddress := ValueString (tfDNSRecord.ProxyAddress tfData);
     Model.ProxyPort := to_uint16 (ValueInt64 (tfDNSRecord.ProxyPort tfData));
     Model.ProxyUsername := ValueString (tfDNSRecord.ProxyUsername tfData);
     Model.ProxyPassword := ValueString (tfDNSRecord.ProxyPassword tfData);
     Model.AppName := ValueString (tfDNSRecord.AppName tfData);
     Model.ClassPath := ValueString (tfDNSRecord.ClassPath tfData);
     Model.RecordData := ValueString (tfDNSRecord.RecordData tfData) |}.

(** The three shapes of the statements of [model2tf]:
    [if api != "" { tf = types.StringValue(api) }],
    [if api != 0 { tf = types.Int64Value(int64(api)) }] and
    [if api { tf = types.BoolValue(api) }]. *)
Definition ifNonEmpty (api : string) (old : tfString) : tfString :=
  if negb (api =? "") then Some api else old.

Definition ifNonZero (api : Z) (old : tfInt64) : tfInt64 :=
  if negb (api =? 0)%Z then Some api else old.

Definition ifTrue (api : bool) (old : tfBool) : tfBool :=
  if api then Some api else old.

(** [func model2tf(apiData model.DNSRecord, tfData *tfDNSRecord)]: the
    record [tfData] points to after the call. *)
Definition model2tf (apiData : Model.DNSRecord) (tfData : tfDNSRecord.t)
  : tfDNSRecord.t :=
  {| tfDNSRecord.Zone := tfDNSRecord.Zone tfData;
     tfDNSRecord.Type_ := ifNonEmpty (Model.Type_ apiData) (tfDNSRecord.Type_ tfData);
     tfDNSRecord.Domain := ifNonEmpty (Model.Domain apiData) (tfDNSRecord.Domain tfData);
     tfDNSRecord.TTL := ifNonZero (Model.TTL apiData) (tfDNSRecord.TTL tfData);
     tfDNSRecord.IPAddress := ifNonEmpty (Model.IPAddress apiData) (tfDNSRecord.IPAddress tfData);
     tfDNSRecord.Ptr := ifTrue (Model.Ptr apiData) (tfDNSRecord.Ptr tfData);
     tfDNSRecord.CreatePtrZone := ifTrue (Model.CreatePtrZone apiData) (tfDNSRecord.CreatePtrZone tfData);
     tfDNSRecord.UpdateSvcbHints := ifTrue (Model.UpdateSvcbHints apiData) (tfDNSRecord.UpdateSvcbHints tfData);
     tfDNSRecord.NameServer := ifNonEmpty (Model.NameServer apiData) (tfDNSRecord.NameServer tfData);
     tfDNSRecord.Glue := ifNonEmpty (Model.Glue apiData) (tfDNSRecord.Glue tfData);
     tfDNSRecord.CName := ifNonEmpty (Model.CName apiData) (tfDNSRecord.CName tfData);
     tfDNSRecord.PtrName := ifNonEmpty (Model.PtrName apiData) (tfDNSRecord.PtrName tfData);
     tfDNSRecord.Exchange := ifNonEmpty (Model.Exchange apiData) (tfDNSRecord.Exchange tfData);
     tfDNSRecord.Preference := ifNonZero (Model.Preference apiData) (tfDNSRecord.Preference tfData);
     tfDNSRecord.Text := ifNonEmpty (Model.Text apiData) (tfDNSRecord.Text tfData);
     tfDNSRecord.SplitText := ifTrue (Model.SplitText apiData) (tfDNSRecord.SplitText tfData);
     tfDNSRecord.Mailbox := ifNonEmpty (Model.Mailbox apiData) (tfDNSRecord.Mailbox tfData);
     tfDNSRecord.TxtDomain := ifNonEmpty (Model.TxtDomain apiData) (tfDNSRecord.TxtDomain tfData);
     tfDNSRecord.Priority := ifNonZero (Model.Priority apiData) (tfDNSRecord.Priority tfData);
     tfDNSRecord.Weight := ifNonZero (Model.Weight apiData) (tfDNSRecord.Weight tfData);
     tfDNSRecord.Port := ifNonZero (Model.Port apiData) (tfDNSRecord.Port tfData);
     tfDNSRecord.Target := ifNonEmpty (Model.Target apiData) (tfDNSRecord.Target tfData);
     tfDNSRecord.NaptrOrder := ifNonZero (Model.NaptrOrder apiData) (tfDNSRecord.NaptrOrder tfData);
     tfDNSRecord.NaptrPreference := ifNonZero (Model.NaptrPreference apiData) (tfDNSRecord.NaptrPreference tfData);
     tfDNSRecord.NaptrFlags := ifNonEmpty (Model.NaptrFlags apiData) (tfDNSRecord.NaptrFlags tfData);
     tfDNSRecord.NaptrServices := ifNonEmpty (Model.NaptrServices apiData) (tfDNSRecord.NaptrServices tfData);
     tfDNSRecord.NaptrRegexp := ifNonEmpty (Model.NaptrRegexp apiData) (tfDNSRecord.NaptrRegexp tfData);
     tfDNSRecord.NaptrReplacement := ifNonEmpty (Model.NaptrReplacement apiData) (tfDNSRecord.NaptrReplacement tfData);
     tfDNSRecord.DName := ifNonEmpty (Model.DName apiData) (tfDNSRecord.DName tfData);
     tfDNSRecord.KeyTag := ifNonZero (Model.KeyTag apiData) (tfDNSRecord.KeyTag tfData);
     tfDNSRecord.Algorithm := ifNonEmpty (Model.Algorithm apiData) (tfDNSRecord.Algorithm tfData);
     tfDNSRecord.DigestType := ifNonEmpty (Model.DigestType apiData) (tfDNSRecord.DigestType tfData);
     tfDNSRecord.Digest := ifNonEmpty (Model.Digest apiData) (tfDNSRecord.Digest tfData);
     tfDNSRecord.SshfpAlgorithm := ifNonEmpty (Model.SshfpAlgorithm apiData) (tfDNSRecord.SshfpAlgorithm tfData);
     tfDNSRecord.SshfpFingerprintType := ifNonEmpty (Model.SshfpFingerprintType apiData) (tfDNSRecord.SshfpFingerprintType tfData);
     tfDNSRecord.SshfpFingerprint := ifNonEmpty (Model.SshfpFingerprint apiData) (tfDNSRecord.SshfpFingerprint tfData);
     tfDNSRecord.TlsaCertificateUsage := ifNonEmpty (Model.TlsaCertificateUsage apiData) (tfDNSRecord.TlsaCertificateUsage tfData);
     tfDNSRecord.TlsaSelector := ifNonEmpty (Model.TlsaSelector apiData) (tfDNSRecord.TlsaSelector tfData);
     tfDNSRecord.TlsaMatchingType := ifNonEmpty (Model.TlsaMatchingType apiData) (tfDNSRecord.TlsaMatchingType tfData);
     tfDNSRecord.TlsaCertificateAssociationData := ifNonEmpty (Model.TlsaCertificateAssociationData apiData) (tfDNSRecord.TlsaCertificateAssociationData tfData);
     tfDNSRecord.SvcPriority := ifNonZero (Model.SvcPriority apiData) (tfDNSRecord.SvcPriority tfData);
     tfDNSRecord.SvcTargetName := ifNonEmpty (Model.SvcTargetName apiData) (tfDNSRecord.SvcTargetName tfData);
     tfDNSRecord.SvcParams := ifNonEmpty (Model.SvcParams apiData) (tfDNSRecord.SvcParams tfData);
     tfDNSRecord.AutoIpv4Hint := ifTrue (Model.AutoIpv4Hint apiData) (tfDNSRecord.AutoIpv4Hint tfData);
     tfDNSRecord.AutoIpv6Hint := ifTrue (Model.AutoIpv6Hint apiData) (tfDNSRecord.AutoIpv6Hint tfData);
     tfDNSRecord.UriPriority := ifNonZero (Model.UriPriority apiData) (tfDNSRecord.UriPriority tfData);
     tfDNSRecord.UriWeight := ifNonZero (Model.UriWeight apiData) (tfDNSRecord.UriWeight tfData);
     tfDNSRecord.Uri := ifNonEmpty (Model.Uri apiData) (tfDNSRecord.Uri tfData);
     tfDNSRecord.Flags := ifNonEmpty (Model.Flags apiData) (tfDNSRecord.Flags tfData);
     tfDNSRecord.Tag := ifNonEmpty (Model.Tag apiData) (tfDNSRecord.Tag tfData);
     tfDNSRecord.Value := ifNonEmpty (Model.Value apiData) (tfDNSRecord.Value tfData);
     tfDNSRecord.AName := ifNonEmpty (Model.AName apiData) (tfDNSRecord.AName tfData);
     tfDNSRecord.Forwarder := ifNonEmpty (Model.Forwarder apiData) (tfDNSRecord.Forwarder tfData);
     tfDNSRecord.ForwarderPriority := ifNonZero (Model.ForwarderPriority apiData) (tfDNSRecord.ForwarderPriority tfData);
     tfDNSRecord.DnssecValidation := ifTrue (Model.DnssecValidation apiData) (tfDNSRecord.DnssecValidation tfData);
     tfDNSRecord.ProxyType := ifNonEmpty (Model.ProxyType apiData) (tfDNSRecord.ProxyType tfData);
     tfDNSRecord.ProxyAddress := ifNonEmpty (Model.ProxyAddress apiData) (tfDNSRecord.ProxyAddress tfData);
     tfDNSRecord.ProxyPort := ifNonZero (Model.ProxyPort apiData) (tfDNSRecord.ProxyPort tfData);
     tfDNSRecord.ProxyUsername := ifNonEmpty (Model.ProxyUsername apiData) (tfDNSRecord.ProxyUsername tfData);
     tfDNSRecord.ProxyPassword := ifNonEmpty (Model.ProxyPassword apiData) (tfDNSRecord.ProxyPassword tfData);
     tfDNSRecord.AppName := ifNonEmpty (Model.AppName apiData) (tfDNSRecord.AppName tfData);
     tfDNSRecord.ClassPath := ifNonEmpty (Model.ClassPath apiData) (tfDNSRecord.ClassPath tfData);
     tfDNSRecord.RecordData := ifNonEmpty (Model.RecordData apiData) (tfDNSRecord.RecordData tfData) |}.

(** The value of an integer attribute survives the conversion to an unsigned
    integer of [bits] bits. *)
Definition fitsIn (bits : Z) (v : tfInt64) : bool :=
  match v with
  | Some z => ((0 <=? z) && (z <? 2 ^ bits))%Z
  | None => true
  end.

(** Every integer attribute of the record is in the range of the model field
    it is converted to. *)
Definition intsInRange (s : tfDNSRecord.t) : bool :=
  fitsIn 32 (tfDNSRecord.TTL s)
  && fitsIn 16 (tfDNSRecord.Preference s)
  && fitsIn 16 (tfDNSRecord.Priority s)
  && fitsIn 16 (tfDNSRecord.Weight s)
  && fitsIn 16 (tfDNSRecord.Port s)
  && fitsIn 16 (tfDNSRecord.NaptrOrder s)
  && fitsIn 16 (tfDNSRecord.NaptrPreference s)
  && fitsIn 16 (tfDNSRecord.KeyTag s)
  && fitsIn 16 (tfDNSRecord.SvcPriority s)
  && fitsIn 16 (tfDNSRecord.UriPriority s)
  && fitsIn 16 (tfDNSRecord.UriWeight s)
  && fitsIn 16 (tfDNSRecord.ForwarderPriority s)
  && fitsIn 16 (tfDNSRecord.ProxyPort s).

(** [type tfDNSZone struct] *)
Module tfDNSZone.
Record t : Type := mk {
  Name : tfString;
  Type_ : tfString;
  Catalog : tfString;
  UseSoaSerialDateScheme : tfBool;
  PrimaryNameServerAddresses : tfString;
  ZoneTransferProtocol : tfString;
  TsigKeyName : tfString;
  ValidateZone : tfBool;
  InitializeForwarder : tfBool;
  Protocol : tfString;
  Forwarder : tfString;
  DnssecValidation : tfBool;
  ProxyType : tfString;
  ProxyAddress : tfString;
  ProxyPort : tfInt64;
  ProxyUsername : tfString;
  ProxyPassword : tfString
}.
End tfDNSZone.

(** [type tfDNSZoneDataSource struct] *)
Module tfDNSZoneDataSource.
Record t : Type := mk {
  Name : tfString;
  Type_ : tfString;
  Internal : tfBool;
  DNSSecStatus : tfString;
  SOASerial : tfInt64;
  Expiry : tfString;
  IsExpired : tfBool;
  SyncFailed : tfBool;
  LastModified : tfString;
  Disabled : tfBool
}.
End tfDNSZoneDataSource.

(** [func tfZone2model(tfData tfDNSZone) model.DNSZone] *)
Definition tfZone2model (tfData : tfDNSZone.t) : ModelZone.DNSZone :=
  {| ModelZone.Name := ValueString (tfDNSZone.Name tfData);
     ModelZone.Type_ := ValueString (tfDNSZone.Type_ tfData);
     ModelZone.Internal := false;
     ModelZone.DNSSecStatus := "";
     ModelZone.SOASerial := 0%Z;
     ModelZone.Expiry := "";
     ModelZone.IsExpired := false;
     ModelZone.SyncFailed := false;
     ModelZone.LastModified := "";
     ModelZone.Disabled := false;
     ModelZone.Catalog := "";
     ModelZone.UseSoaSerialDateScheme := None;
     ModelZone.PrimaryNameServerAddresses := "";
     ModelZone.ZoneTransferProtocol := "";
     ModelZone.TsigKeyName := "";
     ModelZone.ValidateZone := None;
     ModelZone.InitializeForwarder := None;
     ModelZone.Protocol := "";
     ModelZone.Forwarder := "";
     ModelZone.DnssecValidation := None;
     ModelZone.ProxyType := "";
     ModelZone.ProxyAddress := "";
     ModelZone.ProxyPort := None;
     ModelZone.ProxyUsername := "";
     ModelZone.ProxyPassword := "" |}.

(** [func modelZone2tf(apiData model.DNSZone) tfDNSZone] *)
Definition modelZone2tf (apiData : ModelZone.DNSZone) : tfDNSZone.t :=
  {| tfDNSZone.Name := Some (ModelZone.Name apiData);
     tfDNSZone.Type_ := Some (ModelZone.Type_ apiData);
     tfDNSZone.Catalog := None;
     tfDNSZone.UseSoaSerialDateScheme := None;
     tfDNSZone.PrimaryNameServerAddresses := None;
     tfDNSZone.ZoneTransferProtocol := None;
     tfDNSZone.TsigKeyName := None;
     tfDNSZone.ValidateZone := None;
     tfDNSZone.InitializeForwarder := None;
     tfDNSZone.Protocol := None;
     tfDNSZone.Forwarder := None;
     tfDNSZone.DnssecValidation := None;
     tfDNSZone.ProxyType := None;
     tfDNSZone.ProxyAddress := None;
     tfDNSZone.ProxyPort := None;
     tfDNSZone.ProxyUsername := None;
     tfDNSZone.ProxyPassword := None |}.

(** [func modelZone2tfDataSource(apiData model.DNSZone) tfDNSZoneDataSource] *)
Definition modelZone2tfDataSource (apiData : ModelZone.DNSZone)
  : tfDNSZoneDataSource.t :=
  {| tfDNSZoneDataSource.Name := Some (ModelZone.Name apiData);
     tfDNSZoneDataSource.Type_ := Some (ModelZone.Type_ apiData);
     tfDNSZoneDataSource.Internal := Some (ModelZone.Internal apiData);
     tfDNSZoneDataSource.DNSSecStatus := Some (ModelZone.DNSSecStatus apiData);
     tfDNSZoneDataSource.SOASerial := Some (ModelZone.SOASerial apiData);
     tfDNSZoneDataSource.Expiry := Some (ModelZone.Expiry apiData);
     tfDNSZoneDataSource.IsExpired := Some (ModelZone.IsExpired apiData);
     tfDNSZoneDataSource.SyncFailed := Some (ModelZone.SyncFailed apiData);
     tfDNSZoneDataSource.LastModified := Some (ModelZone.LastModified apiData);
     tfDNSZoneDataSource.Disabled := Some (ModelZone.Disabled apiData) |}.

(** The calls of the resources on the mutex and on [model.DNSApiClient]. *)
Inductive Event : Type :=
| EvLock
| EvUnlock
| EvGetRecords (domain : Model.DNSRecordName)
| EvAddRecord (record : Model.DNSRecord)
| EvUpdateRecord (oldRecord newRecord : Model.DNSRecord)
| EvDeleteRecord (record : Model.DNSRecord)
| EvListZones
| EvCreateZone (zone : ModelZone.DNSZone)
| EvDeleteZone (zoneName : string).

Definition isLockEvent (e : Event) : bool :=
  match e with EvLock | EvUnlock => true | _ => false end.

(** The calls that change the server. *)
Definition isMutation (e : Event) : bool :=
  match e with
  | EvAddRecord _ | EvUpdateRecord _ _ | EvDeleteRecord _
  | EvCreateZone _ | EvDeleteZone _ => true
  | EvLock | EvUnlock | EvGetRecords _ | EvListZones => false
  end.

(** A request's [Plan.Get], [State.Get] or [Config.Get]: the diagnostics of
    the decoding and the decoded value. *)
Definition Decoded (T : Type) : Type := Diagnostics * T.

(** A response: the diagnostics and the state the operation leaves
    ([None]: no state, the resource is removed or was never set). *)
Record Response (T : Type) : Type := mkResponse {
  RespDiagnostics : Diagnostics;
  RespState : option T
}.

Arguments mkResponse {T}.
Arguments RespDiagnostics {T}.
Arguments RespState {T}.

Definition appendDiags {T : Type} (resp : Response T) (ds : Diagnostics)
  : Response T :=
  {| RespDiagnostics := Append (RespDiagnostics resp) ds;
     RespState := RespState resp |}.

Definition addError {T : Type} (resp : Response T) (sum det : string)
  : Response T :=
  {| RespDiagnostics := AddError (RespDiagnostics resp) sum det;
     RespState := RespState resp |}.

Definition addWarning {T : Type} (resp : Response T) (sum det : string)
  : Response T :=
  {| RespDiagnostics := AddWarning (RespDiagnostics resp) sum det;
     RespState := RespState resp |}.

(** [resp.State.Set(ctx, &data)]; a value of the schema's own struct type
    converts without diagnostics. *)
Definition State_Set {T : Type} (resp : Response T) (data : T) : Response T :=
  {| RespDiagnostics := RespDiagnostics resp; RespState := Some data |}.

(** [resp.State.RemoveResource(ctx)] *)
Definition State_RemoveResource {T : Type} (resp : Response T) : Response T :=
  {| RespDiagnostics := RespDiagnostics resp; RespState := None |}.

Section Resources.

(** The DNS server behind the client and the client's error values. *)
Variable World : Type.
Variable ApiErr : Type.
Variable errorText : ApiErr -> string.

(** [type DNSApiClient interface] of model.go, as the resources call it. *)
Record DNSApiClient : Type := mkClient {
  GetRecords : Model.DNSRecordName -> World ->
               (list Model.DNSRecord + ApiErr) * World;
  AddRecord : Model.DNSRecord -> World -> option ApiErr * World;
  UpdateRecord : Model.DNSRecord -> Model.DNSRecord -> World ->
                 option ApiErr * World;
  DeleteRecord : Model.DNSRecord -> World -> option ApiErr * World;
  ListZones : World -> (list ModelZone.DNSZone + ApiErr) * World;
  CreateZone : ModelZone.DNSZone -> World -> option ApiErr * World;
  DeleteZone : string -> World -> option ApiErr * World
}.

Variable client : DNSApiClient.

Record Env : Type := mkEnv {
  world : World;
  trace : list Event
}.

Definition emit (e : Event) : Eff.M Env unit :=
  fun env => (tt, {| world := world env; trace := (trace env ++ [e])%list |}).

(** A client method called on the server, recorded as the event [e]. *)
Definition call {R : Type} (e : Event) (method : World -> R * World)
  : Eff.M Env R :=
  fun env =>
    let (r, w) := method (world env) in
    (r, {| world := w; trace := (trace env ++ [e])%list |}).

(** [r.reqMutex.Lock(); defer r.reqMutex.Unlock()] *)
Definition withLock {A : Type} (body : Eff.M Env A) : Eff.M Env A :=
  (emit EvLock ;;; a <- body ;; emit EvUnlock ;;; Eff.ret a)%eff.

(** [func (r *RecordResource) Create(ctx, req, resp)]; [plan] is what
    [req.Plan.Get] gives. *)
Definition Create (plan : Decoded tfDNSRecord.t)
  (resp : Response tfDNSRecord.t) : Eff.M Env (Response tfDNSRecord.t) :=
  (let (diags, planData) := plan in
   let resp := appendDiags resp diags in
   if HasError (RespDiagnostics resp) then Eff.ret resp
   else withLock (
     let apiRecPlan := tf2model planData in
     err <- call (EvAddRecord apiRecPlan) (AddRecord client apiRecPlan) ;;
     match err with
     | Some e => Eff.ret (addError resp "Client Error"
                            ("Unable to create record: " ++ errorText e))
     | None => Eff.ret (State_Set resp planData)
     end))%eff.

(** One iteration of the loop of [Read] over [allRecordsFromApi]. *)
Definition readStep (dnsRecordFromState : Model.DNSRecord)
  (acc : tfDNSRecord.t * nat) (dnsRecordFromApi : Model.DNSRecord)
  : tfDNSRecord.t * nat :=
  let (stateData, numFound) := acc in
  if Model.SameKey dnsRecordFromApi dnsRecordFromState
  then (model2tf dnsRecordFromApi stateData, S numFound)
  else (stateData, numFound).

(** [func (r *RecordResource) Read(ctx, req, resp)]; [state] is what
    [req.State.Get] gives. *)
Definition Read (state : Decoded tfDNSRecord.t)
  (resp : Response tfDNSRecord.t) : Eff.M Env (Response tfDNSRecord.t) :=
  (let (diags, stateData) := state in
   let resp := appendDiags resp diags in
   if HasError (RespDiagnostics resp) then Eff.ret resp
   else withLock (
     let dnsRecordFromState := tf2model stateData in
     r <- call (EvGetRecords (Model.Domain dnsRecordFromState))
               (GetRecords client (Model.Domain dnsRecordFromState)) ;;
     match r with
     | inr err =>
         Eff.ret (addError resp "Client Error"
                    ("Reading DNS records: query failed: " ++ errorText err))
     | inl allRecordsFromApi =>
         let (stateData, numFound) :=
           if (List.length allRecordsFromApi =? 0)%nat then (stateData, 0%nat)
           else fold_left (readStep dnsRecordFromState) allRecordsFromApi
                          (stateData, 0%nat) in
         if (numFound =? 0)%nat then Eff.ret (State_RemoveResource resp)
         else
           let resp :=
             if (1 <? numFound)%nat
             then addWarning resp "Duplicate resource instances present"
                                  "Will use the last one"
             else resp in
           Eff.ret (State_Set resp stateData)
     end))%eff.

(** [func (r *RecordResource) Update(ctx, req, resp)] *)
Definition Update (plan state : Decoded tfDNSRecord.t)
  (resp : Response tfDNSRecord.t) : Eff.M Env (Response tfDNSRecord.t) :=
  (let (diags, planData) := plan in
   let resp := appendDiags resp diags in
   if HasError (RespDiagnostics resp) then Eff.ret resp
   else withLock (
     let dnsRecordFromPlan := tf2model planData in
     let (diags, stateData) := state in
     let resp := appendDiags resp diags in
     if HasError (RespDiagnostics resp) then Eff.ret resp
     else
       let dnsRecordFromState := tf2model stateData in
       err <- call (EvUpdateRecord dnsRecordFromState dnsRecordFromPlan)
                   (UpdateRecord client dnsRecordFromState dnsRecordFromPlan) ;;
       match err with
       | Some e => Eff.ret (addError resp "Client Error"
                              ("Updating DNS failed: " ++ errorText e))
       | None => Eff.ret (State_Set resp planData)
       end))%eff.

(** [func (r *RecordResource) Delete(ctx, req, resp)] *)
Definition Delete (state : Decoded tfDNSRecord.t)
  (resp : Response tfDNSRecord.t) : Eff.M Env (Response tfDNSRecord.t) :=
  (let (diags, stateData) := state in
   let resp := appendDiags resp diags in
   if HasError (RespDiagnostics resp) then Eff.ret resp
   else withLock (
     let dnsRecordFromState := tf2model stateData in
     err <- call (EvDeleteRecord dnsRecordFromState)
                 (DeleteRecord client dnsRecordFromState) ;;
     match err with
     | Some e => Eff.ret (addError resp "Client Error"
                            ("Deleting DNS record failed: " ++ errorText e))
     | None => Eff.ret resp
     end))%eff.

(** [func (r *ZoneResource) Create(ctx, req, resp)] *)
Definition ZoneCreate (plan : Decoded tfDNSZone.t)
  (resp : Response tfDNSZone.t) : Eff.M Env (Response tfDNSZone.t) :=
  (let (diags, planData) := plan in
   let resp := appendDiags resp diags in
   if HasError (RespDiagnostics resp) then Eff.ret resp
   else withLock (
     let apiZone := tfZone2model planData in
     err <- call (EvCreateZone apiZone) (CreateZone client apiZone) ;;
     match err with
     | Some e => Eff.ret (addError resp "Client Error"
                            ("Unable to create zone: " ++ errorText e))
     | None => Eff.ret (State_Set resp planData)
     end))%eff.

(** The loop of the zone [Read]s: the first zone of the list with the name. *)
Fixpoint findZone (zoneName : string) (zones : list ModelZone.DNSZone)
  : option ModelZone.DNSZone :=
  match zones with
  | [] => None
  | zone :: rest =>
      if ModelZone.Name zone =? zoneName then Some zone
      else findZone zoneName rest
  end.

(** [func (r *ZoneResource) Read(ctx, req, resp)] *)
Definition ZoneRead (state : Decoded tfDNSZone.t)
  (resp : Response tfDNSZone.t) : Eff.M Env (Response tfDNSZone.t) :=
  (let (diags, stateData) := state in
   let resp := appendDiags resp diags in
   if HasError (RespDiagnostics resp) then Eff.ret resp
   else withLock (
     r <- call EvListZones (ListZones client) ;;
     match r with
     | inr err =>
         Eff.ret (addError resp "Client Error"
                    ("Reading DNS zones: query failed: " ++ errorText err))
     | inl zones =>
         let zoneName := ValueString (tfDNSZone.Name stateData) in
         match findZone zoneName zones with
         | Some zone => Eff.ret (State_Set resp (modelZone2tf zone))
         | None => Eff.ret (State_RemoveResource resp)
         end
     end))%eff.

(** [func (r *ZoneResource) Update(ctx, req, resp)] *)
Definition ZoneUpdate (plan state : Decoded tfDNSZone.t)
  (resp : Response tfDNSZone.t) : Eff.M Env (Response tfDNSZone.t) :=
  (let (diags, planData) := plan in
   let resp := appendDiags resp diags in
   if HasError (RespDiagnostics resp) then Eff.ret resp
   else withLock (
     let (diags, stateData) := state in
     let resp := appendDiags resp diags in
     if HasError (RespDiagnostics resp) then Eff.ret resp
     else
       let oldName := ValueString (tfDNSZone.Name stateData) in
       err <- call (EvDeleteZone oldName) (DeleteZone client oldName) ;;
       match err with
       | Some e => Eff.ret (addError resp "Client Error"
                              ("Unable to delete old zone: " ++ errorText e))
       | None =>
           let apiZone := tfZone2model planData in
           err <- call (EvCreateZone apiZone) (CreateZone client apiZone) ;;
           match err with
           | Some e => Eff.ret (addError resp "Client Error"
                                  ("Unable to create new zone: " ++ errorText e))
           | None => Eff.ret (State_Set resp planData)
           end
       end))%eff.

(** [func (r *ZoneResource) Delete(ctx, req, resp)] *)
Definition ZoneDelete (state : Decoded tfDNSZone.t)
  (resp : Response tfDNSZone.t) : Eff.M Env (Response tfDNSZone.t) :=
  (let (diags, stateData) := state in
   let resp := appendDiags resp diags in
   if HasError (RespDiagnostics resp) then Eff.ret resp
   else withLock (
     let zoneName := ValueString (tfDNSZone.Name stateData) in
     err <- call (EvDeleteZone zoneName) (DeleteZone client zoneName) ;;
     match err with
     | Some e => Eff.ret (addError resp "Client Error"
                            ("Deleting DNS zone failed: " ++ errorText e))
     | None => Eff.ret resp
     end))%eff.

(** [func (d *ZoneDataSource) Read(ctx, req, resp)]; [config] is what
    [req.Config.Get] gives. *)
Definition ZoneDataSourceRead (config : Decoded tfDNSZoneDataSource.t)
  (resp : Response tfDNSZoneDataSource.t)
  : Eff.M Env (Response tfDNSZoneDataSource.t) :=
  (let (diags, config) := config in
   let resp := appendDiags resp diags in
   if HasError (RespDiagnostics resp) then Eff.ret resp
   else withLock (
     r <- call EvListZones (ListZones client) ;;
     match r with
     | inr err =>
         Eff.ret (addError resp "Client Error"
                    ("Reading DNS zones: query failed: " ++ errorText err))
     | inl zones =>
         let zoneName := ValueString (tfDNSZoneDataSource.Name config) in
         match findZone zoneName zones with
         | Some zone => Eff.ret (State_Set resp (modelZone2tfDataSource zone))
         | None =>
             Eff.ret (addError resp "Zone not found"
                        ("Zone with name '" ++ zoneName ++ "' not found"))
         end
     end))%eff.

End Resources.

Arguments mkClient {World ApiErr}.
Arguments GetRecords {World ApiErr}.
Arguments AddRecord {World ApiErr}.
Arguments UpdateRecord {World ApiErr}.
Arguments DeleteRecord {World ApiErr}.
Arguments ListZones {World ApiErr}.
Arguments CreateZone {World ApiErr}.
Arguments DeleteZone {World ApiErr}.
Arguments mkEnv {World}.
Arguments world {World}.
Arguments trace {World}.
Arguments emit {World}.
Arguments call {World R}.
Arguments withLock {World A}.
Arguments Create {World ApiErr}.
Arguments Read {World ApiErr}.
Arguments Update {World ApiErr}.
Arguments Delete {World ApiErr}.
Arguments ZoneCreate {World ApiErr}.
Arguments ZoneRead {World ApiErr}.
Arguments ZoneUpdate {World ApiErr}.
Arguments ZoneDelete {World ApiErr}.
Arguments ZoneDataSourceRead {World ApiErr}.

(** [func (r *ZoneResource) ImportState(ctx, req, resp)], with [id] the
    request's [ID] and the state as the attributes set, in order. *)
Definition ZoneImportState (id : string) (attrs : list (string * string))
  : list (string * string) :=
  let zoneName := id in
  ((attrs ++ [("name", zoneName)]) ++ [("type", "Primary")])%list.

(** An A record in state form: the attributes a configuration of an address
    record sets, every other attribute null. *)
Definition addressState (domain ip : string) (ttl : Z) : tfDNSRecord.t :=
  {| tfDNSRecord.Zone := None;
     tfDNSRecord.Type_ := Some "A";
     tfDNSRecord.Domain := Some domain;
     tfDNSRecord.TTL := Some ttl;
     tfDNSRecord.IPAddress := Some ip;
     tfDNSRecord.Ptr := None;
     tfDNSRecord.CreatePtrZone := None;
     tfDNSRecord.UpdateSvcbHints := None;
     tfDNSRecord.NameServer := None;
     tfDNSRecord.Glue := None;
     tfDNSRecord.CName := None;
     tfDNSRecord.PtrName := None;
     tfDNSRecord.Exchange := None;
     tfDNSRecord.Preference := None;
     tfDNSRecord.Text := None;
     tfDNSRecord.SplitText := None;
     tfDNSRecord.Mailbox := None;
     tfDNSRecord.TxtDomain := None;
     tfDNSRecord.Priority := None;
     tfDNSRecord.Weight := None;
     tfDNSRecord.Port := None;
     tfDNSRecord.Target := None;
     tfDNSRecord.NaptrOrder := None;
     tfDNSRecord.NaptrPreference := None;
     tfDNSRecord.NaptrFlags := None;
     tfDNSRecord.NaptrServices := None;
     tfDNSRecord.NaptrRegexp := None;
     tfDNSRecord.NaptrReplacement := None;
     tfDNSRecord.DName := None;
     tfDNSRecord.KeyTag := None;
     tfDNSRecord.Algorithm := None;
     tfDNSRecord.DigestType := None;
     tfDNSRecord.Digest := None;
     tfDNSRecord.SshfpAlgorithm := None;
     tfDNSRecord.SshfpFingerprintType := None;
     tfDNSRecord.SshfpFingerprint := None;
     tfDNSRecord.TlsaCertificateUsage := None;
     tfDNSRecord.TlsaSelector := None;
     tfDNSRecord.TlsaMatchingType := None;
     tfDNSRecord.TlsaCertificateAssociationData := None;
     tfDNSRecord.SvcPriority := None;
     tfDNSRecord.SvcTargetName := None;
     tfDNSRecord.SvcParams := None;
     tfDNSRecord.AutoIpv4Hint := None;
     tfDNSRecord.AutoIpv6Hint := None;
     tfDNSRecord.UriPriority := None;
     tfDNSRecord.UriWeight := None;
     tfDNSRecord.Uri := None;
     tfDNSRecord.Flags := None;
     tfDNSRecord.Tag := None;
     tfDNSRecord.Value := None;
     tfDNSRecord.AName := None;
     tfDNSRecord.Forwarder := None;
     tfDNSRecord.ForwarderPriority := None;
     tfDNSRecord.DnssecValidation := None;
     tfDNSRecord.ProxyType := None;
     tfDNSRecord.ProxyAddress := None;
     tfDNSRecord.ProxyPort := None;
     tfDNSRecord.ProxyUsername := None;
     tfDNSRecord.ProxyPassword := None;
     tfDNSRecord.AppName := None;
     tfDNSRecord.ClassPath := None;
     tfDNSRecord.RecordData := None |}.

(** A state of the given type and domain, every other attribute null. *)
Definition bareState (type domain : string) : tfDNSRecord.t :=
  {| tfDNSRecord.Zone := None;
     tfDNSRecord.Type_ := Some type;
     tfDNSRecord.Domain := Some domain;
     tfDNSRecord.TTL := None;
     tfDNSRecord.IPAddress := None;
     tfDNSRecord.Ptr := None;
     tfDNSRecord.CreatePtrZone := None;
     tfDNSRecord.UpdateSvcbHints := None;
     tfDNSRecord.NameServer := None;
     tfDNSRecord.Glue := None;
     tfDNSRecord.CName := None;
     tfDNSRecord.PtrName := None;
     tfDNSRecord.Exchange := None;
     tfDNSRecord.Preference := None;
     tfDNSRecord.Text := None;
     tfDNSRecord.SplitText := None;
     tfDNSRecord.Mailbox := None;
     tfDNSRecord.TxtDomain := None;
     tfDNSRecord.Priority := None;
     tfDNSRecord.Weight := None;
     tfDNSRecord.Port := None;
     tfDNSRecord.Target := None;
     tfDNSRecord.NaptrOrder := None;
     tfDNSRecord.NaptrPreference := None;
     tfDNSRecord.NaptrFlags := None;
     tfDNSRecord.NaptrServices := None;
     tfDNSRecord.NaptrRegexp := None;
     tfDNSRecord.NaptrReplacement := None;
     tfDNSRecord.DName := None;
     tfDNSRecord.KeyTag := None;
     tfDNSRecord.Algorithm := None;
     tfDNSRecord.DigestType := None;
     tfDNSRecord.Digest := None;
     tfDNSRecord.SshfpAlgorithm := None;
     tfDNSRecord.SshfpFingerprintType := None;
     tfDNSRecord.SshfpFingerprint := None;
     tfDNSRecord.TlsaCertificateUsage := None;
     tfDNSRecord.TlsaSelector := None;
     tfDNSRecord.TlsaMatchingType := None;
     tfDNSRecord.TlsaCertificateAssociationData := None;
     tfDNSRecord.SvcPriority := None;
     tfDNSRecord.SvcTargetName := None;
     tfDNSRecord.SvcParams := None;
     tfDNSRecord.AutoIpv4Hint := None;
     tfDNSRecord.AutoIpv6Hint := None;
     tfDNSRecord.UriPriority := None;
     tfDNSRecord.UriWeight := None;
     tfDNSRecord.Uri := None;
     tfDNSRecord.Flags := None;
     tfDNSRecord.Tag := None;
     tfDNSRecord.Value := None;
     tfDNSRecord.AName := None;
     tfDNSRecord.Forwarder := None;
     tfDNSRecord.ForwarderPriority := None;
     tfDNSRecord.DnssecValidation := None;
     tfDNSRecord.ProxyType := None;
     tfDNSRecord.ProxyAddress := None;
     tfDNSRecord.ProxyPort := None;
     tfDNSRecord.ProxyUsername := None;
     tfDNSRecord.ProxyPassword := None;
     tfDNSRecord.AppName := None;
     tfDNSRecord.ClassPath := None;
     tfDNSRecord.RecordData := None |}.

(** A test double for the client: the server is a list of records and a
    list of zones, and every call succeeds. *)
Definition MockWorld : Type := list Model.DNSRecord * list ModelZone.DNSZone.

Definition mockClient : DNSApiClient MockWorld string :=
  {| GetRecords := fun domain w =>
       (inl (filter (fun r => Model.Domain r =? domain) (fst w)), w);
     AddRecord := fun r w => (None, ((fst w ++ [r])%list, snd w));
     UpdateRecord := fun old new w =>
       (None, (map (fun r => if Model.SameKey r old then new else r) (fst w),
               snd w));
     DeleteRecord := fun r w =>
       (None, (filter (fun x => negb (Model.SameKey x r)) (fst w), snd w));
     ListZones := fun w => (inl (snd w), w);
     CreateZone := fun z w => (None, (fst w, (snd w ++ [z])%list));
     DeleteZone := fun n w =>
       (None, (fst w, filter (fun z => negb (ModelZone.Name z =? n)) (snd w))) |}.

(** A test double whose zone creation fails. *)
Definition failingCreateClient : DNSApiClient MockWorld string :=
  {| GetRecords := GetRecords mockClient;
     AddRecord := AddRecord mockClient;
     UpdateRecord := UpdateRecord mockClient;
     DeleteRecord := DeleteRecord mockClient;
     ListZones := ListZones mockClient;
     CreateZone := fun _ w => (Some "zone creation refused", w);
     DeleteZone := DeleteZone mockClient |}.

End Technitium.

(* ===================================================================== *)
(** ** More test data: records, states and failing clients *)
(* ===================================================================== *)

Module FixtureExtra.
Import Framework.

(** An SOA record and two CNAME records that differ outside their key. *)
Definition soaRecord : Model.DNSRecord :=
  Model.addressRecord Model.REC_SOA "example.com" "" "".
Definition cnameOne : Model.DNSRecord :=
  Model.addressRecord Model.REC_CNAME "alias.example.com" "" "one".
Definition cnameTwo : Model.DNSRecord :=
  Model.addressRecord Model.REC_CNAME "alias.example.com" "" "two".

(** A CNAME state and plan of record.go. *)
Definition cnameState (name target : string) : Record.tfDNSRecord.t :=
  {| Record.tfDNSRecord.Domain := Some "example.com";
     Record.tfDNSRecord.Type_ := Some "CNAME";
     Record.tfDNSRecord.Name := Some name;
     Record.tfDNSRecord.Data := Some target;
     Record.tfDNSRecord.TTL := Some 3600%Z;
     Record.tfDNSRecord.Priority := None |}.

Definition txtC : Record.DNSRecord.t := Fixture.txtRecord "@" "c".
Definition planC : Record.tfDNSRecord.t := Fixture.txtState "@" "c".

(** The record of [Fixture.txtA] once more, with another TTL. *)
Definition txtALongTTL : Record.DNSRecord.t :=
  {| Record.DNSRecord.Name := "@"; Record.DNSRecord.Type_ := "TXT";
     Record.DNSRecord.Data := "a"; Record.DNSRecord.TTL := 7200%Z;
     Record.DNSRecord.Priority := 0%Z; Record.DNSRecord.Protocol := "";
     Record.DNSRecord.Service := ""; Record.DNSRecord.Port := 0%Z;
     Record.DNSRecord.Weight := 0%Z |}.

(** A client of record.go whose query fails. *)
Definition failingQueryClient
  : Record.DNSApiClient Fixture.World Fixture.ApiErr :=
  {| Record.GetRecords := fun _ _ _ w => (inr "timeout", w);
     Record.AddRecords := Record.AddRecords Fixture.mockClient;
     Record.SetRecords := Record.SetRecords Fixture.mockClient;
     Record.DelRecords := Record.DelRecords Fixture.mockClient |}.

(** A zone state with a name and a type, every other attribute null, and
    the zone the server holds for it. *)
Definition zoneState (name type : string) : Technitium.tfDNSZone.t :=
  {| Technitium.tfDNSZone.Name := Some name;
     Technitium.tfDNSZone.Type_ := Some type;
     Technitium.tfDNSZone.Catalog := None;
     Technitium.tfDNSZone.UseSoaSerialDateScheme := None;
     Technitium.tfDNSZone.PrimaryNameServerAddresses := None;
     Technitium.tfDNSZone.ZoneTransferProtocol := None;
     Technitium.tfDNSZone.TsigKeyName := None;
     Technitium.tfDNSZone.ValidateZone := None;
     Technitium.tfDNSZone.InitializeForwarder := None;
     Technitium.tfDNSZone.Protocol := None;
     Technitium.tfDNSZone.Forwarder := None;
     Technitium.tfDNSZone.DnssecValidation := None;
     Technitium.tfDNSZone.ProxyType := None;
     Technitium.tfDNSZone.ProxyAddress := None;
     Technitium.tfDNSZone.ProxyPort := None;
     Technitium.tfDNSZone.ProxyUsername := None;
     Technitium.tfDNSZone.ProxyPassword := None |}.

Definition zoneOf (name type : string) : ModelZone.DNSZone :=
  Technitium.tfZone2model (zoneState name type).

Definition zoneConfig (name : string) : Technitium.tfDNSZoneDataSource.t :=
  {| Technitium.tfDNSZoneDataSource.Name := Some name;
     Technitium.tfDNSZoneDataSource.Type_ := None;
     Technitium.tfDNSZoneDataSource.Internal := None;
     Technitium.tfDNSZoneDataSource.DNSSecStatus := None;
     Technitium.tfDNSZoneDataSource.SOASerial := None;
     Technitium.tfDNSZoneDataSource.Expiry := None;
     Technitium.tfDNSZoneDataSource.IsExpired := None;
     Technitium.tfDNSZoneDataSource.SyncFailed := None;
     Technitium.tfDNSZoneDataSource.LastModified := None;
     Technitium.tfDNSZoneDataSource.Disabled := None |}.

(** The state of an address record and the record the server holds for it;
    a second server record with the same key and another TTL. *)
Definition hostState : Technitium.tfDNSRecord.t :=
  Technitium.addressState "host.example.com" "1.2.3.4" 3600.
Definition hostRecord : Model.DNSRecord := Technitium.tf2model hostState.
Definition hostRecordLongTTL : Model.DNSRecord :=
  Technitium.tf2model (Technitium.addressState "host.example.com" "1.2.3.4" 7200).
Definition soaState : Technitium.tfDNSRecord.t :=
  Technitium.bareState "SOA" "example.com".

Definition techEnv (w : Technitium.MockWorld) : Technitium.Env Technitium.MockWorld :=
  {| Technitium.world := w; Technitium.trace := [] |}.

Definition emptyTechResp {T : Type} : Technitium.Response T :=
  {| Technitium.RespDiagnostics := []; Technitium.RespState := None |}.

(** A plan, state or configuration that decoded without diagnostics. *)
Definition decoded {T : Type} (data : T) : Technitium.Decoded T := ([], data).

End FixtureExtra.

(* ===================================================================== *)
(** * Properties *)
(* ===================================================================== *)

(** ** Record identity (model.go) *)

Module ModelFacts.
Import Model.

Lemma eqb_neq_false (a b : string) : a <> b -> (a =? b) = false.
Proof. intro H. now apply String.eqb_neq. Qed.

(** On two records of type A or AAAA with the same type and domain,
    [SameKey] is the comparison of the two effective addresses. *)
Lemma SameKey_address_type (r r1 : DNSRecord) :
  Type_ r = REC_A \/ Type_ r = REC_AAAA ->
  Type_ r1 = Type_ r ->
  Domain r1 = Domain r ->
  SameKey r r1 =
    ((if IPAddress r =? "" then Value r else IPAddress r)
       =? (if IPAddress r1 =? "" then Value r1 else IPAddress r1))
    && negb ((if IPAddress r =? "" then Value r else IPAddress r) =? "").
Proof.
  intros Hty Ht1 Hd. unfold SameKey.
  rewrite Ht1, Hd, !String.eqb_refl. cbn [negb orb].
  destruct Hty as [-> | ->]; reflexivity.
Qed.

(** C7 (as amended).  For two A records with equal type and domain:
    different non-empty addresses never match; equal non-empty addresses
    match; and when both addresses are empty the decision falls to the
    [Value] fields: the records match exactly when the two [Value]s are
    equal and non-empty, so two records with empty address and empty
    [Value] do not match. *)
Theorem SameKey_A_addresses (r r1 : DNSRecord) :
  Type_ r = REC_A -> Type_ r1 = REC_A -> Domain r = Domain r1 ->
  (IPAddress r <> "" -> IPAddress r1 <> "" -> IPAddress r <> IPAddress r1 ->
   SameKey r r1 = false)
  /\ (IPAddress r <> "" -> IPAddress r = IPAddress r1 -> SameKey r r1 = true)
  /\ (IPAddress r = "" -> IPAddress r1 = "" ->
      SameKey r r1 = (Value r =? Value r1) && negb (Value r =? ""))
  /\ (IPAddress r = "" -> IPAddress r1 = "" -> Value r = "" ->
      SameKey r r1 = false).
Proof.
  intros Ht Ht1 Hd.
  assert (E := SameKey_address_type r r1 (or_introl Ht)
                 (eq_trans Ht1 (eq_sym Ht)) (eq_sym Hd)).
  repeat split.
  - intros Hn Hn1 Hne. rewrite E.
    rewrite (eqb_neq_false _ _ Hn), (eqb_neq_false _ _ Hn1). simpl.
    now rewrite (eqb_neq_false _ _ Hne).
  - intros Hn Heq. rewrite E, <- Heq.
    rewrite (eqb_neq_false _ _ Hn). simpl.
    now rewrite String.eqb_refl, (eqb_neq_false _ _ Hn).
  - intros He He1. rewrite E, He, He1. reflexivity.
  - intros He He1 Hv. rewrite E, He, He1, Hv. simpl.
    apply andb_false_r.
Qed.

Lemma SameKey_A_addresses_witness :
  Type_ testA1 = REC_A /\ Domain testA1 = Domain testA1
  /\ IPAddress testA1 <> "" /\ SameKey testA1 testA1 = true.
Proof.
  pose proof (SameKey_A_addresses testA1 testA1 eq_refl eq_refl eq_refl)
    as (_ & H & _).
  split; [reflexivity|]. split; [reflexivity|]. split; [discriminate|].
  apply H; [discriminate | reflexivity].
Defined.

(** C7, counterexample to the claim as stated: two A records with equal type
    and domain whose addresses are both empty, and [SameKey] holds. *)
Lemma SameKey_A_both_addresses_empty_match :
  Type_ testA2 = REC_A /\ IPAddress testA2 = ""
  /\ SameKey testA2 testA2 = true.
Proof. repeat split. Qed.

(** C10.  For A and AAAA records with equal type and domain, each side
    contributes its [IPAddress], or its [Value] when the [IPAddress] is
    empty, and the records match when the two contributions are equal and
    non-empty; so a record with an address and a record with an empty
    address but that same string as [Value] are the same record. *)
Theorem SameKey_address_falls_back_to_Value (r r1 : DNSRecord) :
  Type_ r = REC_A \/ Type_ r = REC_AAAA ->
  Type_ r1 = Type_ r ->
  Domain r1 = Domain r ->
  SameKey r r1 =
    ((if IPAddress r =? "" then Value r else IPAddress r)
       =? (if IPAddress r1 =? "" then Value r1 else IPAddress r1))
    && negb ((if IPAddress r =? "" then Value r else IPAddress r) =? "")
  /\ (IPAddress r <> "" -> IPAddress r1 = "" -> Value r1 = IPAddress r ->
      SameKey r r1 = true /\ SameKey r1 r = true).
Proof.
  intros Hty Ht1 Hd.
  assert (E := SameKey_address_type r r1 Hty Ht1 Hd).
  assert (Hty1 : Type_ r1 = REC_A \/ Type_ r1 = REC_AAAA)
    by (rewrite Ht1; exact Hty).
  assert (E1 := SameKey_address_type r1 r Hty1 (eq_sym Ht1) (eq_sym Hd)).
  split; [exact E|].
  intros Hn He Hv. rewrite E, E1, He, Hv.
  rewrite (eqb_neq_false _ _ Hn). simpl.
  now rewrite String.eqb_refl, (eqb_neq_false _ _ Hn).
Qed.

Lemma SameKey_address_falls_back_to_Value_witness :
  (Type_ testA1 = REC_A \/ Type_ testA1 = REC_AAAA)
  /\ Type_ testA2 = Type_ testA1 /\ Domain testA2 = Domain testA1
  /\ SameKey testA1 testA2 = true /\ SameKey testA2 testA1 = true.
Proof.
  pose proof (SameKey_address_falls_back_to_Value testA1 testA2
                (or_introl eq_refl) eq_refl eq_refl) as (_ & H).
  split; [left; reflexivity|]. split; [reflexivity|]. split; [reflexivity|].
  apply H; [discriminate | reflexivity | reflexivity].
Defined.

End ModelFacts.

(** ** The keep-list, Update and Delete (record.go) *)

Module RecordFacts.
Import Framework Record.

Lemma DNSUpdateRecord_eqb_refl (a : DNSUpdateRecord.t) :
  DNSUpdateRecord.eqb a a = true.
Proof.
  unfold DNSUpdateRecord.eqb.
  now rewrite !String.eqb_refl, !Z.eqb_refl.
Qed.

Lemma indexFrom_lower_bound (s : list DNSUpdateRecord.t)
  (v : DNSUpdateRecord.t) (i : Z) :
  (0 <= i)%Z -> In v s -> (0 <= indexFrom i s v)%Z.
Proof.
  revert i. induction s as [|x s IH]; intros i Hi Hin; [contradiction|].
  cbn [indexFrom].
  destruct (DNSUpdateRecord.eqb v x) eqn:E; [exact Hi|].
  destruct Hin as [->|Hin].
  - now rewrite DNSUpdateRecord_eqb_refl in E.
  - apply IH; [lia | exact Hin].
Qed.

Lemma slices_Index_present (s : list DNSUpdateRecord.t)
  (v : DNSUpdateRecord.t) :
  In v s -> (0 <=? slices_Index s v)%Z = true.
Proof.
  intro Hin. apply Z.leb_le. now apply indexFrom_lower_bound.
Qed.

Lemma Equal_isError (a b : Diagnostic) :
  Equal a b = true -> isError a = isError b.
Proof.
  unfold Equal, isError. intro H.
  apply andb_prop in H as [H _]. apply andb_prop in H as [H _].
  destruct (severity a), (severity b); (reflexivity || discriminate).
Qed.

Lemma Contains_error (ds : Diagnostics) (d : Diagnostic) :
  Contains ds d = true -> isError d = true -> HasError ds = true.
Proof.
  unfold Contains, HasError. intros Hc He.
  apply existsb_exists in Hc as (x & Hin & Heq).
  apply existsb_exists. exists x. split; [exact Hin|].
  now rewrite <- (Equal_isError _ _ Heq).
Qed.

(** Appending diagnostics with no error to diagnostics with no error leaves
    no error, whatever [Append] drops as duplicates. *)
Lemma HasError_Append (new ds : Diagnostics) :
  HasError ds = false -> HasError new = false ->
  HasError (Append ds new) = false.
Proof.
  unfold Append. revert ds.
  induction new as [|d new IH]; intros ds Hds Hnew; [exact Hds|].
  cbn [fold_left]. unfold HasError in Hnew. cbn [existsb] in Hnew.
  apply orb_false_elim in Hnew as [Hd Hnew].
  apply IH; [|exact Hnew].
  destruct (Contains ds d); [exact Hds|].
  unfold HasError. rewrite existsb_app. cbn [existsb].
  fold (HasError ds). now rewrite Hds, Hd.
Qed.

Lemma filter_none {A : Type} (f : A -> bool) (l : list A) :
  (forall x, In x l -> f x = false) -> filter f l = [].
Proof.
  induction l as [|x l IH]; intro H; [reflexivity|].
  cbn [filter]. rewrite (H x (or_introl eq_refl)).
  apply IH. intros y Hy. apply H. now right.
Qed.

Lemma filter_some {A : Type} (f : A -> bool) (l : list A) (x : A) :
  In x l -> f x = true -> List.length (filter f l) <> 0%nat.
Proof.
  intros Hin Hf Hlen.
  assert (Hx : In x (filter f l)) by (apply filter_In; now split).
  destruct (filter f l); [contradiction | discriminate].
Qed.

Section WithClient.

Context {World ApiErr : Type}.
Variable errorText : ApiErr -> string.
Variable client : DNSApiClient World ApiErr.
Variable SameKey : DNSRecord.t -> DNSRecord.t -> bool.
Variable ToUpdate : DNSRecord.t -> DNSUpdateRecord.t.
Variable IsSingleValue : DNSRecordType -> bool.

(** The record and the domain [tf2model] extracts from the state. *)
Local Abbreviation apiDomain sd := (fst (tf2model sd)).
Local Abbreviation apiRec sd := (snd (tf2model sd)).
Local Abbreviation recType sd := (DNSRecord.Type_ (snd (tf2model sd))).
Local Abbreviation recName sd := (DNSRecord.Name (snd (tf2model sd))).

(** The live records the loop keeps, and those that match the state. *)
Local Abbreviation others st live :=
  (filter (fun rec => negb (SameKey rec st)) live).
Local Abbreviation matching st live :=
  (filter (fun rec => SameKey rec st) live).

Lemma keepStep_fold (st : DNSRecord.t) (live : list DNSRecord.t) :
  forall (res : list DNSUpdateRecord.t) (m : nat),
    fold_left (keepStep SameKey ToUpdate st) live (res, m)
    = ((res ++ map ToUpdate (others st live))%list,
       (m + List.length (matching st live))%nat).
Proof.
  induction live as [|rec live IH]; intros res m; cbn [fold_left filter].
  - cbn. now rewrite app_nil_r, Nat.add_0_r.
  - unfold keepStep at 2. destruct (SameKey rec st); cbn [negb].
    + rewrite IH. cbn [List.length]. f_equal. lia.
    + rewrite IH. cbn [map]. now rewrite <- app_assoc.
Qed.

(** What one run of [apiRecsToKeep] returns and does when the query
    succeeds with the records [live]. *)
Lemma apiRecsToKeep_run (stateData : tfDNSRecord.t) (env : Env World)
  (live : list DNSRecord.t) (w' : World) :
  GetRecords client (apiDomain stateData) (recType stateData)
             (recName stateData) (world env) = (inl live, w') ->
  apiRecsToKeep client SameKey ToUpdate stateData env
  = ((map ToUpdate (others (apiRec stateData) live),
      if (List.length (matching (apiRec stateData) live) =? 0)%nat
      then Some errRecordGone else None),
     {| world := w';
        trace := (trace env ++ [EvGetRecords (apiDomain stateData)
                                  (recType stateData) (recName stateData)])%list |}).
Proof.
  intro Hget. unfold apiRecsToKeep.
  destruct (tf2model stateData) as [d st] eqn:Etf. cbn [fst snd] in *.
  unfold Eff.bind, callGetRecords. rewrite Hget.
  destruct live as [|rec live].
  - reflexivity.
  - cbn [List.length Nat.eqb]. rewrite keepStep_fold. cbn [app Nat.add].
    set (n := List.length (matching st (rec :: live))).
    destruct n as [|[|n]]; reflexivity.
Qed.

(** [apiRecsToKeep] makes one call, the query, whatever it returns. *)
Lemma apiRecsToKeep_trace (stateData : tfDNSRecord.t) (env : Env World) :
  trace (snd (apiRecsToKeep client SameKey ToUpdate stateData env))
  = (trace env ++ [EvGetRecords (apiDomain stateData) (recType stateData)
                     (recName stateData)])%list.
Proof.
  destruct (GetRecords client (apiDomain stateData) (recType stateData)
              (recName stateData) (world env)) as [[live|err] w'] eqn:Hget.
  - now rewrite (apiRecsToKeep_run _ _ _ _ Hget).
  - unfold apiRecsToKeep.
    destruct (tf2model stateData) as [d st]. cbn [fst snd] in *.
    unfold Eff.bind, callGetRecords. now rewrite Hget.
Qed.

(** C1.  When the query for the state record's type and name returns the
    records [live], the keep-list of [apiRecsToKeep] is, in order, the
    update form of exactly the live records that do not have the state
    record's key: a record is in the list if and only if it is the update
    form of a live record for which [SameKey] is false. *)
Theorem apiRecsToKeep_keeps_exactly_the_others
  (stateData : tfDNSRecord.t) (env : Env World)
  (live : list DNSRecord.t) (w' : World) :
  GetRecords client (apiDomain stateData) (recType stateData)
             (recName stateData) (world env) = (inl live, w') ->
  fst (fst (apiRecsToKeep client SameKey ToUpdate stateData env))
  = map ToUpdate (filter (fun rec => negb (SameKey rec (apiRec stateData))) live)
  /\ (forall u : DNSUpdateRecord.t,
        In u (fst (fst (apiRecsToKeep client SameKey ToUpdate stateData env)))
        <-> exists rec, In rec live
                        /\ SameKey rec (apiRec stateData) = false
                        /\ u = ToUpdate rec).
Proof.
  intro Hget. rewrite (apiRecsToKeep_run _ _ _ _ Hget). cbn [fst].
  split; [reflexivity|].
  intro u. rewrite in_map_iff. split.
  - intros (rec & Hu & Hin). apply filter_In in Hin as [Hin Hk].
    exists rec. repeat split; [exact Hin | | now symmetry].
    now apply negb_true_iff.
  - intros (rec & Hin & Hk & ->). exists rec. split; [reflexivity|].
    apply filter_In. split; [exact Hin|]. now rewrite Hk.
Qed.

(** C2.  For a state record of a multi-valued type, when none of the live
    records returned for its type and name has its key, [apiRecsToKeep]
    returns the sentinel [errRecordGone], and [Delete] locks, queries,
    unlocks and returns: no replace-set and no delete-set call is made, and
    no error is reported. *)
Theorem gone_is_the_sentinel_and_Delete_mutates_nothing
  (req : DeleteRequest) (resp : Response) (env : Env World)
  (live : list DNSRecord.t) (w' : World) :
  IsSingleValue (recType (snd (DeleteState_Get req))) = false ->
  HasError (RespDiagnostics resp) = false ->
  HasError (fst (DeleteState_Get req)) = false ->
  GetRecords client (apiDomain (snd (DeleteState_Get req)))
             (recType (snd (DeleteState_Get req)))
             (recName (snd (DeleteState_Get req))) (world env)
    = (inl live, w') ->
  (forall rec, In rec live ->
               SameKey rec (apiRec (snd (DeleteState_Get req))) = false) ->
  snd (fst (apiRecsToKeep client SameKey ToUpdate
              (snd (DeleteState_Get req)) env)) = Some errRecordGone
  /\ trace (snd (Delete errorText client SameKey ToUpdate IsSingleValue
                        req resp env))
     = (trace env ++ [EvLock;
                      EvGetRecords (apiDomain (snd (DeleteState_Get req)))
                                   (recType (snd (DeleteState_Get req)))
                                   (recName (snd (DeleteState_Get req)));
                      EvUnlock])%list
  /\ filter isMutation
       (trace (snd (Delete errorText client SameKey ToUpdate IsSingleValue
                           req resp env)))
     = filter isMutation (trace env)
  /\ world (snd (Delete errorText client SameKey ToUpdate IsSingleValue
                        req resp env)) = w'
  /\ HasError (RespDiagnostics
                 (fst (Delete errorText client SameKey ToUpdate IsSingleValue
                              req resp env))) = false.
Proof.
  intros Hmulti Hresp Hdiags Hget Hnone.
  assert (Hlen : matching (apiRec (snd (DeleteState_Get req))) live = [])
    by now apply filter_none.
  split.
  { rewrite (apiRecsToKeep_run _ _ _ _ Hget). cbn [fst snd].
    now rewrite Hlen. }
  assert (Hrun :
    Delete errorText client SameKey ToUpdate IsSingleValue req resp env
    = (appendDiags (appendDiags resp (fst (DeleteState_Get req)))
                   (fst (DeleteState_Get req)),
       {| world := w';
          trace := (trace env ++ [EvLock;
                      EvGetRecords (apiDomain (snd (DeleteState_Get req)))
                                   (recType (snd (DeleteState_Get req)))
                                   (recName (snd (DeleteState_Get req)));
                      EvUnlock])%list |})).
  { unfold Delete. destruct (DeleteState_Get req) as [diags stateData].
    cbn [fst snd] in *.
    assert (H1 : HasError (RespDiagnostics (appendDiags resp diags)) = false)
      by now apply HasError_Append.
    assert (H2 : HasError (RespDiagnostics
                   (appendDiags (appendDiags resp diags) diags)) = false)
      by now apply HasError_Append.
    rewrite H1. unfold withLock, Eff.bind, emit at 1.
    destruct (tf2model stateData) as [d st] eqn:Etf. cbn [fst snd] in *.
    rewrite Hmulti, H2.
    assert (Hget' :
      GetRecords client (apiDomain stateData) (recType stateData)
        (recName stateData)
        (world {| world := world env; trace := (trace env ++ [EvLock])%list |})
      = (inl live, w')) by (rewrite Etf; exact Hget).
    rewrite (apiRecsToKeep_run _ _ _ _ Hget'). rewrite Etf. cbn [fst snd].
    rewrite Hlen. cbn. now rewrite <- !app_assoc. }
  rewrite Hrun. cbn [fst snd trace world RespDiagnostics appendDiags].
  repeat split.
  - rewrite filter_app. cbn. now rewrite app_nil_r.
  - now repeat apply HasError_Append.
Qed.

(** C8.  For a state record of a multi-valued type that is still among
    the live records, [Delete] makes exactly one mutating call after the
    query: the whole-set delete [DelRecords] when the keep-list is empty
    (never a [SetRecords] with an empty list), and otherwise one
    [SetRecords] carrying exactly the keep-list. *)
Theorem Delete_present_deletes_set_or_replaces_by_keep_list
  (req : DeleteRequest) (resp : Response) (env : Env World)
  (live : list DNSRecord.t) (w' : World) :
  IsSingleValue (recType (snd (DeleteState_Get req))) = false ->
  HasError (RespDiagnostics resp) = false ->
  HasError (fst (DeleteState_Get req)) = false ->
  GetRecords client (apiDomain (snd (DeleteState_Get req)))
             (recType (snd (DeleteState_Get req)))
             (recName (snd (DeleteState_Get req))) (world env)
    = (inl live, w') ->
  (exists rec, In rec live
               /\ SameKey rec (apiRec (snd (DeleteState_Get req))) = true) ->
  fst (apiRecsToKeep client SameKey ToUpdate (snd (DeleteState_Get req)) env)
  = (map ToUpdate
       (filter (fun rec =>
                  negb (SameKey rec (apiRec (snd (DeleteState_Get req)))))
               live), None)
  /\ trace (snd (Delete errorText client SameKey ToUpdate IsSingleValue
                        req resp env))
     = (trace env
        ++ [EvLock;
            EvGetRecords (apiDomain (snd (DeleteState_Get req)))
                         (recType (snd (DeleteState_Get req)))
                         (recName (snd (DeleteState_Get req)));
            match map ToUpdate
                    (filter (fun rec =>
                       negb (SameKey rec (apiRec (snd (DeleteState_Get req)))))
                       live) with
            | [] => EvDelRecords (apiDomain (snd (DeleteState_Get req)))
                                 (recType (snd (DeleteState_Get req)))
                                 (recName (snd (DeleteState_Get req)))
            | keep => EvSetRecords (apiDomain (snd (DeleteState_Get req)))
                                   (recType (snd (DeleteState_Get req)))
                                   (recName (snd (DeleteState_Get req))) keep
            end;
            EvUnlock])%list.
Proof.
  intros Hmulti Hresp Hdiags Hget (rec0 & Hin0 & Hkey0).
  assert (Hlen : (List.length
                    (matching (apiRec (snd (DeleteState_Get req))) live)
                  =? 0)%nat = false).
  { apply Nat.eqb_neq. exact (filter_some _ _ _ Hin0 Hkey0). }
  split.
  { rewrite (apiRecsToKeep_run _ _ _ _ Hget). cbn [fst]. now rewrite Hlen. }
  unfold Delete. destruct (DeleteState_Get req) as [diags stateData].
  cbn [fst snd] in *.
  assert (H1 : HasError (RespDiagnostics (appendDiags resp diags)) = false)
    by now apply HasError_Append.
  assert (H2 : HasError (RespDiagnostics
                 (appendDiags (appendDiags resp diags) diags)) = false)
    by now apply HasError_Append.
  rewrite H1. unfold withLock, Eff.bind, emit at 1.
  destruct (tf2model stateData) as [d st] eqn:Etf. cbn [fst snd] in *.
  rewrite Hmulti, H2.
  assert (Hget' :
    GetRecords client (apiDomain stateData) (recType stateData)
      (recName stateData)
      (world {| world := world env; trace := (trace env ++ [EvLock])%list |})
    = (inl live, w')) by (rewrite Etf; exact Hget).
  rewrite (apiRecsToKeep_run _ _ _ _ Hget'). rewrite Etf. cbn [fst snd].
  rewrite Hlen.
  destruct (map ToUpdate (others st live)) as [|u keep] eqn:Ekeep.
  - cbn [List.length Nat.eqb]. unfold callDelRecords. cbn [world trace].
    destruct (DelRecords client d (DNSRecord.Type_ st) (DNSRecord.Name st) w')
      as [[e|] w2]; cbn; now rewrite <- !app_assoc.
  - cbn [List.length Nat.eqb]. unfold callSetRecords. cbn [world trace].
    destruct (SetRecords client d (DNSRecord.Type_ st) (DNSRecord.Name st)
                (u :: keep) w') as [[e|] w2]; cbn; now rewrite <- !app_assoc.
Qed.

(** C3.  In [Update] of a multi-valued record: when [apiRecsToKeep], run
    where [Update] runs it (on the prior state, once the lock is taken),
    reports the old record gone ([errRecordGone]) and the planned record in
    update format is already in the keep-list it returns, [Update] locks,
    queries and unlocks, calls [SetRecords] not at all, reports no error and
    stores the plan as the new state. *)
Theorem Update_gone_and_present_mutates_nothing
  (req : UpdateRequest) (resp : Response) (env : Env World)
  (keep : list DNSUpdateRecord.t) (env2 : Env World) :
  HasError (RespDiagnostics resp) = false ->
  HasError (fst (Plan_Get req)) = false ->
  HasError (fst (State_Get req)) = false ->
  IsSingleValue (recType (snd (Plan_Get req))) = false ->
  apiRecsToKeep client SameKey ToUpdate (snd (State_Get req))
                (snd (emit EvLock env))
    = ((keep, Some errRecordGone), env2) ->
  In (ourRec (apiRec (snd (Plan_Get req)))) keep ->
  fst (Update errorText client SameKey ToUpdate IsSingleValue req resp env)
  = State_Set (appendDiags (appendDiags resp (fst (Plan_Get req)))
                           (fst (State_Get req)))
              (snd (Plan_Get req))
  /\ HasError (RespDiagnostics
                 (fst (Update errorText client SameKey ToUpdate IsSingleValue
                              req resp env))) = false
  /\ trace (snd (Update errorText client SameKey ToUpdate IsSingleValue
                        req resp env))
     = (trace env ++ [EvLock;
                      EvGetRecords (apiDomain (snd (State_Get req)))
                                   (recType (snd (State_Get req)))
                                   (recName (snd (State_Get req)));
                      EvUnlock])%list
  /\ filter isMutation
       (trace (snd (Update errorText client SameKey ToUpdate IsSingleValue
                           req resp env)))
     = filter isMutation (trace env).
Proof.
  intros Hresp Hplan Hstate Hmulti Hkeep Hin.
  assert (Htr := apiRecsToKeep_trace (snd (State_Get req))
                   (snd (emit EvLock env))).
  rewrite Hkeep in Htr. cbn [snd emit trace] in Htr.
  assert (Hrun :
    Update errorText client SameKey ToUpdate IsSingleValue req resp env
    = (State_Set (appendDiags (appendDiags resp (fst (Plan_Get req)))
                              (fst (State_Get req)))
                 (snd (Plan_Get req)),
       snd (emit EvUnlock env2))).
  { unfold Update.
    destruct (Plan_Get req) as [pdiags planData].
    destruct (State_Get req) as [sdiags stateData]. cbn [fst snd] in *.
    assert (H1 : HasError (RespDiagnostics (appendDiags resp pdiags)) = false)
      by now apply HasError_Append.
    assert (H2 : HasError (RespDiagnostics
                   (appendDiags (appendDiags resp pdiags) sdiags)) = false)
      by now apply HasError_Append.
    rewrite H1. unfold withLock, Eff.bind.
    destruct (tf2model planData) as [d plan] eqn:Etf. cbn [fst snd] in *.
    rewrite Hmulti, H2.
    change (emit EvLock env) with (tt, snd (emit EvLock env)).
    cbn iota. rewrite Hkeep. cbn [isRecordGone negb].
    rewrite (slices_Index_present _ _ Hin). reflexivity. }
  rewrite Hrun. cbn [fst snd emit trace]. rewrite Htr.
  repeat split.
  - cbn [State_Set RespDiagnostics appendDiags].
    now repeat apply HasError_Append.
  - now rewrite <- !app_assoc.
  - rewrite <- !app_assoc, filter_app. cbn. now rewrite app_nil_r.
Qed.

End WithClient.

(** *** The theorems at work on the test double *)

Lemma apiRecsToKeep_keeps_exactly_the_others_witness :
  GetRecords Fixture.mockClient "example.com" "TXT" "@" [Fixture.txtA; Fixture.txtB]
  = (inl [Fixture.txtA; Fixture.txtB], [Fixture.txtA; Fixture.txtB])
  /\ fst (fst (apiRecsToKeep Fixture.mockClient Fixture.SameKey
                 Fixture.ToUpdate Fixture.stateA (Fixture.startEnv [Fixture.txtA; Fixture.txtB])))
     = [Fixture.ToUpdate Fixture.txtB].
Proof.
  split; [reflexivity|].
  pose proof (apiRecsToKeep_keeps_exactly_the_others Fixture.mockClient
                Fixture.SameKey Fixture.ToUpdate Fixture.stateA
                (Fixture.startEnv [Fixture.txtA; Fixture.txtB]) [Fixture.txtA; Fixture.txtB] [Fixture.txtA; Fixture.txtB]
                eq_refl) as [H _].
  rewrite H. reflexivity.
Defined.

Lemma gone_is_the_sentinel_and_Delete_mutates_nothing_witness :
  Fixture.IsSingleValue "TXT" = false
  /\ GetRecords Fixture.mockClient "example.com" "TXT" "@" [Fixture.txtB]
     = (inl [Fixture.txtB], [Fixture.txtB])
  /\ snd (fst (apiRecsToKeep Fixture.mockClient Fixture.SameKey
                 Fixture.ToUpdate Fixture.stateA (Fixture.startEnv [Fixture.txtB])))
     = Some errRecordGone
  /\ trace (snd (Delete (fun e => e) Fixture.mockClient Fixture.SameKey
                   Fixture.ToUpdate Fixture.IsSingleValue
                   {| DeleteState_Get := ([], Fixture.stateA) |} Fixture.emptyResp
                   (Fixture.startEnv [Fixture.txtB])))
     = [EvLock; EvGetRecords "example.com" "TXT" "@"; EvUnlock].
Proof.
  split; [reflexivity|]. split; [reflexivity|].
  assert (Hnone : forall rec, In rec [Fixture.txtB] ->
                              Fixture.SameKey rec (snd (tf2model Fixture.stateA)) = false).
  { intros rec [<-|[]]. reflexivity. }
  pose proof (gone_is_the_sentinel_and_Delete_mutates_nothing
                (fun e => e) Fixture.mockClient Fixture.SameKey
                Fixture.ToUpdate Fixture.IsSingleValue
                {| DeleteState_Get := ([], Fixture.stateA) |} Fixture.emptyResp
                (Fixture.startEnv [Fixture.txtB]) [Fixture.txtB] [Fixture.txtB]
                eq_refl eq_refl eq_refl eq_refl Hnone) as (H1 & H2 & _).
  split; [exact H1 | exact H2].
Defined.

Lemma Delete_present_deletes_set_or_replaces_by_keep_list_witness :
  trace (snd (Delete (fun e => e) Fixture.mockClient Fixture.SameKey
                Fixture.ToUpdate Fixture.IsSingleValue
                {| DeleteState_Get := ([], Fixture.stateA) |} Fixture.emptyResp
                (Fixture.startEnv [Fixture.txtA])))
  = [EvLock; EvGetRecords "example.com" "TXT" "@";
     EvDelRecords "example.com" "TXT" "@"; EvUnlock]
  /\ trace (snd (Delete (fun e => e) Fixture.mockClient Fixture.SameKey
                   Fixture.ToUpdate Fixture.IsSingleValue
                   {| DeleteState_Get := ([], Fixture.stateA) |} Fixture.emptyResp
                   (Fixture.startEnv [Fixture.txtA; Fixture.txtB])))
     = [EvLock; EvGetRecords "example.com" "TXT" "@";
        EvSetRecords "example.com" "TXT" "@" [Fixture.ToUpdate Fixture.txtB];
        EvUnlock].
Proof.
  split.
  - pose proof (Delete_present_deletes_set_or_replaces_by_keep_list
                  (fun e => e) Fixture.mockClient Fixture.SameKey
                  Fixture.ToUpdate Fixture.IsSingleValue
                  {| DeleteState_Get := ([], Fixture.stateA) |} Fixture.emptyResp
                  (Fixture.startEnv [Fixture.txtA]) [Fixture.txtA] [Fixture.txtA]
                  eq_refl eq_refl eq_refl eq_refl
                  (ex_intro _ Fixture.txtA (conj (or_introl eq_refl) eq_refl)))
      as [_ H].
    exact H.
  - pose proof (Delete_present_deletes_set_or_replaces_by_keep_list
                  (fun e => e) Fixture.mockClient Fixture.SameKey
                  Fixture.ToUpdate Fixture.IsSingleValue
                  {| DeleteState_Get := ([], Fixture.stateA) |} Fixture.emptyResp
                  (Fixture.startEnv [Fixture.txtA; Fixture.txtB]) [Fixture.txtA; Fixture.txtB] [Fixture.txtA; Fixture.txtB]
                  eq_refl eq_refl eq_refl eq_refl
                  (ex_intro _ Fixture.txtA (conj (or_introl eq_refl) eq_refl)))
      as [_ H].
    exact H.
Defined.

Lemma Update_gone_and_present_mutates_nothing_witness :
  fst (apiRecsToKeep Fixture.mockClient Fixture.SameKey Fixture.ToUpdate
         Fixture.stateA (snd (emit EvLock (Fixture.startEnv [Fixture.txtB]))))
  = ([Fixture.ToUpdate Fixture.txtB], Some errRecordGone)
  /\ In (ourRec (snd (tf2model Fixture.planB))) [Fixture.ToUpdate Fixture.txtB]
  /\ fst (Update (fun e => e) Fixture.mockClient Fixture.SameKey
            Fixture.ToUpdate Fixture.IsSingleValue
            {| Plan_Get := ([], Fixture.planB); State_Get := ([], Fixture.stateA) |}
            Fixture.emptyResp (Fixture.startEnv [Fixture.txtB]))
     = {| RespDiagnostics := []; RespState := Some Fixture.planB |}
  /\ trace (snd (Update (fun e => e) Fixture.mockClient Fixture.SameKey
                   Fixture.ToUpdate Fixture.IsSingleValue
                   {| Plan_Get := ([], Fixture.planB); State_Get := ([], Fixture.stateA) |}
                   Fixture.emptyResp (Fixture.startEnv [Fixture.txtB])))
     = [EvLock; EvGetRecords "example.com" "TXT" "@"; EvUnlock].
Proof.
  split; [reflexivity|]. split; [left; reflexivity|].
  pose proof (Update_gone_and_present_mutates_nothing
                (fun e => e) Fixture.mockClient Fixture.SameKey
                Fixture.ToUpdate Fixture.IsSingleValue
                {| Plan_Get := ([], Fixture.planB); State_Get := ([], Fixture.stateA) |}
                Fixture.emptyResp (Fixture.startEnv [Fixture.txtB])
                [Fixture.ToUpdate Fixture.txtB]
                {| world := [Fixture.txtB];
                   trace := [EvLock; EvGetRecords "example.com" "TXT" "@"] |}
                eq_refl eq_refl eq_refl eq_refl eq_refl
                (or_introl eq_refl)) as (H1 & _ & H3 & _).
  split; [exact H1 | exact H3].
Defined.

End RecordFacts.

(** ** The Go helpers on the inputs the import path meets *)

Module GoStringsFacts.
Import GoStrings.

Example Split_keeps_empty_fields :
  Split "a:b::c" ":"%char = ["a"; "b"; ""; "c"] /\ Split "" ":"%char = [""].
Proof. split; reflexivity. Qed.

Example SplitN_last_field_is_the_remainder :
  SplitN "a b c" " "%char 2 = ["a"; "b c"]
  /\ SplitN "abc" " "%char 2 = ["abc"]
  /\ SplitN "a " " "%char 2 = ["a"; ""].
Proof. repeat split; reflexivity. Qed.

Example ParseInt_decimal :
  ParseInt "10" = Some 10%Z /\ ParseInt "-7" = Some (-7)%Z
  /\ ParseInt "nope" = None /\ ParseInt "" = None
  /\ ParseInt "9223372036854775807" = Some 9223372036854775807%Z
  /\ ParseInt "9223372036854775808" = None.
Proof. repeat split; reflexivity. Qed.

Lemma splitFrom_length (sep : ascii) (s : string) :
  forall cur, List.length (splitFrom sep cur s) = S (Count s sep).
Proof.
  induction s as [|c rest IH]; intro cur; cbn [splitFrom Count].
  - reflexivity.
  - destruct (Ascii.eqb c sep); cbn [List.length]; now rewrite IH.
Qed.

(** [Split] returns one field more than there are separators. *)
Lemma Split_length (s : string) (sep : ascii) :
  List.length (Split s sep) = S (Count s sep).
Proof. apply splitFrom_length. Qed.

End GoStringsFacts.

(** ** Import identifiers (the Technitium record resource) *)

Module ImportFacts.
Import Framework TechnitiumRecord.

(** [ImportState] accepts an identifier exactly when it holds three
    separators; any other identifier gets the format error and imports
    nothing. *)
Lemma ImportState_needs_three_separators (id : string) :
  GoStrings.Count id IMPORT_SEP <> 3%nat ->
  ImportState id emptyResponse
  = {| Diagnostics_ := [formatError id]; State := [] |}.
Proof.
  intro Hcount. unfold ImportState.
  rewrite GoStringsFacts.Split_length.
  destruct (Nat.eqb_spec (S (GoStrings.Count id IMPORT_SEP)) 4)
    as [E|E]; [exfalso; apply Hcount; now injection E|].
  reflexivity.
Qed.

(** C4, the code at the failing input: the identifier of the TXT record
    whose value holds a colon has four separators, so [ImportState] splits
    it into five parts and refuses it; no attribute is imported. *)
Theorem ImportState_refuses_value_with_colon :
  GoStrings.Split "example.com:@:TXT:v=spf1 include:example.com ~all" IMPORT_SEP
  = ["example.com"; "@"; "TXT"; "v=spf1 include"; "example.com ~all"]
  /\ ImportState "example.com:@:TXT:v=spf1 include:example.com ~all"
                 emptyResponse
     = {| Diagnostics_ :=
            [formatError "example.com:@:TXT:v=spf1 include:example.com ~all"];
          State := [] |}.
Proof. split; reflexivity. Qed.

(** C5, the code at the two inputs: ["bad"] is refused with the format
    message, but the identifier with an empty trailing value splits into
    four parts and is accepted, importing an empty [ip_address]. *)
Theorem ImportState_accepts_empty_trailing_value :
  errorContaining (Diagnostics_ (ImportState "bad" emptyResponse))
                  "Import ID must be in format" = true
  /\ State (ImportState "bad" emptyResponse) = []
  /\ ImportState "example.com:@:A:" emptyResponse
     = {| Diagnostics_ := [];
          State := [("domain", AttrString "example.com");
                    ("type", AttrString "A");
                    ("ip_address", AttrString "");
                    ("ttl", AttrInt64 3600)] |}.
Proof. repeat split; reflexivity. Qed.

(** C6, the code at the claim's inputs.  An MX value is read as
    [preference exchange], separated by a blank.  With a colon inside the
    value the whole identifier is refused with the general format error,
    whether the preference is a number or not; in the blank-separated form
    a preference that is not a number and a value with no exchange are
    passed over without any diagnostic. *)
Theorem ImportState_MX_value_is_blank_separated :
  ImportState "example.com:@:MX:10:mail.example.com" emptyResponse
  = {| Diagnostics_ := [formatError "example.com:@:MX:10:mail.example.com"];
       State := [] |}
  /\ ImportState "example.com:@:MX:nope:mail.example.com" emptyResponse
     = {| Diagnostics_ :=
            [formatError "example.com:@:MX:nope:mail.example.com"];
          State := [] |}
  /\ ImportState "example.com:@:MX:10 mail.example.com" emptyResponse
     = {| Diagnostics_ := [];
          State := [("domain", AttrString "example.com");
                    ("type", AttrString "MX");
                    ("preference", AttrInt64 10);
                    ("exchange", AttrString "mail.example.com");
                    ("ttl", AttrInt64 3600)] |}
  /\ ImportState "example.com:@:MX:nope mail.example.com" emptyResponse
     = {| Diagnostics_ := [];
          State := [("domain", AttrString "example.com");
                    ("type", AttrString "MX");
                    ("exchange", AttrString "mail.example.com");
                    ("ttl", AttrInt64 3600)] |}
  /\ ImportState "example.com:@:MX:badvalue" emptyResponse
     = {| Diagnostics_ := [];
          State := [("domain", AttrString "example.com");
                    ("type", AttrString "MX");
                    ("ttl", AttrInt64 3600)] |}
  /\ ImportState "example.com:@:MX:10:" emptyResponse
     = {| Diagnostics_ := [formatError "example.com:@:MX:10:"];
          State := [] |}.
Proof. repeat split; reflexivity. Qed.

(** The import of record.go bounds the split at four fields, so there a
    colon inside the last field is kept. *)
Example record_ImportState_keeps_colons_in_data (Quote : string -> string) :
  Record.ImportState Quote "example.com:TXT:@:v=spf1 include:example.com ~all"
    {| Record.ImportDiagnostics := []; Record.ImportAttrs := [] |}
  = {| Record.ImportDiagnostics := [];
       Record.ImportAttrs :=
         [("domain", "example.com"); ("type", "TXT"); ("name", "@");
          ("data", "v=spf1 include:example.com ~all")] |}.
Proof. reflexivity. Qed.

End ImportFacts.

(* ===================================================================== *)
(** * Further properties of the code *)
(* ===================================================================== *)

(** ** Record identity is a partial equivalence (model.go) *)

Module ModelExtra.
Import Model.

(** X1.  [SameKey] is symmetric on all records, well-formed or not. *)
Theorem SameKey_symmetric (r r1 : DNSRecord) : SameKey r r1 = SameKey r1 r.
Proof.
  unfold SameKey.
  rewrite (String.eqb_sym (Type_ r1) (Type_ r)),
    (String.eqb_sym (Domain r1) (Domain r)).
  destruct (String.eqb_spec (Type_ r) (Type_ r1)) as [Et|Et]; [|reflexivity].
  destruct (String.eqb_spec (Domain r) (Domain r1)) as [Ed|Ed]; [|reflexivity].
  cbn [negb orb]. rewrite <- Et.
  set (ip1 := if IPAddress r =? "" then Value r else IPAddress r).
  set (ip2 := if IPAddress r1 =? "" then Value r1 else IPAddress r1).
  assert (Hip : (ip1 =? ip2) && negb (ip1 =? "")
                = (ip2 =? ip1) && negb (ip2 =? "")).
  { destruct (String.eqb_spec ip1 ip2) as [->|Hn].
    - now rewrite String.eqb_refl.
    - rewrite (String.eqb_sym ip2 ip1).
      destruct (String.eqb_spec ip1 ip2); [contradiction | reflexivity]. }
  cbv zeta. fold ip1 ip2. rewrite Hip.
  rewrite (Z.eqb_sym (Port r1)), (String.eqb_sym (Target r1)),
    (String.eqb_sym (Exchange r1)), (String.eqb_sym (Text r1)),
    (String.eqb_sym (PtrName r1)), (String.eqb_sym (NameServer r1)),
    (String.eqb_sym (NaptrFlags r1)), (String.eqb_sym (NaptrServices r1)),
    (String.eqb_sym (NaptrRegexp r1)), (String.eqb_sym (NaptrReplacement r1)),
    (Z.eqb_sym (KeyTag r1)), (String.eqb_sym (Algorithm r1)),
    (String.eqb_sym (DigestType r1)), (String.eqb_sym (Digest r1)),
    (String.eqb_sym (SshfpAlgorithm r1)),
    (String.eqb_sym (SshfpFingerprintType r1)),
    (String.eqb_sym (SshfpFingerprint r1)),
    (String.eqb_sym (TlsaCertificateUsage r1)),
    (String.eqb_sym (TlsaSelector r1)),
    (String.eqb_sym (TlsaMatchingType r1)),
    (String.eqb_sym (TlsaCertificateAssociationData r1)),
    (String.eqb_sym (SvcTargetName r1)), (String.eqb_sym (SvcParams r1)),
    (Z.eqb_sym (UriPriority r1)), (Z.eqb_sym (UriWeight r1)),
    (String.eqb_sym (Uri r1)),
    (String.eqb_sym (Flags r1)), (String.eqb_sym (Tag r1)),
    (String.eqb_sym (Value r1)),
    (String.eqb_sym (Forwarder r1)), (String.eqb_sym (AppName r1)),
    (String.eqb_sym (ClassPath r1)).
  reflexivity.
Qed.

Lemma SameKey_true_gate (r r1 : DNSRecord) :
  SameKey r r1 = true -> Type_ r = Type_ r1 /\ Domain r = Domain r1.
Proof.
  unfold SameKey.
  destruct (String.eqb_spec (Type_ r) (Type_ r1)) as [Et|Et];
    destruct (String.eqb_spec (Domain r) (Domain r1)) as [Ed|Ed];
    cbn [negb orb]; try discriminate.
  now split.
Qed.

(** X2.  Records of different type or of different domain are never the
    same, whatever their payloads. *)
Theorem SameKey_needs_equal_type_and_domain (r r1 : DNSRecord) :
  Type_ r <> Type_ r1 \/ Domain r <> Domain r1 -> SameKey r r1 = false.
Proof.
  intro H. destruct (SameKey r r1) eqn:E; [|reflexivity].
  apply SameKey_true_gate in E as [Et Ed]. destruct H; contradiction.
Qed.

Lemma SameKey_needs_equal_type_and_domain_witness :
  Type_ testA1 <> Type_ FixtureExtra.cnameOne
  /\ SameKey testA1 FixtureExtra.cnameOne = false.
Proof.
  assert (H : Type_ testA1 <> Type_ FixtureExtra.cnameOne) by discriminate.
  split; [exact H|].
  exact (SameKey_needs_equal_type_and_domain testA1 FixtureExtra.cnameOne
           (or_introl H)).
Defined.

(** X3.  CNAME, ANAME and DNAME records of one type and one domain are the
    same record whatever their other fields hold. *)
Theorem SameKey_collapses_single_valued_types (r r1 : DNSRecord) :
  Type_ r = REC_CNAME \/ Type_ r = REC_ANAME \/ Type_ r = REC_DNAME ->
  Type_ r1 = Type_ r -> Domain r1 = Domain r -> SameKey r r1 = true.
Proof.
  intros Ht Ht1 Hd. unfold SameKey. rewrite Ht1, Hd, !String.eqb_refl.
  destruct Ht as [-> | [-> | ->]]; reflexivity.
Qed.

Lemma SameKey_collapses_single_valued_types_witness :
  Value FixtureExtra.cnameOne <> Value FixtureExtra.cnameTwo
  /\ SameKey FixtureExtra.cnameOne FixtureExtra.cnameTwo = true.
Proof.
  split; [discriminate|].
  exact (SameKey_collapses_single_valued_types FixtureExtra.cnameOne
           FixtureExtra.cnameTwo (or_introl eq_refl) eq_refl eq_refl).
Defined.

Ltac eqb_to_eq :=
  repeat match goal with
         | H : _ && _ = true |- _ => apply andb_prop in H; destruct H
         | H : (_ =? _) = true |- _ => apply String.eqb_eq in H
         | H : (_ =? _)%Z = true |- _ => apply Z.eqb_eq in H
         | H : negb _ = true |- _ => apply negb_true_iff in H
         end.

(** X4.  [SameKey] is transitive: with symmetry, the records a record
    matches form a class of mutually matching records. *)
Theorem SameKey_transitive (a b c : DNSRecord) :
  SameKey a b = true -> SameKey b c = true -> SameKey a c = true.
Proof.
  intros Hab Hbc.
  destruct (SameKey_true_gate _ _ Hab) as [Et Ed].
  destruct (SameKey_true_gate _ _ Hbc) as [Et' Ed'].
  unfold SameKey in *.
  rewrite <- Et', <- Ed', <- Et, <- Ed, !String.eqb_refl in *.
  cbn [negb orb] in *. cbv zeta in *.
  repeat match goal with
         | |- context [if ?c then _ else _] =>
             match c with
             | context [Type_ a] => destruct c eqn:?
             end
         end; try discriminate; try reflexivity;
  eqb_to_eq;
  repeat (apply andb_true_intro; split);
  try (apply String.eqb_eq); try (apply Z.eqb_eq); try (apply negb_true_iff);
  try congruence.
Qed.

Lemma SameKey_transitive_witness :
  SameKey testA1 testA2 = true /\ SameKey testA2 testA1 = true
  /\ SameKey testA1 testA1 = true.
Proof.
  split; [reflexivity|]. split; [reflexivity|].
  exact (SameKey_transitive testA1 testA2 testA1 eq_refl eq_refl).
Defined.

(** The types the switch of [SameKey] lists. *)
Local Abbreviation handledTypes :=
  [REC_A; REC_AAAA; REC_CNAME; REC_ANAME; REC_DNAME; REC_SRV; REC_MX;
   REC_TXT; REC_PTR; REC_NS; REC_NAPTR; REC_DS; REC_SSHFP; REC_TLSA;
   REC_SVCB; REC_HTTPS; REC_URI; REC_CAA; REC_FWD; REC_APP].

Lemma unlisted_type_eqb (r : DNSRecord) :
  ~ In (Type_ r) handledTypes ->
  forall x, In x handledTypes -> (Type_ r =? x) = false.
Proof. intros Hn x Hx. apply String.eqb_neq. intro E. apply Hn. now rewrite E. Qed.

Lemma SameKey_unlisted_receiver (r r1 : DNSRecord) :
  ~ In (Type_ r) handledTypes -> SameKey r r1 = false.
Proof.
  intro Hn. pose proof (unlisted_type_eqb r Hn) as H.
  unfold SameKey. cbv zeta.
  repeat match goal with
         | |- context [Type_ r =? ?x] => rewrite (H x) by (cbn; tauto)
         end.
  cbn [orb]. destruct (negb _ || negb _); reflexivity.
Qed.

Lemma SameKey_unlisted_argument (r r1 : DNSRecord) :
  ~ In (Type_ r) handledTypes -> SameKey r1 r = false.
Proof.
  intro Hn. pose proof (unlisted_type_eqb r Hn) as H.
  destruct (SameKey r1 r) eqn:E; [|reflexivity].
  unfold SameKey in E.
  destruct (String.eqb_spec (Type_ r1) (Type_ r)) as [Et|Et]; [|discriminate].
  rewrite Et in E. cbv zeta in E.
  repeat match type of E with
         | context [Type_ r =? ?x] => rewrite (H x) in E by (cbn; tauto)
         end.
  cbn [orb] in E. destruct (negb _ || negb _); discriminate.
Qed.

(** X5.  A record whose type the switch does not list matches no record,
    itself included, on either side of the comparison; SOA, though a
    declared type, is such a type. *)
Theorem SameKey_unhandled_type_never_matches (r r1 : DNSRecord) :
  ~ In (Type_ r)
       [REC_A; REC_AAAA; REC_CNAME; REC_ANAME; REC_DNAME; REC_SRV; REC_MX;
        REC_TXT; REC_PTR; REC_NS; REC_NAPTR; REC_DS; REC_SSHFP; REC_TLSA;
        REC_SVCB; REC_HTTPS; REC_URI; REC_CAA; REC_FWD; REC_APP] ->
  SameKey r r1 = false /\ SameKey r1 r = false.
Proof.
  intro Hn. split;
    [now apply SameKey_unlisted_receiver | now apply SameKey_unlisted_argument].
Qed.

Lemma SameKey_unhandled_type_never_matches_witness :
  Type_ FixtureExtra.soaRecord = REC_SOA
  /\ SameKey FixtureExtra.soaRecord FixtureExtra.soaRecord = false.
Proof.
  split; [reflexivity|].
  refine (proj1 (SameKey_unhandled_type_never_matches FixtureExtra.soaRecord
                   FixtureExtra.soaRecord _)).
  cbn. intuition discriminate.
Defined.

(** X6.  A record matches itself exactly when its type is one the switch
    lists and, for A and AAAA only, its address (or [Value] in its place)
    is not empty: records of the other listed types match themselves even
    with an empty key. *)
Theorem SameKey_reflexive_iff (r : DNSRecord) :
  SameKey r r = true
  <-> (In (Type_ r) [REC_A; REC_AAAA]
       /\ (if IPAddress r =? "" then Value r else IPAddress r) <> "")
      \/ In (Type_ r)
            [REC_CNAME; REC_ANAME; REC_DNAME; REC_SRV; REC_MX; REC_TXT;
             REC_PTR; REC_NS; REC_NAPTR; REC_DS; REC_SSHFP; REC_TLSA;
             REC_SVCB; REC_HTTPS; REC_URI; REC_CAA; REC_FWD; REC_APP].
Proof.
  destruct (in_dec string_dec (Type_ r)
       [REC_A; REC_AAAA; REC_CNAME; REC_ANAME; REC_DNAME; REC_SRV; REC_MX;
        REC_TXT; REC_PTR; REC_NS; REC_NAPTR; REC_DS; REC_SSHFP; REC_TLSA;
        REC_SVCB; REC_HTTPS; REC_URI; REC_CAA; REC_FWD; REC_APP]) as [Hin|Hn].
  - unfold SameKey. rewrite !String.eqb_refl, !Z.eqb_refl.
    cbn [negb orb andb]. cbv zeta. cbn [In] in Hin.
    repeat (destruct Hin as [Hin|Hin]; [rewrite <- Hin; cbn|]);
      [..|contradiction].
    all: try (split; [intros _; right; cbn; tauto | reflexivity]).
    all: split.
    all: try (intro H; left; split; [cbn; tauto|];
              apply negb_true_iff in H; now apply String.eqb_neq in H).
    all: intros [[_ H]|H];
      [ apply negb_true_iff; now apply String.eqb_neq
      | cbn in H; repeat (destruct H as [H|H]; [discriminate|]);
        contradiction ].
  - rewrite (SameKey_unlisted_receiver r r Hn). split; [discriminate|].
    intros [[H _]|H]; exfalso; apply Hn; cbn in *; tauto.
Qed.

End ModelExtra.

(** ** Splitting strings: further lemmas *)

Module GoStringsExtra.
Import GoStrings.

Lemma append_assoc (a b c : string) : (a ++ b) ++ c = a ++ (b ++ c).
Proof. induction a as [|x a IH]; cbn; [reflexivity | now rewrite IH]. Qed.

Lemma append_nil_r (a : string) : a ++ "" = a.
Proof. induction a as [|x a IH]; cbn; [reflexivity | now rewrite IH]. Qed.

Lemma Count_cons_zero (c sep : ascii) (s : string) :
  Count (String c s) sep = 0%nat -> Ascii.eqb c sep = false /\ Count s sep = 0%nat.
Proof. cbn [Count]. destruct (Ascii.eqb c sep); [discriminate | now split]. Qed.

Lemma Count_app (a b : string) (sep : ascii) :
  Count (a ++ b) sep = (Count a sep + Count b sep)%nat.
Proof.
  induction a as [|c a IH]; cbn [append Count]; [reflexivity|].
  destruct (Ascii.eqb c sep); rewrite IH; reflexivity.
Qed.

Lemma splitFrom_field (sep : ascii) (s rest : string) :
  Count s sep = 0%nat ->
  forall cur, splitFrom sep cur (s ++ String sep rest)
              = (cur ++ s) :: splitFrom sep "" rest.
Proof.
  induction s as [|c s IH]; intros Hc cur.
  - cbn. now rewrite Ascii.eqb_refl, append_nil_r.
  - apply Count_cons_zero in Hc as [Hne Hc]. cbn [append splitFrom].
    rewrite Hne, IH by exact Hc. now rewrite append_assoc.
Qed.

Lemma splitFrom_last (sep : ascii) (s : string) :
  Count s sep = 0%nat -> forall cur, splitFrom sep cur s = [cur ++ s].
Proof.
  induction s as [|c s IH]; intros Hc cur.
  - cbn. now rewrite append_nil_r.
  - apply Count_cons_zero in Hc as [Hne Hc]. cbn [splitFrom].
    rewrite Hne, IH by exact Hc. now rewrite append_assoc.
Qed.

Lemma splitNFrom_field (sep : ascii) (s rest : string) (n : nat) :
  Count s sep = 0%nat ->
  forall cur, splitNFrom sep (S (S n)) cur (s ++ String sep rest)
              = (cur ++ s) :: splitNFrom sep (S n) "" rest.
Proof.
  induction s as [|c s IH]; intros Hc cur.
  - cbn [append splitNFrom]. now rewrite Ascii.eqb_refl, append_nil_r.
  - apply Count_cons_zero in Hc as [Hne Hc]. cbn [append splitNFrom].
    rewrite Hne, IH by exact Hc. now rewrite append_assoc.
Qed.

Lemma splitNFrom_one (sep : ascii) (cur s : string) :
  splitNFrom sep 1 cur s = [cur ++ s].
Proof. destruct s; reflexivity. Qed.

Lemma splitNFrom_length (sep : ascii) (s : string) :
  forall n cur,
    List.length (splitNFrom sep (S n) cur s) = Nat.min (S n) (S (Count s sep)).
Proof.
  induction s as [|c s IH]; intros n cur.
  - destruct n; reflexivity.
  - destruct n as [|n]; [reflexivity|].
    cbn [splitNFrom Count]. destruct (Ascii.eqb c sep).
    + cbn [List.length]. rewrite IH. reflexivity.
    + rewrite IH. reflexivity.
Qed.

End GoStringsExtra.

(** ** Traces that only append client calls *)

Module DisciplineFacts.
Import Discipline.

Section Generic.
Context {Env Event : Type}.
Variable traceOf : Env -> list Event.
Variable P : Event -> bool.

Lemma ret_appends {A : Type} (a : A) : appendsCalls traceOf P (Eff.ret a).
Proof. intro env. exists []. split; [now rewrite app_nil_r | reflexivity]. Qed.

Lemma bind_appends {A B : Type} (m : Eff.M Env A) (k : A -> Eff.M Env B) :
  appendsCalls traceOf P m -> (forall a, appendsCalls traceOf P (k a)) ->
  appendsCalls traceOf P (Eff.bind m k).
Proof.
  intros Hm Hk env. unfold Eff.bind.
  destruct (Hm env) as (mid1 & H1 & C1).
  destruct (m env) as [a env1]. cbn [snd] in H1.
  destruct (Hk a env1) as (mid2 & H2 & C2).
  exists (mid1 ++ mid2)%list. split.
  - now rewrite H2, H1, app_assoc.
  - unfold apiCallsOnly in *. now rewrite forallb_app, C1, C2.
Qed.

Lemma apiCallsOnly_filter (mid : list Event) :
  apiCallsOnly P mid = true -> filter P mid = [].
Proof.
  unfold apiCallsOnly. induction mid as [|e mid IH]; [reflexivity|].
  cbn. intro H. apply andb_prop in H as [He H].
  apply negb_true_iff in He. rewrite He. now apply IH.
Qed.

(** A computation that appends only events outside [P] leaves the events
    of [P] in the trace as they were. *)
Lemma appendsCalls_filter {A : Type} (m : Eff.M Env A) :
  appendsCalls traceOf P m ->
  forall env, filter P (traceOf (snd (m env))) = filter P (traceOf env).
Proof.
  intros Hm env. destruct (Hm env) as (mid & H & C).
  rewrite H, filter_app, (apiCallsOnly_filter _ C). apply app_nil_r.
Qed.

End Generic.

End DisciplineFacts.

(** ** The record resource of record.go: further properties *)

Module RecordExtra.
Import Framework GoStrings Record RecordFacts DisciplineFacts GoStringsExtra.

Section WithClientExtra.
Context {World ApiErr : Type}.
Variable errorText : ApiErr -> string.
Variable client : DNSApiClient World ApiErr.
Variable SameKey : DNSRecord.t -> DNSRecord.t -> bool.
Variable ToUpdate : DNSRecord.t -> DNSUpdateRecord.t.
Variable IsSingleValue : DNSRecordType -> bool.

Local Abbreviation appendsCalls m :=
  (Discipline.appendsCalls (@trace World) Record_isLockEvent m).
Local Abbreviation lockBracketed m :=
  (Discipline.lockBracketed (@trace World) Record_isLockEvent EvLock EvUnlock m).

Lemma callGetRecords_appends d t n : appendsCalls (callGetRecords client d t n).
Proof.
  intro env. unfold callGetRecords.
  destruct (GetRecords client d t n (world env)) as [r w].
  exists [EvGetRecords d t n]. split; reflexivity.
Qed.

Lemma callSetRecords_appends d t n recs :
  appendsCalls (callSetRecords client d t n recs).
Proof.
  intro env. unfold callSetRecords.
  destruct (SetRecords client d t n recs (world env)) as [r w].
  exists [EvSetRecords d t n recs]. split; reflexivity.
Qed.

Lemma callDelRecords_appends d t n : appendsCalls (callDelRecords client d t n).
Proof.
  intro env. unfold callDelRecords.
  destruct (DelRecords client d t n (world env)) as [r w].
  exists [EvDelRecords d t n]. split; reflexivity.
Qed.

Lemma callAddRecords_appends d recs : appendsCalls (callAddRecords client d recs).
Proof.
  intro env. unfold callAddRecords.
  destruct (AddRecords client d recs (world env)) as [r w].
  exists [EvAddRecords d recs]. split; reflexivity.
Qed.

Lemma apiRecsToKeep_appends sd :
  appendsCalls (apiRecsToKeep client SameKey ToUpdate sd).
Proof.
  intro env. eexists. split; [apply apiRecsToKeep_trace | reflexivity].
Qed.

Lemma record_withLock_bracketed {A : Type} (body : Eff.M (Env World) A) :
  appendsCalls body -> lockBracketed (withLock body).
Proof.
  intros Hb env. right. unfold withLock, Eff.bind, emit at 1.
  destruct (Hb {| world := world env; trace := trace env ++ [EvLock] |})
    as (mid & H & C).
  destruct (body _) as [a env1]. cbn [snd trace emit Eff.ret] in *.
  exists mid. split; [|exact C].
  rewrite H, <- !app_assoc. reflexivity.
Qed.

Lemma record_ret_bracketed {A : Type} (a : A) : lockBracketed (Eff.ret a).
Proof. intro env. now left. Qed.

Ltac calls :=
  repeat first
    [ apply ret_appends
    | apply callGetRecords_appends
    | apply callSetRecords_appends
    | apply callDelRecords_appends
    | apply callAddRecords_appends
    | apply apiRecsToKeep_appends
    | apply bind_appends; [|intro]
    | match goal with
      | |- Discipline.appendsCalls _ _ (match ?x with _ => _ end) => destruct x
      | |- Discipline.appendsCalls _ _ (if ?c then _ else _) => destruct c
      | |- Discipline.appendsCalls _ _ (let (_, _) := ?x in _) => destruct x
      end ].

(** X7.  Whatever the client answers, each of Create, Read, Update and
    Delete either leaves the trace alone (the request did not decode) or
    appends exactly one Lock, then client calls only, then one Unlock: no
    client call is made outside the lock, the lock is never taken twice,
    and it is released on every path. *)
Theorem record_operations_hold_the_lock_around_every_call :
  (forall req resp, lockBracketed
     (Create errorText client req resp))
  /\ (forall req resp, lockBracketed
        (Read errorText client SameKey req resp))
  /\ (forall req resp, lockBracketed
        (Update errorText client SameKey ToUpdate IsSingleValue req resp))
  /\ (forall req resp, lockBracketed
        (Delete errorText client SameKey ToUpdate IsSingleValue req resp)).
Proof.
  repeat split; intros req resp.
  - unfold Create. destruct (CreatePlan_Get req) as [diags planData].
    destruct (HasError _); [apply record_ret_bracketed|].
    apply record_withLock_bracketed. calls.
  - unfold Read. destruct (ReadState_Get req) as [diags stateData].
    destruct (HasError _); [apply record_ret_bracketed|].
    apply record_withLock_bracketed. calls.
  - unfold Update. destruct (Plan_Get req) as [diags planData].
    destruct (HasError _); [apply record_ret_bracketed|].
    apply record_withLock_bracketed. calls.
  - unfold Delete. destruct (DeleteState_Get req) as [diags stateData].
    destruct (HasError _); [apply record_ret_bracketed|].
    apply record_withLock_bracketed. calls.
Qed.

Local Abbreviation apiDomain sd := (fst (tf2model sd)).
Local Abbreviation apiRec sd := (snd (tf2model sd)).
Local Abbreviation recType sd := (DNSRecord.Type_ (snd (tf2model sd))).
Local Abbreviation recName sd := (DNSRecord.Name (snd (tf2model sd))).
Local Abbreviation others st live :=
  (filter (fun rec => negb (SameKey rec st)) live).
Local Abbreviation matching st live :=
  (filter (fun rec => SameKey rec st) live).

(** The loop of [Read] only looks at the records that match. *)
Lemma record_readStep_fold (st : DNSRecord.t) (live : list DNSRecord.t) :
  forall (sd : tfDNSRecord.t) (n : nat),
    fold_left (readStep SameKey st) live (sd, n)
    = fold_left (readStep SameKey st) (matching st live) (sd, n).
Proof.
  induction live as [|rec live IH]; intros sd n; [reflexivity|].
  cbn [filter fold_left]. destruct (SameKey rec st) eqn:E.
  - cbn [fold_left]. unfold readStep at 2 4. rewrite E. apply IH.
  - unfold readStep at 2. rewrite E. apply IH.
Qed.

Lemma record_readStep_count (st : DNSRecord.t) (ms : list DNSRecord.t) :
  (forall rec, In rec ms -> SameKey rec st = true) ->
  forall (sd : tfDNSRecord.t) (n : nat),
    snd (fold_left (readStep SameKey st) ms (sd, n)) = (n + List.length ms)%nat.
Proof.
  induction ms as [|rec ms IH]; intros Hall sd n; cbn [fold_left List.length].
  - cbn. lia.
  - unfold readStep at 2. rewrite (Hall rec (or_introl eq_refl)).
    rewrite IH; [lia|]. intros r Hr. apply Hall. now right.
Qed.

Lemma record_Read_run (req : ReadRequest) (resp : Response) (env : Env World)
  (live : list DNSRecord.t) (w' : World) :
  HasError (RespDiagnostics resp) = false ->
  HasError (fst (ReadState_Get req)) = false ->
  GetRecords client (apiDomain (snd (ReadState_Get req)))
             (recType (snd (ReadState_Get req)))
             (recName (snd (ReadState_Get req))) (world env)
    = (inl live, w') ->
  Read errorText client SameKey req resp env
  = (let found := fold_left (readStep SameKey (apiRec (snd (ReadState_Get req))))
                    (matching (apiRec (snd (ReadState_Get req))) live)
                    (snd (ReadState_Get req), 0%nat) in
     let resp1 := appendDiags resp (fst (ReadState_Get req)) in
     if (snd found =? 0)%nat then State_RemoveResource resp1
     else State_Set
            (if (1 <? snd found)%nat
             then addWarning resp1 "Duplicate resource instances present"
                    "Will use the last one"
             else resp1) (fst found),
     {| world := w';
        trace := (trace env ++ [EvLock;
                     EvGetRecords (apiDomain (snd (ReadState_Get req)))
                                  (recType (snd (ReadState_Get req)))
                                  (recName (snd (ReadState_Get req)));
                     EvUnlock])%list |}).
Proof.
  intros Hresp Hdiags Hget. unfold Read.
  destruct (ReadState_Get req) as [diags stateData]. cbn [fst snd] in *.
  assert (H1 : HasError (RespDiagnostics (appendDiags resp diags)) = false)
    by now apply HasError_Append.
  rewrite H1. unfold withLock, Eff.bind, emit at 1.
  destruct (tf2model stateData) as [d st] eqn:Etf. cbn [fst snd] in *.
  unfold callGetRecords. cbn [world trace]. rewrite Hget.
  rewrite <- record_readStep_fold.
  destruct live as [|rec live].
  - cbn. now rewrite <- !app_assoc.
  - cbn [List.length Nat.eqb].
    destruct (fold_left _ _ _) as [sd' n']. cbn [fst snd].
    destruct (n' =? 0)%nat; cbn; now rewrite <- !app_assoc.
Qed.

(** X8.  When the query succeeds and no live record matches the state,
    [Read] removes the resource from the state, adds no diagnostic of its
    own, and has only queried. *)
Theorem Read_absent_removes_resource
  (req : ReadRequest) (resp : Response) (env : Env World)
  (live : list DNSRecord.t) (w' : World) :
  HasError (RespDiagnostics resp) = false ->
  HasError (fst (ReadState_Get req)) = false ->
  GetRecords client (apiDomain (snd (ReadState_Get req)))
             (recType (snd (ReadState_Get req)))
             (recName (snd (ReadState_Get req))) (world env)
    = (inl live, w') ->
  (forall rec, In rec live ->
               SameKey rec (apiRec (snd (ReadState_Get req))) = false) ->
  fst (Read errorText client SameKey req resp env)
  = State_RemoveResource (appendDiags resp (fst (ReadState_Get req)))
  /\ HasError (RespDiagnostics (fst (Read errorText client SameKey req resp env)))
     = false
  /\ trace (snd (Read errorText client SameKey req resp env))
     = (trace env ++ [EvLock;
                     EvGetRecords (apiDomain (snd (ReadState_Get req)))
                                  (recType (snd (ReadState_Get req)))
                                  (recName (snd (ReadState_Get req)));
                     EvUnlock])%list.
Proof.
  intros Hresp Hdiags Hget Hnone.
  rewrite (record_Read_run _ _ _ _ _ Hresp Hdiags Hget).
  rewrite (filter_none _ _ Hnone). cbn.
  repeat split. now apply HasError_Append.
Qed.

(** X9.  When live records match the state, [Read] keeps the state with the
    data and TTL of the last matching record, leaves domain, type and name
    as they were, and warns of duplicates exactly when more than one record
    matched. *)
Theorem Read_takes_the_last_match
  (req : ReadRequest) (resp : Response) (env : Env World)
  (live ms : list DNSRecord.t) (last : DNSRecord.t) (w' : World) :
  HasError (RespDiagnostics resp) = false ->
  HasError (fst (ReadState_Get req)) = false ->
  GetRecords client (apiDomain (snd (ReadState_Get req)))
             (recType (snd (ReadState_Get req)))
             (recName (snd (ReadState_Get req))) (world env)
    = (inl live, w') ->
  filter (fun rec => SameKey rec (apiRec (snd (ReadState_Get req)))) live
    = (ms ++ [last])%list ->
  exists st : tfDNSRecord.t,
    RespState (fst (Read errorText client SameKey req resp env)) = Some st
    /\ tfDNSRecord.Data st = Some (DNSRecord.Data last)
    /\ tfDNSRecord.TTL st = Some (DNSRecord.TTL last)
    /\ tfDNSRecord.Domain st = tfDNSRecord.Domain (snd (ReadState_Get req))
    /\ tfDNSRecord.Type_ st = tfDNSRecord.Type_ (snd (ReadState_Get req))
    /\ tfDNSRecord.Name st = tfDNSRecord.Name (snd (ReadState_Get req))
    /\ RespDiagnostics (fst (Read errorText client SameKey req resp env))
       = match ms with
         | [] => Append (RespDiagnostics resp) (fst (ReadState_Get req))
         | _ :: _ =>
             AddWarning (Append (RespDiagnostics resp) (fst (ReadState_Get req)))
               "Duplicate resource instances present" "Will use the last one"
         end.
Proof.
  intros Hresp Hdiags Hget Hms.
  rewrite (record_Read_run _ _ _ _ _ Hresp Hdiags Hget). rewrite Hms.
  assert (Hall : forall rec, In rec (ms ++ [last]) ->
            SameKey rec (apiRec (snd (ReadState_Get req))) = true).
  { intros rec Hin. rewrite <- Hms in Hin. now apply filter_In in Hin. }
  assert (Hn := record_readStep_count _ _ Hall (snd (ReadState_Get req)) 0%nat).
  rewrite fold_left_app in *. cbn [fold_left] in *.
  set (acc := fold_left _ ms _) in *.
  assert (Hdom : forall l acc0,
            tfDNSRecord.Domain (fst (fold_left (readStep SameKey (apiRec (snd (ReadState_Get req)))) l acc0))
            = tfDNSRecord.Domain (fst acc0)
            /\ tfDNSRecord.Type_ (fst (fold_left (readStep SameKey (apiRec (snd (ReadState_Get req)))) l acc0))
            = tfDNSRecord.Type_ (fst acc0)
            /\ tfDNSRecord.Name (fst (fold_left (readStep SameKey (apiRec (snd (ReadState_Get req)))) l acc0))
            = tfDNSRecord.Name (fst acc0)).
  { induction l as [|x l IH]; intros [sd0 n0]; [now cbn|].
    cbn [fold_left]. destruct (IH (readStep SameKey (apiRec (snd (ReadState_Get req))) (sd0, n0) x)) as (A & B & C).
    rewrite A, B, C. unfold readStep. destruct (SameKey x _); now cbn. }
  destruct (Hdom ms (snd (ReadState_Get req), 0%nat)) as (HD & HT & HN).
  fold acc in HD, HT, HN. cbn [fst] in HD, HT, HN.
  destruct acc as [sd n]. cbn [fst snd] in *.
  unfold readStep in *. rewrite (Hall last) in * by (apply in_or_app; right; now left).
  cbn [fst snd] in *. 
  rewrite length_app in Hn. cbn [List.length] in Hn.
  assert (Hlen : n = List.length ms) by lia. subst n. clear Hn.
  destruct ms as [|m ms]; cbn; (eexists; split; [reflexivity|]); cbn;
    repeat split; assumption.
Qed.


Lemma DNSUpdateRecord_eqb_eq (a b : DNSUpdateRecord.t) :
  DNSUpdateRecord.eqb a b = true -> a = b.
Proof.
  destruct a, b. unfold DNSUpdateRecord.eqb. cbn. intro H.
  repeat (apply andb_prop in H; destruct H as [H ?]).
  repeat match goal with
         | H : (_ =? _) = true |- _ => apply String.eqb_eq in H
         | H : (_ =? _)%Z = true |- _ => apply Z.eqb_eq in H
         end.
  now subst.
Qed.

Lemma indexFrom_absent (s : list DNSUpdateRecord.t) (v : DNSUpdateRecord.t) :
  ~ In v s -> forall i, indexFrom i s v = (-1)%Z.
Proof.
  induction s as [|x s IH]; intros Hn i; [reflexivity|].
  cbn [indexFrom]. destruct (DNSUpdateRecord.eqb v x) eqn:E.
  - exfalso. apply Hn. left. symmetry. now apply DNSUpdateRecord_eqb_eq.
  - apply IH. intro H. apply Hn. now right.
Qed.

Lemma slices_Index_absent (s : list DNSUpdateRecord.t) (v : DNSUpdateRecord.t) :
  ~ In v s -> (0 <=? slices_Index s v)%Z = false.
Proof.
  intro Hn. unfold slices_Index. now rewrite indexFrom_absent.
Qed.

(** X10.  For a single-valued type [Update] and [Delete] never query: under
    the lock [Update] makes one SetRecords call with the planned record
    alone (priority, protocol, service, port and weight zeroed), and
    [Delete] one DelRecords call. *)
Theorem single_valued_Update_and_Delete_do_not_query
  (ureq : UpdateRequest) (dreq : DeleteRequest) (resp : Response)
  (env : Env World) :
  HasError (RespDiagnostics resp) = false ->
  HasError (fst (Plan_Get ureq)) = false ->
  HasError (fst (DeleteState_Get dreq)) = false ->
  IsSingleValue (recType (snd (Plan_Get ureq))) = true ->
  IsSingleValue (recType (snd (DeleteState_Get dreq))) = true ->
  trace (snd (Update errorText client SameKey ToUpdate IsSingleValue
                     ureq resp env))
  = (trace env
     ++ [EvLock;
         EvSetRecords (apiDomain (snd (Plan_Get ureq)))
           (recType (snd (Plan_Get ureq))) (recName (snd (Plan_Get ureq)))
           [{| DNSUpdateRecord.Data := DNSRecord.Data (apiRec (snd (Plan_Get ureq)));
               DNSUpdateRecord.TTL := DNSRecord.TTL (apiRec (snd (Plan_Get ureq)));
               DNSUpdateRecord.Priority := 0%Z;
               DNSUpdateRecord.Protocol := "";
               DNSUpdateRecord.Service := "";
               DNSUpdateRecord.Port := 0%Z;
               DNSUpdateRecord.Weight := 0%Z |}];
         EvUnlock])%list
  /\ trace (snd (Delete errorText client SameKey ToUpdate IsSingleValue
                        dreq resp env))
     = (trace env
        ++ [EvLock;
            EvDelRecords (apiDomain (snd (DeleteState_Get dreq)))
              (recType (snd (DeleteState_Get dreq)))
              (recName (snd (DeleteState_Get dreq)));
            EvUnlock])%list.
Proof.
  intros Hresp Hplan Hstate Hu Hd. split.
  - unfold Update. destruct (Plan_Get ureq) as [diags planData].
    cbn [fst snd] in *.
    assert (H1 : HasError (RespDiagnostics (appendDiags resp diags)) = false)
      by now apply HasError_Append.
    rewrite H1. unfold withLock, Eff.bind, emit at 1.
    destruct (tf2model planData) as [d rec]. cbn [fst snd] in *.
    rewrite Hu. unfold callSetRecords. cbn [world trace].
    destruct (SetRecords client _ _ _ _ _) as [[e|] w2]; cbn;
      now rewrite <- !app_assoc.
  - unfold Delete. destruct (DeleteState_Get dreq) as [diags stateData].
    cbn [fst snd] in *.
    assert (H1 : HasError (RespDiagnostics (appendDiags resp diags)) = false)
      by now apply HasError_Append.
    rewrite H1. unfold withLock, Eff.bind, emit at 1.
    destruct (tf2model stateData) as [d rec]. cbn [fst snd] in *.
    rewrite Hd. unfold callDelRecords. cbn [world trace].
    destruct (DelRecords client _ _ _ _) as [[e|] w2]; cbn;
      now rewrite <- !app_assoc.
Qed.

(** X11.  For a multi-valued type, after a successful query [Update] makes
    one SetRecords call: with the keep-list followed by the planned record
    when the planned record is not in the keep-list, and with the keep-list
    alone when it is there already and a live record matches the state. *)
Theorem Update_sends_keep_list_and_new_record
  (req : UpdateRequest) (resp : Response) (env : Env World)
  (live : list DNSRecord.t) (w' : World) :
  HasError (RespDiagnostics resp) = false ->
  HasError (fst (Plan_Get req)) = false ->
  HasError (fst (State_Get req)) = false ->
  IsSingleValue (recType (snd (Plan_Get req))) = false ->
  GetRecords client (apiDomain (snd (State_Get req)))
             (recType (snd (State_Get req)))
             (recName (snd (State_Get req))) (world env)
    = (inl live, w') ->
  (~ In (ourRec (apiRec (snd (Plan_Get req))))
        (map ToUpdate (others (apiRec (snd (State_Get req))) live)) ->
   trace (snd (Update errorText client SameKey ToUpdate IsSingleValue
                      req resp env))
   = (trace env
      ++ [EvLock;
          EvGetRecords (apiDomain (snd (State_Get req)))
            (recType (snd (State_Get req))) (recName (snd (State_Get req)));
          EvSetRecords (apiDomain (snd (Plan_Get req)))
            (recType (snd (Plan_Get req))) (recName (snd (Plan_Get req)))
            (map ToUpdate (others (apiRec (snd (State_Get req))) live)
             ++ [ourRec (apiRec (snd (Plan_Get req)))]);
          EvUnlock])%list)
  /\ (In (ourRec (apiRec (snd (Plan_Get req))))
         (map ToUpdate (others (apiRec (snd (State_Get req))) live)) ->
      (exists rec, In rec live
                   /\ SameKey rec (apiRec (snd (State_Get req))) = true) ->
      trace (snd (Update errorText client SameKey ToUpdate IsSingleValue
                         req resp env))
      = (trace env
         ++ [EvLock;
             EvGetRecords (apiDomain (snd (State_Get req)))
               (recType (snd (State_Get req))) (recName (snd (State_Get req)));
             EvSetRecords (apiDomain (snd (Plan_Get req)))
               (recType (snd (Plan_Get req))) (recName (snd (Plan_Get req)))
               (map ToUpdate (others (apiRec (snd (State_Get req))) live));
             EvUnlock])%list).
Proof.
  intros Hresp Hplan Hstate Hmulti Hget.
  assert (Hpre : forall present,
    (0 <=? slices_Index (map ToUpdate (others (apiRec (snd (State_Get req))) live))
             (ourRec (apiRec (snd (Plan_Get req)))))%Z = present ->
    (present && (List.length (matching (apiRec (snd (State_Get req))) live) =? 0)%nat)
      = false ->
    trace (snd (Update errorText client SameKey ToUpdate IsSingleValue
                       req resp env))
    = (trace env
       ++ [EvLock;
           EvGetRecords (apiDomain (snd (State_Get req)))
             (recType (snd (State_Get req))) (recName (snd (State_Get req)));
           EvSetRecords (apiDomain (snd (Plan_Get req)))
             (recType (snd (Plan_Get req))) (recName (snd (Plan_Get req)))
             (if present
              then map ToUpdate (others (apiRec (snd (State_Get req))) live)
              else map ToUpdate (others (apiRec (snd (State_Get req))) live)
                   ++ [ourRec (apiRec (snd (Plan_Get req)))]);
           EvUnlock])%list).
  { intros present Hidx Hnot. unfold Update.
    destruct (Plan_Get req) as [pdiags planData].
    destruct (State_Get req) as [sdiags stateData]. cbn [fst snd] in *.
    assert (H1 : HasError (RespDiagnostics (appendDiags resp pdiags)) = false)
      by now apply HasError_Append.
    assert (H2 : HasError (RespDiagnostics
                   (appendDiags (appendDiags resp pdiags) sdiags)) = false)
      by now apply HasError_Append.
    rewrite H1. unfold withLock, Eff.bind, emit at 1.
    destruct (tf2model planData) as [d plan] eqn:Etf. cbn [fst snd] in *.
    rewrite Hmulti, H2.
    assert (Hget' :
      GetRecords client (apiDomain stateData) (recType stateData)
        (recName stateData)
        (world {| world := world env; trace := (trace env ++ [EvLock])%list |})
      = (inl live, w')) by exact Hget.
    rewrite (apiRecsToKeep_run _ _ _ _ _ _ _ Hget').
    rewrite Hidx.
    destruct (List.length (matching (apiRec stateData) live) =? 0)%nat;
      destruct present; try discriminate; cbn [isRecordGone negb andb];
      unfold callSetRecords; cbn [world trace];
      destruct (SetRecords client _ _ _ _ _) as [[e|] w2]; cbn;
      now rewrite <- !app_assoc. }
  split.
  - intro Hn. apply (Hpre false); [now apply slices_Index_absent | reflexivity].
  - intros Hin (rec0 & Hin0 & Hk0). apply (Hpre true).
    + now apply slices_Index_present.
    + cbn [andb]. apply Nat.eqb_neq. exact (filter_some _ _ _ Hin0 Hk0).
Qed.

(** X12.  When the query of a multi-valued [Update] or [Delete] fails, the
    operation adds one error that quotes the client's error, leaves the
    state as it was and makes no further call. *)
Theorem query_failure_stops_before_any_mutation
  (ureq : UpdateRequest) (dreq : DeleteRequest) (resp : Response)
  (env : Env World) (err : ApiErr) (w' : World) :
  HasError (RespDiagnostics resp) = false ->
  HasError (fst (Plan_Get ureq)) = false ->
  HasError (fst (State_Get ureq)) = false ->
  HasError (fst (DeleteState_Get dreq)) = false ->
  IsSingleValue (recType (snd (Plan_Get ureq))) = false ->
  IsSingleValue (recType (snd (DeleteState_Get dreq))) = false ->
  GetRecords client (apiDomain (snd (State_Get ureq)))
             (recType (snd (State_Get ureq)))
             (recName (snd (State_Get ureq))) (world env) = (inr err, w') ->
  GetRecords client (apiDomain (snd (DeleteState_Get dreq)))
             (recType (snd (DeleteState_Get dreq)))
             (recName (snd (DeleteState_Get dreq))) (world env) = (inr err, w') ->
  Update errorText client SameKey ToUpdate IsSingleValue ureq resp env
  = (addError (appendDiags (appendDiags resp (fst (Plan_Get ureq)))
                           (fst (State_Get ureq)))
       "Client Error"
       ("Getting DNS records to keep failed: Client error: query failed: "
        ++ errorText err),
     {| world := w';
        trace := (trace env
                  ++ [EvLock;
                      EvGetRecords (apiDomain (snd (State_Get ureq)))
                        (recType (snd (State_Get ureq)))
                        (recName (snd (State_Get ureq)));
                      EvUnlock])%list |})
  /\ Delete errorText client SameKey ToUpdate IsSingleValue dreq resp env
     = (addError (appendDiags (appendDiags resp (fst (DeleteState_Get dreq)))
                              (fst (DeleteState_Get dreq)))
          "Client Error"
          ("Getting DNS records to keep failed: Client error: query failed: "
           ++ errorText err),
        {| world := w';
           trace := (trace env
                     ++ [EvLock;
                         EvGetRecords (apiDomain (snd (DeleteState_Get dreq)))
                           (recType (snd (DeleteState_Get dreq)))
                           (recName (snd (DeleteState_Get dreq)));
                         EvUnlock])%list |}).
Proof.
  intros Hresp Hplan Hstate Hdstate Hmu Hmd Hgu Hgd. split.
  - unfold Update.
    destruct (Plan_Get ureq) as [pdiags planData].
    destruct (State_Get ureq) as [sdiags stateData]. cbn [fst snd] in *.
    assert (H1 : HasError (RespDiagnostics (appendDiags resp pdiags)) = false)
      by now apply HasError_Append.
    assert (H2 : HasError (RespDiagnostics
                   (appendDiags (appendDiags resp pdiags) sdiags)) = false)
      by now apply HasError_Append.
    rewrite H1. unfold withLock, Eff.bind, emit at 1.
    destruct (tf2model planData) as [d plan]. cbn [fst snd] in *.
    rewrite Hmu, H2. unfold apiRecsToKeep, Eff.bind, callGetRecords.
    destruct (tf2model stateData) as [sd st]. cbn [fst snd world trace] in *.
    rewrite Hgu. cbn. now rewrite <- !app_assoc.
  - unfold Delete.
    destruct (DeleteState_Get dreq) as [diags stateData]. cbn [fst snd] in *.
    assert (H1 : HasError (RespDiagnostics (appendDiags resp diags)) = false)
      by now apply HasError_Append.
    assert (H2 : HasError (RespDiagnostics
                   (appendDiags (appendDiags resp diags) diags)) = false)
      by now apply HasError_Append.
    rewrite H1. unfold withLock, Eff.bind, emit at 1.
    unfold apiRecsToKeep, Eff.bind, callGetRecords.
    destruct (tf2model stateData) as [sd st]. cbn [fst snd world trace] in *.
    rewrite Hmd, H2. cbn [world trace]. rewrite Hgd. cbn.
    now rewrite <- !app_assoc.
Qed.

End WithClientExtra.


(** *** The theorems at work on the test double *)

Lemma Read_absent_removes_resource_witness :
  GetRecords Fixture.mockClient "example.com" "TXT" "@" [Fixture.txtB]
  = (inl [Fixture.txtB], [Fixture.txtB])
  /\ Fixture.SameKey Fixture.txtB (snd (tf2model Fixture.stateA)) = false
  /\ fst (Read (fun e => e) Fixture.mockClient Fixture.SameKey
            {| ReadState_Get := ([], Fixture.stateA) |} Fixture.emptyResp
            (Fixture.startEnv [Fixture.txtB]))
     = {| RespDiagnostics := []; RespState := None |}.
Proof.
  split; [reflexivity|]. split; [reflexivity|].
  assert (Hnone : forall rec, In rec [Fixture.txtB] ->
            Fixture.SameKey rec (snd (tf2model Fixture.stateA)) = false).
  { intros rec [<-|[]]. reflexivity. }
  pose proof (Read_absent_removes_resource (fun e => e) Fixture.mockClient
                Fixture.SameKey {| ReadState_Get := ([], Fixture.stateA) |}
                Fixture.emptyResp (Fixture.startEnv [Fixture.txtB])
                [Fixture.txtB] [Fixture.txtB] eq_refl eq_refl eq_refl Hnone)
    as (H & _).
  exact H.
Defined.

Lemma Read_takes_the_last_match_witness :
  filter (fun rec => Fixture.SameKey rec (snd (tf2model Fixture.stateA)))
         [Fixture.txtA; Fixture.txtB; FixtureExtra.txtALongTTL]
  = [Fixture.txtA; FixtureExtra.txtALongTTL]
  /\ exists st : tfDNSRecord.t,
       RespState (fst (Read (fun e => e) Fixture.mockClient Fixture.SameKey
                         {| ReadState_Get := ([], Fixture.stateA) |}
                         Fixture.emptyResp
                         (Fixture.startEnv
                            [Fixture.txtA; Fixture.txtB;
                             FixtureExtra.txtALongTTL]))) = Some st
       /\ tfDNSRecord.TTL st = Some 7200%Z.
Proof.
  split; [reflexivity|].
  destruct (Read_takes_the_last_match (fun e => e) Fixture.mockClient
              Fixture.SameKey {| ReadState_Get := ([], Fixture.stateA) |}
              Fixture.emptyResp
              (Fixture.startEnv
                 [Fixture.txtA; Fixture.txtB; FixtureExtra.txtALongTTL])
              [Fixture.txtA; Fixture.txtB; FixtureExtra.txtALongTTL]
              [Fixture.txtA] FixtureExtra.txtALongTTL
              [Fixture.txtA; Fixture.txtB; FixtureExtra.txtALongTTL]
              eq_refl eq_refl eq_refl eq_refl)
    as (st & H1 & _ & H3 & _).
  exists st. split; [exact H1 | exact H3].
Defined.

Lemma single_valued_Update_and_Delete_do_not_query_witness :
  Fixture.IsSingleValue "CNAME" = true
  /\ trace (snd (Delete (fun e => e) Fixture.mockClient Fixture.SameKey
                   Fixture.ToUpdate Fixture.IsSingleValue
                   {| DeleteState_Get :=
                        ([], FixtureExtra.cnameState "www" "one.example.net") |}
                   Fixture.emptyResp (Fixture.startEnv [])))
     = [EvLock; EvDelRecords "example.com" "CNAME" "www"; EvUnlock].
Proof.
  split; [reflexivity|].
  pose proof (single_valued_Update_and_Delete_do_not_query (fun e => e)
                Fixture.mockClient Fixture.SameKey Fixture.ToUpdate
                Fixture.IsSingleValue
                {| Plan_Get := ([], FixtureExtra.cnameState "www" "two.example.net");
                   State_Get := ([], FixtureExtra.cnameState "www" "one.example.net") |}
                {| DeleteState_Get :=
                     ([], FixtureExtra.cnameState "www" "one.example.net") |}
                Fixture.emptyResp (Fixture.startEnv [])
                eq_refl eq_refl eq_refl eq_refl eq_refl) as [_ H].
  exact H.
Defined.

Lemma Update_sends_keep_list_and_new_record_witness :
  Fixture.IsSingleValue "TXT" = false
  /\ trace (snd (Update (fun e => e) Fixture.mockClient Fixture.SameKey
                   Fixture.ToUpdate Fixture.IsSingleValue
                   {| Plan_Get := ([], FixtureExtra.planC);
                      State_Get := ([], Fixture.stateA) |}
                   Fixture.emptyResp
                   (Fixture.startEnv [Fixture.txtA; Fixture.txtB])))
     = [EvLock; EvGetRecords "example.com" "TXT" "@";
        EvSetRecords "example.com" "TXT" "@"
          [Fixture.ToUpdate Fixture.txtB; Fixture.ToUpdate FixtureExtra.txtC];
        EvUnlock].
Proof.
  split; [reflexivity|].
  pose proof (Update_sends_keep_list_and_new_record (fun e => e)
                Fixture.mockClient Fixture.SameKey Fixture.ToUpdate
                Fixture.IsSingleValue
                {| Plan_Get := ([], FixtureExtra.planC);
                   State_Get := ([], Fixture.stateA) |}
                Fixture.emptyResp
                (Fixture.startEnv [Fixture.txtA; Fixture.txtB])
                [Fixture.txtA; Fixture.txtB] [Fixture.txtA; Fixture.txtB]
                eq_refl eq_refl eq_refl eq_refl eq_refl) as [H _].
  apply H. intros [E|[]]. discriminate E.
Defined.

Lemma query_failure_stops_before_any_mutation_witness :
  GetRecords FixtureExtra.failingQueryClient "example.com" "TXT" "@"
             [Fixture.txtA]
  = (inr "timeout", [Fixture.txtA])
  /\ Delete (fun e => e) FixtureExtra.failingQueryClient Fixture.SameKey
       Fixture.ToUpdate Fixture.IsSingleValue
       {| DeleteState_Get := ([], Fixture.stateA) |} Fixture.emptyResp
       (Fixture.startEnv [Fixture.txtA])
     = ({| RespDiagnostics :=
             [ {| severity := SeverityError; summary := "Client Error";
                  detail := "Getting DNS records to keep failed: Client error: query failed: timeout" |} ];
           RespState := None |},
        {| world := [Fixture.txtA];
           trace := [EvLock; EvGetRecords "example.com" "TXT" "@"; EvUnlock] |}).
Proof.
  split; [reflexivity|].
  pose proof (query_failure_stops_before_any_mutation (fun e => e)
                FixtureExtra.failingQueryClient Fixture.SameKey
                Fixture.ToUpdate Fixture.IsSingleValue
                {| Plan_Get := ([], FixtureExtra.planC);
                   State_Get := ([], Fixture.stateA) |}
                {| DeleteState_Get := ([], Fixture.stateA) |}
                Fixture.emptyResp (Fixture.startEnv [Fixture.txtA])
                "timeout" [Fixture.txtA]
                eq_refl eq_refl eq_refl eq_refl eq_refl eq_refl eq_refl eq_refl)
    as [_ H].
  exact H.
Defined.

(** *** Import identifiers of record.go *)

(** X13.  An identifier [domain:type:name:data] whose first three fields
    hold no colon imports exactly those four attributes, with no
    diagnostic; the data may hold colons. *)
Theorem record_ImportState_round_trip (Quote : string -> string)
  (domain type name data : string) :
  Count domain IMPORT_SEP = 0%nat -> Count type IMPORT_SEP = 0%nat ->
  Count name IMPORT_SEP = 0%nat ->
  ImportState Quote (domain ++ ":" ++ type ++ ":" ++ name ++ ":" ++ data)
    {| ImportDiagnostics := []; ImportAttrs := [] |}
  = {| ImportDiagnostics := [];
       ImportAttrs := [("domain", domain); ("type", type); ("name", name);
                       ("data", data)] |}.
Proof.
  intros Hd Ht Hn. unfold ImportState, SplitN.
  change (domain ++ ":" ++ type ++ ":" ++ name ++ ":" ++ data)
    with (domain ++ String IMPORT_SEP (type ++ String IMPORT_SEP
            (name ++ String IMPORT_SEP data))).
  rewrite !splitNFrom_field by assumption. rewrite splitNFrom_one.
  reflexivity.
Qed.

Lemma record_ImportState_round_trip_witness :
  ImportState (fun s => s) "example.com:TXT:@:v=spf1 include:example.com ~all"
    {| ImportDiagnostics := []; ImportAttrs := [] |}
  = {| ImportDiagnostics := [];
       ImportAttrs := [("domain", "example.com"); ("type", "TXT");
                       ("name", "@");
                       ("data", "v=spf1 include:example.com ~all")] |}.
Proof.
  exact (record_ImportState_round_trip (fun s => s) "example.com" "TXT" "@"
           "v=spf1 include:example.com ~all" eq_refl eq_refl eq_refl).
Defined.

(** X14.  The import of record.go is refused, with one error quoting the
    identifier and no attribute set, exactly when the identifier holds
    fewer than three colons; otherwise the four fields of the bounded split
    are imported and no diagnostic is added. *)
Theorem record_ImportState_needs_three_separators (Quote : string -> string)
  (id : string) :
  ImportState Quote id {| ImportDiagnostics := []; ImportAttrs := [] |}
  = if (Count id IMPORT_SEP <? 3)%nat
    then {| ImportDiagnostics :=
              [ {| severity := SeverityError;
                   summary := "Unexpected Import Identifier";
                   detail := "Expected import identifier format: domain:TYPE:name:data"
                             ++ "like mydom.com:CNAME:www.subdom:www.other.com. Got: "
                             ++ Quote id |} ];
            ImportAttrs := [] |}
    else {| ImportDiagnostics := [];
            ImportAttrs :=
              [("domain", nth 0 (SplitN id IMPORT_SEP 4) "");
               ("type", nth 1 (SplitN id IMPORT_SEP 4) "");
               ("name", nth 2 (SplitN id IMPORT_SEP 4) "");
               ("data", nth 3 (SplitN id IMPORT_SEP 4) "")] |}.
Proof.
  unfold ImportState. unfold SplitN at 1. rewrite splitNFrom_length.
  destruct (Nat.ltb_spec (Count id IMPORT_SEP) 3) as [Hlt|Hge].
  - replace (Nat.min 4 (S (Count id IMPORT_SEP)) =? 4)%nat with false
      by (symmetry; apply Nat.eqb_neq; lia).
    reflexivity.
  - replace (Nat.min 4 (S (Count id IMPORT_SEP)) =? 4)%nat with true
      by (symmetry; apply Nat.eqb_eq; lia).
    reflexivity.
Qed.

End RecordExtra.

(** ** Import identifiers of the Technitium record resource: further
    properties *)

Module ImportExtra.
Import Framework GoStrings TechnitiumRecord GoStringsExtra.

Lemma Split_four (a b c d : string) :
  Count a IMPORT_SEP = 0%nat -> Count b IMPORT_SEP = 0%nat ->
  Count c IMPORT_SEP = 0%nat -> Count d IMPORT_SEP = 0%nat ->
  Split (a ++ ":" ++ b ++ ":" ++ c ++ ":" ++ d) IMPORT_SEP = [a; b; c; d].
Proof.
  intros Ha Hb Hc Hd. unfold Split.
  change (a ++ ":" ++ b ++ ":" ++ c ++ ":" ++ d)
    with (a ++ String IMPORT_SEP (b ++ String IMPORT_SEP
            (c ++ String IMPORT_SEP d))).
  rewrite !splitFrom_field by assumption. now rewrite splitFrom_last.
Qed.

(** X15.  For the ten types whose value is one string attribute, an
    identifier [zone:name:type:value] with no colon inside its fields
    imports the domain (the zone itself for the name [@], else
    [name.zone]), the type, the value under the attribute of that type, and
    the TTL 3600, with no diagnostic. *)
Theorem ImportState_round_trip_value_types
  (zone name ty attr value : string) :
  In (ty, attr)
     [("A", "ip_address"); ("AAAA", "ip_address"); ("CNAME", "cname");
      ("NS", "name_server"); ("PTR", "ptr_name"); ("TXT", "text");
      ("ANAME", "aname"); ("DNAME", "dname"); ("FWD", "forwarder");
      ("URI", "uri")] ->
  Count zone IMPORT_SEP = 0%nat -> Count name IMPORT_SEP = 0%nat ->
  Count value IMPORT_SEP = 0%nat ->
  ImportState (zone ++ ":" ++ name ++ ":" ++ ty ++ ":" ++ value) emptyResponse
  = {| Diagnostics_ := [];
       State := [("domain",
                  AttrString (if name =? "@" then zone else name ++ "." ++ zone));
                 ("type", AttrString ty);
                 (attr, AttrString value);
                 ("ttl", AttrInt64 3600)] |}.
Proof.
  intros Hin Hz Hn Hv. unfold ImportState.
  assert (Hty : Count ty IMPORT_SEP = 0%nat).
  { cbn in Hin. repeat (destruct Hin as [Hin|Hin]; [injection Hin as <- <-; reflexivity|]).
    contradiction. }
  rewrite Split_four by assumption. cbn [List.length Nat.eqb negb nth].
  cbn in Hin.
  repeat (destruct Hin as [Hin|Hin]; [injection Hin as <- <-; reflexivity|]).
  contradiction.
Qed.

Lemma ImportState_round_trip_value_types_witness :
  ImportState "example.com:www:CNAME:target.example.net" emptyResponse
  = {| Diagnostics_ := [];
       State := [("domain", AttrString "www.example.com");
                 ("type", AttrString "CNAME");
                 ("cname", AttrString "target.example.net");
                 ("ttl", AttrInt64 3600)] |}.
Proof.
  refine (ImportState_round_trip_value_types "example.com" "www" "CNAME"
            "cname" "target.example.net" _ eq_refl eq_refl eq_refl).
  right. right. left. reflexivity.
Defined.

(** X16.  An MX identifier [zone:name:MX:preference exchange], the value
    split at its first blank, imports the exchange always and the
    preference only when it parses as an integer; a preference that does
    not parse is dropped without any diagnostic. *)
Theorem ImportState_MX_blank_separated
  (zone name pref exchange : string) :
  Count zone IMPORT_SEP = 0%nat -> Count name IMPORT_SEP = 0%nat ->
  Count pref IMPORT_SEP = 0%nat -> Count exchange IMPORT_SEP = 0%nat ->
  Count pref " "%char = 0%nat ->
  ImportState (zone ++ ":" ++ name ++ ":MX:" ++ pref ++ " " ++ exchange)
              emptyResponse
  = {| Diagnostics_ := [];
       State := ([("domain",
                   AttrString (if name =? "@" then zone else name ++ "." ++ zone));
                  ("type", AttrString "MX")]
                 ++ match ParseInt pref with
                    | Some n => [("preference", AttrInt64 n)]
                    | None => []
                    end
                 ++ [("exchange", AttrString exchange);
                     ("ttl", AttrInt64 3600)])%list |}.
Proof.
  intros Hz Hn Hp He Hb. unfold ImportState.
  assert (Hval : Count (pref ++ " " ++ exchange) IMPORT_SEP = 0%nat).
  { rewrite Count_app, Hp. cbn. exact He. }
  change (zone ++ ":" ++ name ++ ":MX:" ++ pref ++ " " ++ exchange)
    with (zone ++ ":" ++ name ++ ":" ++ "MX" ++ ":" ++ (pref ++ " " ++ exchange)).
  rewrite Split_four by (assumption || reflexivity).
  cbn [List.length Nat.eqb negb nth].
  replace ("MX" =? "A") with false by reflexivity.
  replace ("MX" =? "AAAA") with false by reflexivity.
  replace ("MX" =? "CNAME") with false by reflexivity.
  replace ("MX" =? "MX") with true by reflexivity.
  cbn [orb]. unfold SplitN.
  change (pref ++ " " ++ exchange) with (pref ++ String " "%char exchange).
  rewrite splitNFrom_field by exact Hb. rewrite splitNFrom_one.
  cbn [List.length Nat.eqb nth append].
  destruct (ParseInt pref); reflexivity.
Qed.

Lemma ImportState_MX_blank_separated_witness :
  ImportState "example.com:@:MX:ten mail.example.com" emptyResponse
  = {| Diagnostics_ := [];
       State := [("domain", AttrString "example.com");
                 ("type", AttrString "MX");
                 ("exchange", AttrString "mail.example.com");
                 ("ttl", AttrInt64 3600)] |}.
Proof.
  exact (ImportState_MX_blank_separated "example.com" "@" "ten"
           "mail.example.com" eq_refl eq_refl eq_refl eq_refl eq_refl).
Defined.

Lemma setAttr_not_nil st p v : setAttr st p v <> [].
Proof. destruct st as [|[q x] st]; cbn; [discriminate|]. destruct (q =? p); discriminate. Qed.

(** X17.  [ImportState] adds the format error exactly when the identifier
    does not hold exactly three colons, and it sets no attribute exactly
    then: there is no identifier that is refused and partly imported, and
    none that is accepted with nothing imported. *)
Theorem ImportState_accepts_exactly_three_separators (id : string) :
  Diagnostics_ (ImportState id emptyResponse)
  = (if (Count id IMPORT_SEP =? 3)%nat then [] else [formatError id])
  /\ (State (ImportState id emptyResponse) = []
      <-> Count id IMPORT_SEP <> 3%nat).
Proof.
  unfold ImportState. rewrite GoStringsFacts.Split_length.
  change (S (Count id IMPORT_SEP) =? 4)%nat with (Count id IMPORT_SEP =? 3)%nat.
  destruct (Nat.eqb_spec (Count id IMPORT_SEP) 3) as [E|E]; cbn [negb].
  - split.
    + cbn [Diagnostics_ SetAttribute].
      repeat match goal with
             | |- context [if ?c then _ else _] => destruct c
             | |- context [match ?c with Some _ => _ | None => _ end] => destruct c
             end; reflexivity.
    + split; [|contradiction].
      intro H. exfalso. cbn [State SetAttribute] in H.
      exact (setAttr_not_nil _ _ _ H).
  - split; [reflexivity|]. split; [intros _; exact E | reflexivity].
Qed.

End ImportExtra.

(** ** The Technitium resources *)

Module TechnitiumFacts.
Import Framework Technitium RecordFacts DisciplineFacts.

Lemma ifNonEmpty_ValueString (v : tfString) : ifNonEmpty (ValueString v) v = v.
Proof.
  unfold ifNonEmpty. destruct v as [s|]; cbn; [|reflexivity].
  destruct (String.eqb_spec s ""); cbn; [reflexivity | reflexivity].
Qed.

Lemma ifTrue_ValueBool (v : tfBool) : ifTrue (ValueBool v) v = v.
Proof. destruct v as [[|]|]; reflexivity. Qed.

Lemma ifNonZero_fits (bits : Z) (v : tfInt64) :
  fitsIn bits v = true ->
  ifNonZero ((ValueInt64 v) mod 2 ^ bits)%Z v = v.
Proof.
  unfold fitsIn, ifNonZero. destruct v as [z|]; cbn [ValueInt64]; [|reflexivity].
  intro H. apply andb_prop in H as [H0 H1].
  apply Z.leb_le in H0. apply Z.ltb_lt in H1.
  rewrite Z.mod_small by lia.
  destruct (Z.eqb_spec z 0); cbn; [reflexivity | reflexivity].
Qed.

Lemma ifNonEmpty_idem a o : ifNonEmpty a (ifNonEmpty a o) = ifNonEmpty a o.
Proof. unfold ifNonEmpty. destruct (negb (a =? "")); reflexivity. Qed.
Lemma ifNonZero_idem a o : ifNonZero a (ifNonZero a o) = ifNonZero a o.
Proof. unfold ifNonZero. destruct (negb (a =? 0)%Z); reflexivity. Qed.
Lemma ifTrue_idem a o : ifTrue a (ifTrue a o) = ifTrue a o.
Proof. unfold ifTrue. destruct a; reflexivity. Qed.

Lemma model2tf_tf2model_id (s : tfDNSRecord.t) :
  intsInRange s = true -> model2tf (tf2model s) s = s.
Proof.
  intro H. destruct s. unfold intsInRange in H. cbn in H.
  repeat (apply andb_prop in H; destruct H as [H ?]).
  unfold model2tf, tf2model, to_uint16, to_uint32.
  cbn -[ifNonEmpty ifNonZero ifTrue ValueString ValueInt64 ValueBool Z.modulo Z.pow].
  rewrite !ifNonEmpty_ValueString, !ifTrue_ValueBool.
  rewrite !ifNonZero_fits by assumption.
  reflexivity.
Qed.

(** X18.  Reading back what was written changes nothing: for a state whose
    integer attributes fit the unsigned widths of the model,
    [model2tf (tf2model s) s] is [s], null attributes included. *)
Theorem model2tf_tf2model_round_trip (s : tfDNSRecord.t) :
  intsInRange s = true -> model2tf (tf2model s) s = s.
Proof. exact (model2tf_tf2model_id s). Qed.

Lemma model2tf_tf2model_round_trip_witness :
  intsInRange FixtureExtra.hostState = true
  /\ model2tf (tf2model FixtureExtra.hostState) FixtureExtra.hostState
     = FixtureExtra.hostState.
Proof.
  split; [reflexivity|].
  exact (model2tf_tf2model_round_trip FixtureExtra.hostState eq_refl).
Defined.

(** X19.  [model2tf] only overwrites: applying it twice with the same
    record is applying it once, and a record whose fields are all empty,
    zero or false leaves every attribute of the state as it was. *)
Theorem model2tf_only_adds (api : Model.DNSRecord) (tf : tfDNSRecord.t) :
  model2tf api (model2tf api tf) = model2tf api tf
  /\ model2tf (Model.addressRecord "" "" "" "") tf = tf.
Proof.
  split.
  - unfold model2tf.
    cbn -[ifNonEmpty ifNonZero ifTrue].
    now rewrite !ifNonEmpty_idem, !ifNonZero_idem, !ifTrue_idem.
  - destruct tf. reflexivity.
Qed.

Section WithTechnitiumClient.
Context {World ApiErr : Type}.
Variable errorText : ApiErr -> string.
Variable client : DNSApiClient World ApiErr.

Local Abbreviation matching st live :=
  (filter (fun rec => Model.SameKey rec st) live).
Local Abbreviation lockBracketed m :=
  (Discipline.lockBracketed (trace (World := World)) isLockEvent EvLock EvUnlock m).

Lemma call_appends {R : Type} (P : Event -> bool) (e : Event)
  (method : World -> R * World) :
  P e = false -> Discipline.appendsCalls trace P (call e method).
Proof.
  intros He env. unfold call. destruct (method (world env)) as [r w].
  exists [e]. split; [reflexivity|]. cbn. now rewrite He.
Qed.

Lemma emit_appends (P : Event -> bool) (e : Event) :
  P e = false -> Discipline.appendsCalls (trace (World := World)) P (emit e).
Proof.
  intros He env. exists [e]. split; [reflexivity|]. cbn. now rewrite He.
Qed.

Lemma withLock_bracketed {A : Type} (body : Eff.M (Env World) A) :
  Discipline.appendsCalls trace isLockEvent body -> lockBracketed (withLock body).
Proof.
  intros Hb env. right. unfold withLock, Eff.bind, emit at 1.
  destruct (Hb {| world := world env; trace := trace env ++ [EvLock] |})
    as (mid & H & C).
  destruct (body _) as [a env1]. cbn [snd trace emit Eff.ret] in *.
  exists mid. split; [|exact C].
  rewrite H, <- !app_assoc. reflexivity.
Qed.

Lemma ret_bracketed {A : Type} (a : A) : lockBracketed (Eff.ret a).
Proof. intro env. now left. Qed.

Ltac calls :=
  repeat first
    [ apply ret_appends
    | apply call_appends; reflexivity
    | apply emit_appends; reflexivity
    | apply bind_appends; [|intro]
    | match goal with
      | |- Discipline.appendsCalls _ _ (match ?x with _ => _ end) => destruct x
      | |- Discipline.appendsCalls _ _ (if ?c then _ else _) => destruct c
      | |- Discipline.appendsCalls _ _ (let (_, _) := ?x in _) => destruct x
      end ].

Ltac bracket :=
  match goal with
  | |- Discipline.lockBracketed _ _ _ _ (let (_, _) := ?x in _) => destruct x
  end;
  match goal with
  | |- Discipline.lockBracketed _ _ _ _ (if ?c then _ else _) => destruct c
  end; [apply ret_bracketed | apply withLock_bracketed; calls].

(** X20.  Whatever the client answers, each operation of the record
    resource, the zone resource and the zone data source either leaves the
    trace alone (the request did not decode) or appends exactly one Lock,
    then client calls only, then one Unlock. *)
Theorem Technitium_operations_hold_the_lock_around_every_call :
  (forall plan resp, lockBracketed (Create errorText client plan resp))
  /\ (forall state resp, lockBracketed (Read errorText client state resp))
  /\ (forall plan state resp,
        lockBracketed (Update errorText client plan state resp))
  /\ (forall state resp, lockBracketed (Delete errorText client state resp))
  /\ (forall plan resp, lockBracketed (ZoneCreate errorText client plan resp))
  /\ (forall state resp, lockBracketed (ZoneRead errorText client state resp))
  /\ (forall plan state resp,
        lockBracketed (ZoneUpdate errorText client plan state resp))
  /\ (forall state resp,
        lockBracketed (ZoneDelete errorText client state resp))
  /\ (forall config resp,
        lockBracketed (ZoneDataSourceRead errorText client config resp)).
Proof.
  repeat split; intros.
  - unfold Create. bracket.
  - unfold Read. bracket.
  - unfold Update. bracket.
  - unfold Delete. bracket.
  - unfold ZoneCreate. bracket.
  - unfold ZoneRead. bracket.
  - unfold ZoneUpdate. bracket.
  - unfold ZoneDelete. bracket.
  - unfold ZoneDataSourceRead. bracket.
Qed.

Ltac quiet :=
  apply appendsCalls_filter; unfold withLock; calls.

(** X21.  The three read operations never call a mutating method of the
    client, whatever the client answers: the mutating calls in the trace
    after the operation are those before it. *)
Theorem reads_never_mutate :
  (forall state resp env,
     filter isMutation (trace (snd (Read errorText client state resp env)))
     = filter isMutation (trace env))
  /\ (forall state resp env,
        filter isMutation (trace (snd (ZoneRead errorText client state resp env)))
        = filter isMutation (trace env))
  /\ (forall config resp env,
        filter isMutation
          (trace (snd (ZoneDataSourceRead errorText client config resp env)))
        = filter isMutation (trace env)).
Proof.
  repeat split; intros ? resp env.
  - unfold Read. quiet.
  - unfold ZoneRead. quiet.
  - unfold ZoneDataSourceRead. quiet.
Qed.


(** The loop of [Read] only looks at the records that match. *)
Lemma readStep_merge (st : Model.DNSRecord) (live : list Model.DNSRecord) :
  forall (sd : tfDNSRecord.t) (n : nat),
    fold_left (readStep st) live (sd, n)
    = (fold_left (fun s rec => model2tf rec s) (matching st live) sd,
       (n + List.length (matching st live))%nat).
Proof.
  induction live as [|rec live IH]; intros sd n; cbn [filter fold_left].
  - cbn. now rewrite Nat.add_0_r.
  - unfold readStep at 2. destruct (Model.SameKey rec st).
    + rewrite IH. cbn [fold_left List.length]. f_equal. lia.
    + apply IH.
Qed.

Lemma Technitium_Read_run (state : Decoded tfDNSRecord.t) (resp : Response tfDNSRecord.t)
  (env : Env World) (live : list Model.DNSRecord) (w' : World) :
  HasError (RespDiagnostics resp) = false ->
  HasError (fst state) = false ->
  GetRecords client (Model.Domain (tf2model (snd state))) (world env)
    = (inl live, w') ->
  Read errorText client state resp env
  = (match matching (tf2model (snd state)) live with
     | [] => State_RemoveResource (appendDiags resp (fst state))
     | [m] => State_Set (appendDiags resp (fst state)) (model2tf m (snd state))
     | ms => State_Set
               (addWarning (appendDiags resp (fst state))
                  "Duplicate resource instances present" "Will use the last one")
               (fold_left (fun s rec => model2tf rec s) ms (snd state))
     end,
     {| world := w';
        trace := (trace env
                  ++ [EvLock; EvGetRecords (Model.Domain (tf2model (snd state)));
                      EvUnlock])%list |}).
Proof.
  intros Hresp Hdiags Hget. unfold Read. destruct state as [diags sd].
  cbn [fst snd] in *.
  assert (H1 : HasError (RespDiagnostics (appendDiags resp diags)) = false)
    by now apply HasError_Append.
  rewrite H1. unfold withLock, Eff.bind, emit at 1, call. cbn [world trace].
  rewrite Hget.
  assert (E : (if (List.length live =? 0)%nat then (sd, 0%nat)
               else fold_left (readStep (tf2model sd)) live (sd, 0%nat))
              = fold_left (readStep (tf2model sd)) live (sd, 0%nat))
    by (destruct live; reflexivity).
  rewrite E, readStep_merge. cbn [Nat.add].
  destruct (matching (tf2model sd) live) as [|m [|m' ms]];
    cbn; now rewrite <- !app_assoc.
Qed.

(** X22.  When live records match the state, [Read] does not take one of
    them: it folds [model2tf] over all of them in order, starting from the
    prior state, so an attribute keeps the value of the last matching
    record in which it is set; it warns of duplicates exactly when more
    than one record matched. *)
Theorem Read_merges_all_matches
  (state : Decoded tfDNSRecord.t) (resp : Response tfDNSRecord.t)
  (env : Env World) (live : list Model.DNSRecord) (w' : World) :
  HasError (RespDiagnostics resp) = false ->
  HasError (fst state) = false ->
  GetRecords client (Model.Domain (tf2model (snd state))) (world env)
    = (inl live, w') ->
  filter (fun rec => Model.SameKey rec (tf2model (snd state))) live <> [] ->
  RespState (fst (Read errorText client state resp env))
  = Some (fold_left (fun s rec => model2tf rec s)
            (filter (fun rec => Model.SameKey rec (tf2model (snd state))) live)
            (snd state))
  /\ RespDiagnostics (fst (Read errorText client state resp env))
     = (if (1 <? List.length
                   (filter (fun rec => Model.SameKey rec (tf2model (snd state)))
                           live))%nat
        then AddWarning (Append (RespDiagnostics resp) (fst state))
               "Duplicate resource instances present" "Will use the last one"
        else Append (RespDiagnostics resp) (fst state)).
Proof.
  intros Hresp Hdiags Hget Hne.
  rewrite (Technitium_Read_run _ _ _ _ _ Hresp Hdiags Hget).
  destruct (matching (tf2model (snd state)) live) as [|m [|m' ms]];
    [contradiction | split; reflexivity | split; reflexivity].
Qed.

(** X23.  For a state whose type the switch of [SameKey] does not list (SOA
    for one), [Read] removes the resource whatever the server holds. *)
Theorem Read_of_unhandled_type_removes_the_resource
  (state : Decoded tfDNSRecord.t) (resp : Response tfDNSRecord.t)
  (env : Env World) (live : list Model.DNSRecord) (w' : World) :
  HasError (RespDiagnostics resp) = false ->
  HasError (fst state) = false ->
  GetRecords client (Model.Domain (tf2model (snd state))) (world env)
    = (inl live, w') ->
  ~ In (ValueString (tfDNSRecord.Type_ (snd state)))
       [Model.REC_A; Model.REC_AAAA; Model.REC_CNAME; Model.REC_ANAME;
        Model.REC_DNAME; Model.REC_SRV; Model.REC_MX; Model.REC_TXT;
        Model.REC_PTR; Model.REC_NS; Model.REC_NAPTR; Model.REC_DS;
        Model.REC_SSHFP; Model.REC_TLSA; Model.REC_SVCB; Model.REC_HTTPS;
        Model.REC_URI; Model.REC_CAA; Model.REC_FWD; Model.REC_APP] ->
  fst (Read errorText client state resp env)
  = State_RemoveResource (appendDiags resp (fst state)).
Proof.
  intros Hresp Hdiags Hget Hty.
  rewrite (Technitium_Read_run _ _ _ _ _ Hresp Hdiags Hget).
  rewrite filter_none; [reflexivity|].
  intros rec _.
  apply (ModelExtra.SameKey_unlisted_argument (tf2model (snd state)) rec).
  destruct state as [d s]. destruct s. exact Hty.
Qed.

(** X24.  When the only matching live record is the one the state itself
    converts to, [Read] sets the state to what it was. *)
Theorem Read_of_the_unchanged_record_keeps_the_state
  (state : Decoded tfDNSRecord.t) (resp : Response tfDNSRecord.t)
  (env : Env World) (live : list Model.DNSRecord) (w' : World) :
  HasError (RespDiagnostics resp) = false ->
  HasError (fst state) = false ->
  intsInRange (snd state) = true ->
  GetRecords client (Model.Domain (tf2model (snd state))) (world env)
    = (inl live, w') ->
  filter (fun rec => Model.SameKey rec (tf2model (snd state))) live
    = [tf2model (snd state)] ->
  fst (Read errorText client state resp env)
  = State_Set (appendDiags resp (fst state)) (snd state).
Proof.
  intros Hresp Hdiags Hrange Hget Hone.
  rewrite (Technitium_Read_run _ _ _ _ _ Hresp Hdiags Hget). rewrite Hone. cbn [fst].
  now rewrite model2tf_tf2model_id.
Qed.

Lemma findZone_first (name : string) (pre post : list ModelZone.DNSZone)
  (z : ModelZone.DNSZone) :
  (forall x, In x pre -> ModelZone.Name x <> name) ->
  ModelZone.Name z = name ->
  findZone name (pre ++ z :: post) = Some z.
Proof.
  intros Hpre Hz. induction pre as [|x pre IH]; cbn [app findZone].
  - now rewrite Hz, String.eqb_refl.
  - destruct (String.eqb_spec (ModelZone.Name x) name) as [E|E].
    + exfalso. exact (Hpre x (or_introl eq_refl) E).
    + apply IH. intros y Hy. apply Hpre. now right.
Qed.

Lemma findZone_none (name : string) (zones : list ModelZone.DNSZone) :
  (forall x, In x zones -> ModelZone.Name x <> name) ->
  findZone name zones = None.
Proof.
  induction zones as [|x zones IH]; intro H; [reflexivity|]. cbn [findZone].
  destruct (String.eqb_spec (ModelZone.Name x) name) as [E|E].
  - exfalso. exact (H x (or_introl eq_refl) E).
  - apply IH. intros y Hy. apply H. now right.
Qed.

(** X25.  The zone resource and the zone data source both read the first
    listed zone whose name equals the requested one, whatever follows it
    in the list. *)
Theorem zone_reads_take_the_first_zone_of_that_name
  (state : Decoded tfDNSZone.t) (config : Decoded tfDNSZoneDataSource.t)
  (resp : Response tfDNSZone.t) (dresp : Response tfDNSZoneDataSource.t)
  (env : Env World) (pre post : list ModelZone.DNSZone)
  (z : ModelZone.DNSZone) (w' : World) :
  HasError (RespDiagnostics resp) = false ->
  HasError (RespDiagnostics dresp) = false ->
  HasError (fst state) = false ->
  HasError (fst config) = false ->
  ListZones client (world env) = (inl (pre ++ z :: post)%list, w') ->
  (forall x, In x pre ->
     ModelZone.Name x <> ValueString (tfDNSZone.Name (snd state))) ->
  ModelZone.Name z = ValueString (tfDNSZone.Name (snd state)) ->
  ValueString (tfDNSZoneDataSource.Name (snd config))
    = ValueString (tfDNSZone.Name (snd state)) ->
  fst (ZoneRead errorText client state resp env)
  = State_Set (appendDiags resp (fst state)) (modelZone2tf z)
  /\ fst (ZoneDataSourceRead errorText client config dresp env)
     = State_Set (appendDiags dresp (fst config)) (modelZone2tfDataSource z).
Proof.
  intros Hresp Hdresp Hs Hc Hlist Hpre Hz Hname.
  pose proof (findZone_first _ pre post z Hpre Hz) as Hfind.
  split.
  - unfold ZoneRead. destruct state as [diags sd]. cbn [fst snd] in *.
    assert (H1 : HasError (RespDiagnostics (appendDiags resp diags)) = false)
      by now apply HasError_Append.
    rewrite H1. unfold withLock, Eff.bind, emit at 1, call. cbn [world trace].
    rewrite Hlist, Hfind. reflexivity.
  - unfold ZoneDataSourceRead. destruct config as [diags cf]. cbn [fst snd] in *.
    assert (H1 : HasError (RespDiagnostics (appendDiags dresp diags)) = false)
      by now apply HasError_Append.
    rewrite H1. unfold withLock, Eff.bind, emit at 1, call. cbn [world trace].
    rewrite Hlist, Hname, Hfind. reflexivity.
Qed.

(** X26.  When no listed zone has the requested name, the zone resource
    removes the resource without any error, while the data source adds
    the error "Zone not found" and sets no state. *)
Theorem zone_reads_of_a_missing_zone
  (state : Decoded tfDNSZone.t) (config : Decoded tfDNSZoneDataSource.t)
  (resp : Response tfDNSZone.t) (dresp : Response tfDNSZoneDataSource.t)
  (env : Env World) (zones : list ModelZone.DNSZone) (w' : World) :
  HasError (RespDiagnostics resp) = false ->
  HasError (RespDiagnostics dresp) = false ->
  HasError (fst state) = false ->
  HasError (fst config) = false ->
  ListZones client (world env) = (inl zones, w') ->
  (forall x, In x zones ->
     ModelZone.Name x <> ValueString (tfDNSZone.Name (snd state))) ->
  ValueString (tfDNSZoneDataSource.Name (snd config))
    = ValueString (tfDNSZone.Name (snd state)) ->
  fst (ZoneRead errorText client state resp env)
  = State_RemoveResource (appendDiags resp (fst state))
  /\ fst (ZoneDataSourceRead errorText client config dresp env)
     = addError (appendDiags dresp (fst config)) "Zone not found"
         ("Zone with name '" ++ ValueString (tfDNSZone.Name (snd state))
          ++ "' not found").
Proof.
  intros Hresp Hdresp Hs Hc Hlist Hnone Hname.
  pose proof (findZone_none _ zones Hnone) as Hfind.
  split.
  - unfold ZoneRead. destruct state as [diags sd]. cbn [fst snd] in *.
    assert (H1 : HasError (RespDiagnostics (appendDiags resp diags)) = false)
      by now apply HasError_Append.
    rewrite H1. unfold withLock, Eff.bind, emit at 1, call. cbn [world trace].
    rewrite Hlist, Hfind. reflexivity.
  - unfold ZoneDataSourceRead. destruct config as [diags cf]. cbn [fst snd] in *.
    assert (H1 : HasError (RespDiagnostics (appendDiags dresp diags)) = false)
      by now apply HasError_Append.
    rewrite H1. unfold withLock, Eff.bind, emit at 1, call. cbn [world trace].
    rewrite Hlist, Hname, Hfind. reflexivity.
Qed.

(** X27.  [ZoneUpdate] deletes the old zone and only then creates the new
    one: when the deletion fails nothing else is called; when the creation
    fails after a successful deletion the old zone is gone, the error is
    reported and the state is left as it was. *)
Theorem ZoneUpdate_deletes_then_creates
  (plan state : Decoded tfDNSZone.t) (resp : Response tfDNSZone.t)
  (env : Env World) (rdel rcre : option ApiErr) (w1 w2 : World) :
  HasError (RespDiagnostics resp) = false ->
  HasError (fst plan) = false ->
  HasError (fst state) = false ->
  DeleteZone client (ValueString (tfDNSZone.Name (snd state))) (world env)
    = (rdel, w1) ->
  CreateZone client (tfZone2model (snd plan)) w1 = (rcre, w2) ->
  ZoneUpdate errorText client plan state resp env
  = match rdel with
    | Some e =>
        (addError (appendDiags (appendDiags resp (fst plan)) (fst state))
           "Client Error" ("Unable to delete old zone: " ++ errorText e),
         {| world := w1;
            trace := (trace env
                      ++ [EvLock;
                          EvDeleteZone (ValueString (tfDNSZone.Name (snd state)));
                          EvUnlock])%list |})
    | None =>
        (match rcre with
         | Some e =>
             addError (appendDiags (appendDiags resp (fst plan)) (fst state))
               "Client Error" ("Unable to create new zone: " ++ errorText e)
         | None =>
             State_Set (appendDiags (appendDiags resp (fst plan)) (fst state))
                       (snd plan)
         end,
         {| world := w2;
            trace := (trace env
                      ++ [EvLock;
                          EvDeleteZone (ValueString (tfDNSZone.Name (snd state)));
                          EvCreateZone (tfZone2model (snd plan));
                          EvUnlock])%list |})
    end.
Proof.
  intros Hresp Hplan Hstate Hdel Hcre. unfold ZoneUpdate.
  destruct plan as [pdiags planData]. destruct state as [sdiags stateData].
  cbn [fst snd] in *.
  assert (H1 : HasError (RespDiagnostics (appendDiags resp pdiags)) = false)
    by now apply HasError_Append.
  assert (H2 : HasError (RespDiagnostics
                 (appendDiags (appendDiags resp pdiags) sdiags)) = false)
    by now apply HasError_Append.
  rewrite H1. unfold withLock, Eff.bind, emit at 1. rewrite H2.
  unfold call. cbn [world trace]. rewrite Hdel.
  destruct rdel as [e|].
  - cbn. now rewrite <- !app_assoc.
  - cbn [world trace]. rewrite Hcre. destruct rcre as [e|]; cbn;
      now rewrite <- !app_assoc.
Qed.

End WithTechnitiumClient.

(** *** The theorems at work on the test double *)

Lemma Read_merges_all_matches_witness :
  filter (fun rec => Model.SameKey rec (tf2model FixtureExtra.hostState))
         [FixtureExtra.hostRecord; FixtureExtra.hostRecordLongTTL]
  = [FixtureExtra.hostRecord; FixtureExtra.hostRecordLongTTL]
  /\ RespState
       (fst (Read (fun e => e) mockClient
               (FixtureExtra.decoded FixtureExtra.hostState)
               FixtureExtra.emptyTechResp
               (FixtureExtra.techEnv
                  ([FixtureExtra.hostRecord; FixtureExtra.hostRecordLongTTL],
                   []))))
     = Some (addressState "host.example.com" "1.2.3.4" 7200)
  /\ RespDiagnostics
       (fst (Read (fun e => e) mockClient
               (FixtureExtra.decoded FixtureExtra.hostState)
               FixtureExtra.emptyTechResp
               (FixtureExtra.techEnv
                  ([FixtureExtra.hostRecord; FixtureExtra.hostRecordLongTTL],
                   []))))
     = [ {| severity := SeverityWarning;
            summary := "Duplicate resource instances present";
            detail := "Will use the last one" |} ].
Proof.
  split; [reflexivity|].
  assert (Hne : filter (fun rec => Model.SameKey rec
                   (tf2model (snd (FixtureExtra.decoded FixtureExtra.hostState))))
                  [FixtureExtra.hostRecord; FixtureExtra.hostRecordLongTTL]
                <> []) by discriminate.
  exact (Read_merges_all_matches (fun e => e) mockClient
           (FixtureExtra.decoded FixtureExtra.hostState)
           FixtureExtra.emptyTechResp
           (FixtureExtra.techEnv
              ([FixtureExtra.hostRecord; FixtureExtra.hostRecordLongTTL], []))
           [FixtureExtra.hostRecord; FixtureExtra.hostRecordLongTTL]
           ([FixtureExtra.hostRecord; FixtureExtra.hostRecordLongTTL], [])
           eq_refl eq_refl eq_refl Hne).
Defined.

Lemma Read_of_unhandled_type_removes_the_resource_witness :
  GetRecords mockClient "example.com" ([FixtureExtra.soaRecord], [])
  = (inl [FixtureExtra.soaRecord], ([FixtureExtra.soaRecord], []))
  /\ fst (Read (fun e => e) mockClient
            (FixtureExtra.decoded FixtureExtra.soaState)
            FixtureExtra.emptyTechResp
            (FixtureExtra.techEnv ([FixtureExtra.soaRecord], [])))
     = {| RespDiagnostics := []; RespState := None |}.
Proof.
  split; [reflexivity|].
  refine (Read_of_unhandled_type_removes_the_resource (fun e => e) mockClient
            (FixtureExtra.decoded FixtureExtra.soaState)
            FixtureExtra.emptyTechResp
            (FixtureExtra.techEnv ([FixtureExtra.soaRecord], []))
            [FixtureExtra.soaRecord] ([FixtureExtra.soaRecord], [])
            eq_refl eq_refl eq_refl _).
  cbn. intuition discriminate.
Defined.

Lemma Read_of_the_unchanged_record_keeps_the_state_witness :
  fst (Read (fun e => e) mockClient
         (FixtureExtra.decoded FixtureExtra.hostState)
         FixtureExtra.emptyTechResp
         (FixtureExtra.techEnv ([FixtureExtra.hostRecord], [])))
  = {| RespDiagnostics := []; RespState := Some FixtureExtra.hostState |}.
Proof.
  exact (Read_of_the_unchanged_record_keeps_the_state (fun e => e) mockClient
           (FixtureExtra.decoded FixtureExtra.hostState)
           FixtureExtra.emptyTechResp
           (FixtureExtra.techEnv ([FixtureExtra.hostRecord], []))
           [FixtureExtra.hostRecord] ([FixtureExtra.hostRecord], [])
           eq_refl eq_refl eq_refl eq_refl eq_refl).
Defined.

Lemma zone_reads_take_the_first_zone_of_that_name_witness :
  fst (ZoneRead (fun e => e) mockClient
         (FixtureExtra.decoded (FixtureExtra.zoneState "example.com" "Primary"))
         FixtureExtra.emptyTechResp
         (FixtureExtra.techEnv
            ([], [FixtureExtra.zoneOf "other.org" "Primary";
                  FixtureExtra.zoneOf "example.com" "Forwarder";
                  FixtureExtra.zoneOf "example.com" "Primary"])))
  = {| RespDiagnostics := [];
       RespState := Some (modelZone2tf
                            (FixtureExtra.zoneOf "example.com" "Forwarder")) |}.
Proof.
  assert (Hpre : forall x, In x [FixtureExtra.zoneOf "other.org" "Primary"] ->
            ModelZone.Name x <> "example.com").
  { intros x [<-|[]]. discriminate. }
  exact (proj1
    (zone_reads_take_the_first_zone_of_that_name (fun e => e) mockClient
       (FixtureExtra.decoded (FixtureExtra.zoneState "example.com" "Primary"))
       (FixtureExtra.decoded (FixtureExtra.zoneConfig "example.com"))
       FixtureExtra.emptyTechResp FixtureExtra.emptyTechResp
       (FixtureExtra.techEnv
          ([], [FixtureExtra.zoneOf "other.org" "Primary";
                FixtureExtra.zoneOf "example.com" "Forwarder";
                FixtureExtra.zoneOf "example.com" "Primary"]))
       [FixtureExtra.zoneOf "other.org" "Primary"]
       [FixtureExtra.zoneOf "example.com" "Primary"]
       (FixtureExtra.zoneOf "example.com" "Forwarder")
       ([], [FixtureExtra.zoneOf "other.org" "Primary";
             FixtureExtra.zoneOf "example.com" "Forwarder";
             FixtureExtra.zoneOf "example.com" "Primary"])
       eq_refl eq_refl eq_refl eq_refl eq_refl Hpre eq_refl eq_refl)).
Defined.

Lemma zone_reads_of_a_missing_zone_witness :
  fst (ZoneRead (fun e => e) mockClient
         (FixtureExtra.decoded (FixtureExtra.zoneState "example.com" "Primary"))
         FixtureExtra.emptyTechResp
         (FixtureExtra.techEnv ([], [FixtureExtra.zoneOf "other.org" "Primary"])))
  = {| RespDiagnostics := []; RespState := None |}
  /\ fst (ZoneDataSourceRead (fun e => e) mockClient
            (FixtureExtra.decoded (FixtureExtra.zoneConfig "example.com"))
            FixtureExtra.emptyTechResp
            (FixtureExtra.techEnv
               ([], [FixtureExtra.zoneOf "other.org" "Primary"])))
     = {| RespDiagnostics :=
            [ {| severity := SeverityError; summary := "Zone not found";
                 detail := "Zone with name 'example.com' not found" |} ];
          RespState := None |}.
Proof.
  assert (Hnone : forall x, In x [FixtureExtra.zoneOf "other.org" "Primary"] ->
            ModelZone.Name x <> "example.com").
  { intros x [<-|[]]. discriminate. }
  exact (zone_reads_of_a_missing_zone (fun e => e) mockClient
           (FixtureExtra.decoded (FixtureExtra.zoneState "example.com" "Primary"))
           (FixtureExtra.decoded (FixtureExtra.zoneConfig "example.com"))
           FixtureExtra.emptyTechResp FixtureExtra.emptyTechResp
           (FixtureExtra.techEnv
              ([], [FixtureExtra.zoneOf "other.org" "Primary"]))
           [FixtureExtra.zoneOf "other.org" "Primary"]
           ([], [FixtureExtra.zoneOf "other.org" "Primary"])
           eq_refl eq_refl eq_refl eq_refl eq_refl Hnone eq_refl).
Defined.

Lemma ZoneUpdate_deletes_then_creates_witness :
  ZoneUpdate (fun e => e) failingCreateClient
    (FixtureExtra.decoded (FixtureExtra.zoneState "example.com" "Forwarder"))
    (FixtureExtra.decoded (FixtureExtra.zoneState "example.com" "Primary"))
    FixtureExtra.emptyTechResp
    (FixtureExtra.techEnv ([], [FixtureExtra.zoneOf "example.com" "Primary"]))
  = ({| RespDiagnostics :=
          [ {| severity := SeverityError; summary := "Client Error";
               detail := "Unable to create new zone: zone creation refused" |} ];
        RespState := None |},
     {| world := ([], []);
        trace := [EvLock; EvDeleteZone "example.com";
                  EvCreateZone (FixtureExtra.zoneOf "example.com" "Forwarder");
                  EvUnlock] |}).
Proof.
  exact (ZoneUpdate_deletes_then_creates (fun e => e) failingCreateClient
           (FixtureExtra.decoded (FixtureExtra.zoneState "example.com" "Forwarder"))
           (FixtureExtra.decoded (FixtureExtra.zoneState "example.com" "Primary"))
           FixtureExtra.emptyTechResp
           (FixtureExtra.techEnv
              ([], [FixtureExtra.zoneOf "example.com" "Primary"]))
           None (Some "zone creation refused") ([], []) ([], [])
           eq_refl eq_refl eq_refl eq_refl eq_refl).
Defined.

End TechnitiumFacts.

(** ** Names of the Technitium client *)

Module ClientFacts.
Import Client.

Lemma length_append (a b : string) :
  String.length (a ++ b) = (String.length a + String.length b)%nat.
Proof. induction a as [|c a IH]; cbn; [reflexivity | now rewrite IH]. Qed.

Lemma substring_all (b : string) : String.substring 0 (String.length b) b = b.
Proof. induction b as [|c b IH]; cbn; [reflexivity | now rewrite IH]. Qed.

Lemma substring_skip (a b : string) :
  String.substring (String.length a) (String.length b) (a ++ b) = b.
Proof. induction a as [|c a IH]; cbn; [apply substring_all | exact IH]. Qed.

Lemma HasSuffix_append (a b : string) : HasSuffix (a ++ b) b = true.
Proof.
  unfold HasSuffix. rewrite length_append.
  replace (String.length a + String.length b - String.length b)%nat
    with (String.length a) by lia.
  rewrite substring_skip, String.eqb_refl.
  rewrite andb_true_r. apply Nat.leb_le. lia.
Qed.

(** X28.  The full domain built from a record name and a zone is the zone
    itself or ends in [.zone]. *)
Theorem constructFullDomain_stays_in_zone (name zone : string) :
  constructFullDomain name zone = zone
  \/ HasSuffix (constructFullDomain name zone) ("." ++ zone) = true.
Proof.
  unfold constructFullDomain.
  destruct ((name =? "@") || (name =? "")); [now left|].
  destruct (HasSuffix name ("." ++ zone)) eqn:E; [now right|].
  destruct (String.eqb_spec name zone) as [->|Hn]; [now left|].
  right. apply HasSuffix_append.
Qed.

Lemma joined_name_is_not_root (name zone : string) :
  name <> "" ->
  ((name ++ "." ++ zone) =? "@") || ((name ++ "." ++ zone) =? "") = false.
Proof.
  intro Hne. destruct name as [|c name]; [contradiction|].
  destruct name as [|c' name]; cbn; destruct (Ascii.eqb c "@"); reflexivity.
Qed.

(** X29.  Building the full domain is idempotent: a name that is already
    the result of [constructFullDomain] for the zone is returned as it
    is. *)
Theorem constructFullDomain_idempotent (name zone : string) :
  constructFullDomain (constructFullDomain name zone) zone
  = constructFullDomain name zone.
Proof.
  unfold constructFullDomain at 2 3.
  destruct ((name =? "@") || (name =? "")) eqn:E0.
  - unfold constructFullDomain.
    destruct ((zone =? "@") || (zone =? "")); [reflexivity|].
    destruct (HasSuffix zone ("." ++ zone)); [reflexivity|].
    now rewrite String.eqb_refl.
  - destruct (HasSuffix name ("." ++ zone)) eqn:E1.
    + unfold constructFullDomain. now rewrite E0, E1.
    + destruct (String.eqb_spec name zone) as [->|Hn].
      * unfold constructFullDomain. now rewrite E0, E1, String.eqb_refl.
      * unfold constructFullDomain.
        rewrite (HasSuffix_append name ("." ++ zone)).
        apply orb_false_elim in E0 as [_ Hne].
        apply String.eqb_neq in Hne.
        now rewrite (joined_name_is_not_root name zone Hne).
Qed.

End ClientFacts.
